(** * Failure-analysis pipeline (poc/langgraph_poc): embedding and properties

    The development follows the Python sources file by file:

    - [Text], [Builtins]  : Python text, exceptions and the builtins the code calls;
    - [Xml]               : the ElementTree fragment used by [clients/xml_reader.py];
    - [XmlReader]         : [XMLReportReader] (format detection, JUnit/TestNG parsing,
                            failure extraction, [merge_reports]);
    - [TestFinder]        : [JavaTestFinder];
    - [JavaExecutor]      : [JavaTestExecutor];
    - [Nodes], [Graph]    : the six workflow nodes and the compiled graph.

    Python [str] values are sequences of Unicode code points and [float]
    values are binary64 numbers.  What depends on the Unicode database or on
    the platform (character classes, case mapping, [int()], [float()],
    [pathlib]) is a field of the class [Builtins]; what touches the outside
    world (files, the build tool, the language model, the clock) is a field of
    the record [World]. *)

From Stdlib Require Import String Ascii.
From Stdlib Require Import ZArith NArith List Bool Lia Permutation.
From Stdlib Require Import Uint63 PrimFloat FloatOps SpecFloat DecimalString.
Import ListNotations.

Set Implicit Arguments.
Set Warnings "-register-all,-inexact-float".
Open Scope Z_scope.

(* ------------------------------------------------------------------------- *)
(** ** Python text *)

Module Text.

Definition char := N.
Definition str := list char.

(** An ASCII literal of the source as a code-point sequence. *)
Definition lit (s : String.string) : str :=
  List.map N_of_ascii (list_ascii_of_string s).
Arguments lit s%_string.

Definition char_eqb (a b : char) : bool := N.eqb a b.

Fixpoint str_eqb (a b : str) : bool :=
  match a, b with
  | [], [] => true
  | x :: a', y :: b' => char_eqb x y && str_eqb a' b'
  | _, _ => false
  end.

(** Truthiness of a [str]: the empty string is falsy. *)
Definition truthy (s : str) : bool :=
  match s with [] => false | _ => true end.

(** Truthiness of a list. *)
Definition truthy_list {A} (l : list A) : bool :=
  match l with [] => false | _ => true end.

(** [s.startswith(p)] *)
Fixpoint starts_with (p s : str) : bool :=
  match p, s with
  | [], _ => true
  | x :: p', y :: s' => char_eqb x y && starts_with p' s'
  | _ :: _, [] => false
  end.

(** [sub in s] *)
Fixpoint contains (sub s : str) : bool :=
  starts_with sub s ||
  match s with
  | [] => false
  | _ :: s' => contains sub s'
  end.

(** [s.split(sep)] for a non-empty separator: leftmost, non-overlapping
    occurrences.  [skip] counts the characters of a separator still to drop,
    [cur] is the current piece, reversed. *)
Fixpoint split_go (sep s : str) (skip : nat) (cur : str) : list str :=
  match s with
  | [] => [rev cur]
  | c :: s' =>
      match skip with
      | S k => split_go sep s' k cur
      | O =>
          if starts_with sep s
          then rev cur :: split_go sep s' (length sep - 1) []
          else split_go sep s' 0 (c :: cur)
      end
  end.

Definition split (sep s : str) : list str := split_go sep s 0 [].

(** [sep.join(parts)] *)
Fixpoint join (sep : str) (parts : list str) : str :=
  match parts with
  | [] => []
  | [p] => p
  | p :: rest => p ++ sep ++ join sep rest
  end.

Definition newline : str := [10%N].

(** [s.split('\n')] *)
Definition split_lines (s : str) : list str := split newline s.

(** Leading characters satisfying [p] removed. *)
Fixpoint drop_while (p : char -> bool) (s : str) : str :=
  match s with
  | [] => []
  | c :: s' => if p c then drop_while p s' else s
  end.

Definition drop_while_end (p : char -> bool) (s : str) : str :=
  rev (drop_while p (rev s)).

Definition mem_char (c : char) (set : str) : bool :=
  existsb (char_eqb c) set.

(** [s.lstrip(chars)] *)
Definition lstrip_chars (chars s : str) : str :=
  drop_while (fun c => mem_char c chars) s.

(** [str(n)] for an [int]. *)
Definition str_of_Z (z : Z) : str := lit (NilZero.string_of_int (Z.to_int z)).

(** [len(s)] *)
Definition len {A} (l : list A) : Z := Z.of_nat (length l).

(** [l[:n]] for a non-negative literal [n]. *)
Definition take {A} (n : nat) (l : list A) : list A := firstn n l.

(** The lines of [a] occur in [b], in this order. *)
Fixpoint subseq (a b : list str) : bool :=
  match a, b with
  | [], _ => true
  | _ :: _, [] => false
  | x :: a', y :: b' => if str_eqb x y then subseq a' b' else subseq a b'
  end.

(** [f"{x:.<digits>f}"]: the exact binary value, rounded half-to-even to
    [digits] decimals. *)
Definition round_half_even (num den : Z) : Z :=
  let q := num / den in
  match Z.compare (2 * (num mod den)) den with
  | Lt => q
  | Gt => q + 1
  | Eq => if Z.even q then q else q + 1
  end.

Definition zeros (n : nat) : str := repeat 48%N n.

(** The decimal digits of [n >= 0] with a point before the last [digits]. *)
Definition fixed_digits (digits : nat) (n : Z) : str :=
  let ds := str_of_Z n in
  let ds := zeros (S digits - length ds) ++ ds in
  let k := (length ds - digits)%nat in
  match digits with
  | O => ds
  | _ => firstn k ds ++ lit "." ++ skipn k ds
  end.

Definition sign_str (s : bool) : str := if s then lit "-" else [].

Definition fmt_fixed (digits : nat) (x : float) : str :=
  match Prim2SF x with
  | S754_nan => lit "nan"
  | S754_infinity s => sign_str s ++ lit "inf"
  | S754_zero s => sign_str s ++ fixed_digits digits 0
  | S754_finite s m e =>
      let n := Z.pos m * 10 ^ Z.of_nat digits in
      sign_str s ++
      fixed_digits digits
        (if 0 <=? e then n * 2 ^ e else round_half_even n (2 ^ (- e)))
  end.

(** [f"{x:.2f}"] and [f"{x:.0%}"] *)
Definition fmt_2f (x : float) : str := fmt_fixed 2 x.
Definition fmt_pct0 (x : float) : str := fmt_fixed 0 (x * 100)%float ++ lit "%".

End Text.
Export Text.

(* ------------------------------------------------------------------------- *)
(** ** Exceptions and the error monad *)

Inductive exc_class :=
| FileNotFoundError
| ValueError
| AttributeError
| ReError
| TimeoutExpired
| OtherError.

(** An exception: its class and [str(e)]. *)
Record exc := Exc { exc_cls : exc_class; exc_msg : str }.

Inductive res (A : Type) : Type :=
| Ok (a : A)
| Raise (e : exc).
Arguments Ok {A} a.
Arguments Raise {A} e.

Definition bind {A B} (m : res A) (k : A -> res B) : res B :=
  match m with
  | Ok a => k a
  | Raise e => Raise e
  end.

Notation "x <- m ;; k" := (bind m (fun x => k))
  (at level 61, m at next level, right associativity).
Notation "' p <- m ;; k" := (bind m (fun p => k))
  (at level 61, p pattern, m at next level, right associativity).

(** [for x in l: acc = body(acc, x)] where the body may raise. *)
Fixpoint foldM {A S} (body : S -> A -> res S) (l : list A) (acc : S) : res S :=
  match l with
  | [] => Ok acc
  | x :: l' => acc' <- body acc x ;; foldM body l' acc'
  end.

(** [a or b] on optional values whose present values are truthy. *)
Definition or_else {A} (o : option A) (d : A) : A :=
  match o with Some a => a | None => d end.

(* ------------------------------------------------------------------------- *)
(** ** The Python runtime the code relies on *)

(** Builtins whose behaviour is fixed by the interpreter, the Unicode database
    or the platform, not by this repository. *)
Class Builtins := {
  (** [int(s)]: the value, or the [ValueError] it raises *)
  py_int : str -> res Z;
  (** [float(s)]: the binary64 value, or the [ValueError] it raises *)
  py_float : str -> res float;
  (** [c.isspace()], [c.isdigit()] *)
  isspace : char -> bool;
  isdigit : char -> bool;
  (** [s.lower()] *)
  py_lower : str -> str;
  (** [str(Path(s))], [str(Path(p) / s)], [os.sep] and
      [str(Path(p).relative_to(Path(q)))] *)
  path_str : str -> str;
  path_join : str -> str -> str;
  os_sep : str;
  path_relative_to : str -> str -> res str
}.

Section TextBuiltins.
Context {B : Builtins}.

(** [s.strip()] *)
Definition strip (s : str) : str :=
  drop_while_end isspace (drop_while isspace s).

(** [s.replace(old, new)] for a non-empty [old]. *)
Definition replace (old new s : str) : str := join new (split old s).

End TextBuiltins.

(* ------------------------------------------------------------------------- *)
(** ** ElementTree *)

Module Xml.

(** An [xml.etree.ElementTree.Element]: tag, attributes, text, children. *)
Inductive element :=
| Element (tag : str) (attrib : list (str * str)) (text : option str)
          (children : list element).

Definition tag (e : element) : str := let 'Element t _ _ _ := e in t.
Definition attrib (e : element) : list (str * str) := let 'Element _ a _ _ := e in a.
Definition text (e : element) : option str := let 'Element _ _ x _ := e in x.
Definition children (e : element) : list element := let 'Element _ _ _ c := e in c.

(** [e.get(key)] *)
Fixpoint lookup (key : str) (a : list (str * str)) : option str :=
  match a with
  | [] => None
  | (k, v) :: a' => if str_eqb k key then Some v else lookup key a'
  end.

Definition get (e : element) (key : str) : option str := lookup key (attrib e).

(** The first value under [key] in a list of pairs. *)
Fixpoint lookup_in {A} (key : str) (a : list (str * A)) : option A :=
  match a with
  | [] => None
  | (k, v) :: a' => if str_eqb k key then Some v else lookup_in key a'
  end.

(** [e.iter()]: the element and its descendants, in document order. *)
Fixpoint iter (e : element) : list element :=
  match e with
  | Element _ _ _ cs => e :: flat_map iter cs
  end.

(** The descendants of [e], itself excluded. *)
Definition descendants (e : element) : list element :=
  flat_map iter (children e).

(** One step of an ElementPath expression, as [ElementPath.iterfind] builds its
    selectors from the tokens of the path: [.] is [SSelf], a bare tag is
    [SChild] (an empty tag when the token is white space), [//tag] is [SDesc]
    and [[@k="v"]] is [SAttr]. *)
Inductive step :=
| SSelf
| SChild (t : str)
| SDesc (t : str)
| SAttr (k v : str).

Definition has_tag (t : str) (e : element) : bool := str_eqb (tag e) t.

Definition select (s : step) (ctx : list element) : list element :=
  match s with
  | SSelf => ctx
  | SChild t => flat_map (fun e => filter (has_tag t) (children e)) ctx
  | SDesc t => flat_map (fun e => filter (has_tag t) (descendants e)) ctx
  | SAttr k v =>
      filter (fun e => match get e k with
                       | Some x => str_eqb x v
                       | None => false
                       end) ctx
  end.

(** [e.findall(path)] and [e.find(path)] *)
Definition findall (path : list step) (e : element) : list element :=
  fold_left (fun ctx s => select s ctx) path [e].

Definition find (path : list step) (e : element) : option element :=
  hd_error (findall path e).

(** Every element of the tree has a tag, as in every tree a parser builds. *)
Definition tagged (e : element) : bool := truthy (tag e).
Definition well_tagged (e : element) : bool := forallb tagged (iter e).

(** What [ET.parse(path).getroot()] does on a file that exists. *)
Inductive parse_outcome :=
| Parsed (root : element)
| ParseError (msg : str)
| ParseRaises (e : exc).

End Xml.

(** The file system as the code observes it. *)
Record FileSystem := {
  (** [Path(p).exists()] and [Path(p).is_dir()] *)
  fs_exists : str -> bool;
  fs_is_dir : str -> bool;
  (** [[str(f) for f in Path(p).rglob(pattern)]] *)
  fs_rglob : str -> str -> list str;
  (** [ET.parse(p)] *)
  fs_parse : str -> Xml.parse_outcome
}.

(* ------------------------------------------------------------------------- *)
(** ** The unified report model *)

Inductive report_format := junit | testng.

(** The overall [result] of a report. *)
Inductive overall := SUCCESS | FAILURE | PARTIAL_FAILURE.

(** One entry of [test_failures].  The TestNG extractor also records
    [method_signature], [duration_ms] and [params]; the JUnit extractor
    leaves these keys out. *)
Record Failure := {
  f_test_name : str;
  f_class_name : str;
  f_method_signature : option str;
  f_error_type : str;
  f_error_message : str;
  f_stack_trace : str;
  f_duration_ms : option str;
  f_params : option (list str)
}.

(** The dictionary [parse_report] returns. *)
Record TestResults := {
  total_tests : Z;
  passed_tests : Z;
  failed_tests : Z;
  error_tests : Z;
  skipped_tests : Z;
  duration_seconds : float;
  format : option report_format
}.

(** The dictionary [extract_failure_details] returns. *)
Record FailureDetails := {
  failure_count : Z;
  result : overall;
  test_failures : list Failure;
  error_lines : list str;
  has_compilation_error : bool;
  has_timeout : bool;
  has_assertion_error : bool
}.

(** The dictionary [merge_reports] returns. *)
Record Merged := {
  m_total_tests : Z;
  m_passed_tests : Z;
  m_failed_tests : Z;
  m_error_tests : Z;
  m_skipped_tests : Z;
  m_duration_seconds : float;
  m_test_failures : list Failure;
  m_error_lines : list str;
  m_failure_count : Z;
  m_formats : list report_format;
  m_result : overall;
  m_has_compilation_error : bool;
  m_has_timeout : bool;
  m_has_assertion_error : bool
}.

(** [result] from a failure count and a total, as all three extractors
    compute it. *)
Definition overall_of (failed_count total : Z) : overall :=
  if failed_count =? 0 then SUCCESS
  else if failed_count =? total then FAILURE
  else PARTIAL_FAILURE.

Definition format_eqb (a b : report_format) : bool :=
  match a, b with
  | junit, junit | testng, testng => true
  | _, _ => false
  end.

(* ------------------------------------------------------------------------- *)
(** ** clients/xml_reader.py *)

Module XmlReader.
Import Xml.

Section Reader.
Context {B : Builtins}.
Variable fs : FileSystem.

(** The ElementPath expressions of the file, token by token.  Several of them
    are written with a blank after the dot; the tokenizer turns the blank into
    an empty child tag. *)
Definition p_any_test_method : list step :=
  [SSelf; SChild []; SDesc (lit "test-method")].           (* '. //test-method' *)
Definition p_any_testcase : list step :=
  [SSelf; SDesc (lit "testcase")].                         (* './/testcase' *)
Definition p_suites : list step :=
  [SSelf; SChild []; SDesc (lit "suite")].                 (* '. //suite' *)
Definition p_testsuites : list step :=
  [SSelf; SDesc (lit "testsuite")].                        (* './/testsuite' *)
Definition p_failed_methods : list step :=
  [SSelf; SDesc (lit "test-method"); SAttr (lit "status") (lit "FAIL")].
Definition p_exception : list step :=
  [SSelf; SChild []; SDesc (lit "exception")].             (* '. //exception' *)
Definition p_params : list step :=
  [SSelf; SDesc (lit "params")].                           (* './/params' *)
Definition p_param : list step :=
  [SSelf; SChild []; SDesc (lit "param")].                 (* '. //param' *)
Definition p_value : list step :=
  [SSelf; SDesc (lit "value")].                            (* './/value' *)
Definition p_child (t : String.string) : list step := [SChild (lit t)].

(** An [XMLReportReader] after [__init__]. *)
Record Reader := { root : element; rformat : report_format }.

(** [_detect_format] *)
Definition detect_format (r : element) : res report_format :=
  if str_eqb (tag r) (lit "testng-results") then Ok testng
  else if str_eqb (tag r) (lit "testsuites") || str_eqb (tag r) (lit "testsuite")
  then Ok junit
  else
    match find p_any_test_method r with
    | Some _ => Ok testng
    | None =>
        match find p_any_testcase r with
        | Some _ => Ok junit
        | None =>
            Raise (Exc ValueError (lit "Unknown XML format.  Root tag: " ++ tag r))
        end
    end.

(** [XMLReportReader(xml_path)] *)
Definition new_reader (xml_path : str) : res Reader :=
  if negb (fs_exists fs (path_str xml_path))
  then Raise (Exc FileNotFoundError (lit "XML file not found: " ++ xml_path))
  else
    match fs_parse fs (path_str xml_path) with
    | Parsed r => f <- detect_format r ;; Ok {| root := r; rformat := f |}
    | ParseError msg => Raise (Exc ValueError (lit "Invalid XML file: " ++ msg))
    | ParseRaises e => Raise e
    end.

(** [int(e.get(key, 0))] *)
Definition get_int (e : element) (key : String.string) : res Z :=
  match get e (lit key) with
  | Some s => py_int s
  | None => Ok 0
  end.

(** [float(e.get(key, 0))] *)
Definition get_float (e : element) (key : String.string) : res float :=
  match get e (lit key) with
  | Some s => py_float s
  | None => Ok 0%float
  end.

(** The loop body of [_parse_testng]'s duration sum: a [ValueError] of
    [float()] is swallowed, anything else propagates. *)
Definition add_suite_duration (duration : float) (suite : element) : res float :=
  let suite_duration := or_else (get suite (lit "duration-ms")) (lit "0") in
  match py_float suite_duration with
  | Ok x => Ok (duration + x / 1000)%float
  | Raise e =>
      match exc_cls e with
      | ValueError => Ok duration
      | _ => Raise e
      end
  end.

(** [_parse_testng] *)
Definition parse_testng (r : element) : res TestResults :=
  total <- get_int r "total" ;;
  passed <- get_int r "passed" ;;
  failed <- get_int r "failed" ;;
  skipped <- get_int r "skipped" ;;
  ignored <- get_int r "ignored" ;;
  duration <- foldM add_suite_duration (findall p_suites r) 0%float ;;
  Ok {| total_tests := total;
        passed_tests := passed;
        failed_tests := failed;
        error_tests := 0;
        skipped_tests := skipped + ignored;
        duration_seconds := duration;
        format := Some testng |}.

(** The loop body of [_parse_junit]. *)
Definition add_suite (acc : TestResults) (suite : element) : res TestResults :=
  tests <- get_int suite "tests" ;;
  failures <- get_int suite "failures" ;;
  errors <- get_int suite "errors" ;;
  skipped <- get_int suite "skipped" ;;
  time <- get_float suite "time" ;;
  Ok {| total_tests := total_tests acc + tests;
        passed_tests := passed_tests acc + (tests - failures - errors - skipped);
        failed_tests := failed_tests acc + failures;
        error_tests := error_tests acc + errors;
        skipped_tests := skipped_tests acc + skipped;
        duration_seconds := (duration_seconds acc + time)%float;
        format := Some junit |}.

Definition junit_zero : TestResults :=
  {| total_tests := 0; passed_tests := 0; failed_tests := 0; error_tests := 0;
     skipped_tests := 0; duration_seconds := 0%float; format := Some junit |}.

(** The suites [_parse_junit] sums over. *)
Definition junit_suites (r : element) : list element :=
  match findall p_testsuites r with
  | [] => if str_eqb (tag r) (lit "testsuite") then [r] else []
  | l => l
  end.

(** [_parse_junit] *)
Definition parse_junit (r : element) : res TestResults :=
  foldM add_suite (junit_suites r) junit_zero.

(** [parse_report] *)
Definition parse_report (rd : Reader) : res TestResults :=
  match rformat rd with
  | testng => parse_testng (root rd)
  | junit => parse_junit (root rd)
  end.

(** [re.search(r'instance:([^@]+)@', s)]: group 1 of the leftmost match. *)
Definition at_sign : char := 64%N.

Fixpoint span_not_at (s : str) : str * str :=
  match s with
  | [] => ([], [])
  | c :: s' =>
      if char_eqb c at_sign then ([], s)
      else let '(x, rest) := span_not_at s' in (c :: x, rest)
  end.

Definition match_instance_here (s : str) : option str :=
  if starts_with (lit "instance:") s then
    match span_not_at (skipn 9 s) with
    | ((_ :: _) as x, _ :: _) => Some x
    | _ => None
    end
  else None.

Fixpoint search_instance (s : str) : option str :=
  match match_instance_here s with
  | Some x => Some x
  | None =>
      match s with
      | [] => None
      | _ :: s' => search_instance s'
      end
  end.

(** [e.text.strip()] when [e] is found and its text is non-empty. *)
Definition stripped_text (e : option element) : option str :=
  match e with
  | Some x =>
      match text x with
      | Some ((_ :: _) as t) => Some (strip t)
      | _ => None
      end
  | None => None
  end.

(** One iteration of the loop of [_extract_testng_failures]: the failure
    record and the error lines it appends. *)
Definition testng_failure (test_method : element) : Failure * list str :=
  let method_name := or_else (get test_method (lit "name")) (lit "Unknown") in
  let signature := or_else (get test_method (lit "signature")) [] in
  let duration_ms := or_else (get test_method (lit "duration-ms")) (lit "0") in
  let class_name :=
    if contains (lit "instance:") signature
    then or_else (search_instance signature) []
    else [] in
  let exception := find p_exception test_method in
  let error_type :=
    match exception with
    | Some ex => or_else (get ex (lit "class")) (lit "Exception")
    | None => []
    end in
  let error_message :=
    match exception with
    | Some ex => or_else (stripped_text (find (p_child "message") ex)) []
    | None => []
    end in
  let stack_trace :=
    match exception with
    | Some ex =>
        match stripped_text (find (p_child "full-stacktrace") ex) with
        | Some t => t
        | None => or_else (stripped_text (find (p_child "short-stacktrace") ex)) []
        end
    | None => []
    end in
  let params :=
    match find p_params test_method with
    | Some params_elem =>
        flat_map (fun param =>
                    match stripped_text (find p_value param) with
                    | Some v => [v]
                    | None => []
                    end)
                 (findall p_param params_elem)
    | None => []
    end in
  let failure_info :=
    {| f_test_name := method_name;
       f_class_name := class_name;
       f_method_signature := Some signature;
       f_error_type := error_type;
       f_error_message := error_message;
       f_stack_trace := stack_trace;
       f_duration_ms := Some duration_ms;
       f_params := Some params |} in
  let error_summary :=
    (class_name ++ lit ". " ++ method_name)
    ++ (if truthy_list params then lit "(" ++ join (lit ", ") params ++ lit ")" else [])
    ++ (lit ": " ++ error_type) in
  let lines1 :=
    if truthy error_message
    then [error_summary; lit "  Message: " ++ error_message]
    else [] in
  let lines2 :=
    if truthy stack_trace
    then flat_map (fun line => if truthy (strip line) then [lit "  " ++ strip line] else [])
                  (take 10 (split_lines stack_trace))
    else [] in
  (failure_info, lines1 ++ lines2).

(** The three derived flags; [with_assert] says whether the extractor also
    accepts ["Assert"] for the assertion flag. *)
Definition flag_compilation (fl : list Failure) : bool :=
  existsb (fun f => contains (lit "CompilationError") (f_error_type f)) fl.
Definition flag_timeout (fl : list Failure) : bool :=
  existsb (fun f => contains (lit "timeout") (py_lower (f_error_message f))) fl.
Definition flag_assertion (with_assert : bool) (fl : list Failure) : bool :=
  existsb (fun f => contains (lit "AssertionError") (f_error_type f)
                    || (with_assert && contains (lit "Assert") (f_error_type f))) fl.

(** [_extract_testng_failures] *)
Definition extract_testng_failures (r : element) : res FailureDetails :=
  let found := List.map testng_failure (findall p_failed_methods r) in
  let failures := List.map fst found in
  let lines := flat_map snd found in
  let failed_count := len failures in
  total <- get_int r "total" ;;
  Ok {| failure_count := failed_count;
        result := overall_of failed_count total;
        test_failures := failures;
        error_lines := lines;
        has_compilation_error := flag_compilation failures;
        has_timeout := flag_timeout failures;
        has_assertion_error := flag_assertion true failures |}.

(** One iteration of the loop of [_extract_junit_failures]: nothing for a
    test case without a [failure] or [error] child. *)
Definition junit_failure (testcase : element) : option (Failure * list str) :=
  let failure := find (p_child "failure") testcase in
  let error := find (p_child "error") testcase in
  let elem := match failure with Some _ => failure | None => error end in
  match elem with
  | None => None
  | Some el =>
      let test_name := or_else (get testcase (lit "name")) (lit "Unknown") in
      let class_name := or_else (get testcase (lit "classname")) [] in
      let error_type := or_else (get el (lit "type")) (lit "Error") in
      let error_message := or_else (get el (lit "message")) [] in
      let stack_trace := or_else (text el) [] in
      let failure_info :=
        {| f_test_name := test_name;
           f_class_name := class_name;
           f_method_signature := None;
           f_error_type := error_type;
           f_error_message := error_message;
           f_stack_trace := stack_trace;
           f_duration_ms := None;
           f_params := None |} in
      let lines1 :=
        if truthy error_message
        then [class_name ++ lit "." ++ test_name ++ lit ": " ++ error_message]
        else [] in
      let lines2 :=
        if truthy stack_trace then take 5 (split_lines stack_trace) else [] in
      Some (failure_info, lines1 ++ lines2)
  end.

Definition opt_list {A} (o : option A) : list A :=
  match o with Some a => [a] | None => [] end.

(** [_extract_junit_failures] *)
Definition extract_junit_failures (r : element) : res FailureDetails :=
  let found := flat_map (fun tc => opt_list (junit_failure tc)) (findall p_any_testcase r) in
  let failures := List.map fst found in
  let lines := flat_map snd found in
  let failed_count := len failures in
  test_results <- parse_junit r ;;
  Ok {| failure_count := failed_count;
        result := overall_of failed_count (total_tests test_results);
        test_failures := failures;
        error_lines := lines;
        has_compilation_error := flag_compilation failures;
        has_timeout := flag_timeout failures;
        has_assertion_error := flag_assertion false failures |}.

(** [extract_failure_details] *)
Definition extract_failure_details (rd : Reader) : res FailureDetails :=
  match rformat rd with
  | testng => extract_testng_failures (root rd)
  | junit => extract_junit_failures (root rd)
  end.

(** What one input file contributes to a merge; when any of the three calls
    raises, the loop prints a warning and continues with the next file. *)
Definition read_one (xml_path : str) : res (TestResults * FailureDetails) :=
  reader <- new_reader xml_path ;;
  results <- parse_report reader ;;
  failures <- extract_failure_details reader ;;
  Ok (results, failures).

Definition merged_zero : Merged :=
  {| m_total_tests := 0; m_passed_tests := 0; m_failed_tests := 0;
     m_error_tests := 0; m_skipped_tests := 0; m_duration_seconds := 0%float;
     m_test_failures := []; m_error_lines := []; m_failure_count := 0;
     m_formats := []; m_result := SUCCESS;
     m_has_compilation_error := false; m_has_timeout := false;
     m_has_assertion_error := false |}.

(** The formats seen so far, [fmt] appended when it is new. *)
Definition track_format (formats : list report_format) (fmt : option report_format)
  : list report_format :=
  match fmt with
  | Some f => if existsb (format_eqb f) formats then formats else formats ++ [f]
  | None => formats
  end.

(** The "Merge statistics", "Merge failures" and "Track formats" statements
    of the loop of [merge_reports]. *)
Definition absorb (merged : Merged) (file : TestResults * FailureDetails) : Merged :=
  let '(results, failures) := file in
  {| m_total_tests := m_total_tests merged + total_tests results;
     m_passed_tests := m_passed_tests merged + passed_tests results;
     m_failed_tests := m_failed_tests merged + failed_tests results;
     m_error_tests := m_error_tests merged + error_tests results;
     m_skipped_tests := m_skipped_tests merged + skipped_tests results;
     m_duration_seconds :=
       (m_duration_seconds merged + duration_seconds results)%float;
     m_test_failures := m_test_failures merged ++ test_failures failures;
     m_error_lines := m_error_lines merged ++ error_lines failures;
     m_failure_count := m_failure_count merged + failure_count failures;
     m_formats := track_format (m_formats merged) (format results);
     m_result := m_result merged;
     m_has_compilation_error := m_has_compilation_error merged;
     m_has_timeout := m_has_timeout merged;
     m_has_assertion_error := m_has_assertion_error merged |}.

(** The body of the loop of [merge_reports]: a file whose reading raises is
    skipped. *)
Definition merge_step (merged : Merged) (xml_path : str) : Merged :=
  match read_one xml_path with
  | Ok file => absorb merged file
  | Raise _ => merged
  end.

(** The statements of [merge_reports] after the loop. *)
Definition merge_finish (merged : Merged) : Merged :=
  {| m_total_tests := m_total_tests merged;
     m_passed_tests := m_passed_tests merged;
     m_failed_tests := m_failed_tests merged;
     m_error_tests := m_error_tests merged;
     m_skipped_tests := m_skipped_tests merged;
     m_duration_seconds := m_duration_seconds merged;
     m_test_failures := m_test_failures merged;
     m_error_lines := m_error_lines merged;
     m_failure_count := m_failure_count merged;
     m_formats := m_formats merged;
     m_result := overall_of (m_failure_count merged) (m_total_tests merged);
     m_has_compilation_error := flag_compilation (m_test_failures merged);
     m_has_timeout := flag_timeout (m_test_failures merged);
     m_has_assertion_error := flag_assertion true (m_test_failures merged) |}.

(** [XMLReportReader.merge_reports] *)
Definition merge_reports (xml_paths : list str) : Merged :=
  merge_finish (fold_left merge_step xml_paths merged_zero).

(** What the files of a merge contribute, in input order: the files whose
    reading raises contribute nothing. *)
Definition readable (xml_paths : list str) : list (TestResults * FailureDetails) :=
  flat_map (fun p => match read_one p with Ok file => [file] | Raise _ => [] end)
           xml_paths.

End Reader.

(** The file was read as a JUnit report. *)
Definition is_junit (file : TestResults * FailureDetails) : bool :=
  match format (fst file) with
  | Some junit => true
  | _ => false
  end.

(** The sum of an integer field over a list. *)
Definition sumZ {A} (f : A -> Z) (l : list A) : Z :=
  fold_right (fun x acc => f x + acc) 0 l.

(** The left-to-right binary64 sum of a field over a list, from [start]. *)
Definition sum_float {A} (f : A -> float) (start : float) (l : list A) : float :=
  fold_left (fun acc x => (acc + f x)%float) l start.

(** [passed + failed + errored + skipped == total] *)
Definition balanced (tr : TestResults) : Prop :=
  passed_tests tr + failed_tests tr + error_tests tr + skipped_tests tr
  = total_tests tr.

(** The merged dictionary read as [test_results] and as [failure_details]
    (the fetcher stores the same dictionary under both keys; it has no
    [format] key). *)
Definition merged_results (m : Merged) : TestResults :=
  {| total_tests := m_total_tests m; passed_tests := m_passed_tests m;
     failed_tests := m_failed_tests m; error_tests := m_error_tests m;
     skipped_tests := m_skipped_tests m;
     duration_seconds := m_duration_seconds m; format := None |}.

Definition merged_failures (m : Merged) : FailureDetails :=
  {| failure_count := m_failure_count m; result := m_result m;
     test_failures := m_test_failures m; error_lines := m_error_lines m;
     has_compilation_error := m_has_compilation_error m;
     has_timeout := m_has_timeout m;
     has_assertion_error := m_has_assertion_error m |}.

End XmlReader.

(* ------------------------------------------------------------------------- *)
(** ** clients/test_finder.py *)

(** A located test: the dictionaries [find_test_by_signature] and
    [find_tests_for_failures] build. *)
Record Located := {
  file_path : str;
  class_name : str;
  full_class_name : str;
  method_name : str;
  package : option str;
  relative_path : option str;
  failure_info : option Failure
}.

(** The [build_system] tag: the two the finder detects, and any other string
    a caller may hand to the executor. *)
Inductive build_system := maven | gradle | other_build (name : str).

Module TestFinder.

Definition dot : char := 46%N.
Definition space : char := 32%N.
Definition lparen : char := 40%N.
Definition rparen : char := 41%N.
Definition nl : char := 10%N.

(** [l[-1]] and [l[:-1]] of a list. *)
Definition last_str (l : list str) : str := last l [].
Definition init {A} (l : list A) : list A := removelast l.

(** The tail [\(.*\)$] of the signature pattern: an opening parenthesis, any
    characters but a newline, a closing parenthesis at the end of the string
    or just before its final newline. *)
Definition rest_ok (t : str) : bool :=
  match t with
  | c :: u =>
      char_eqb c lparen &&
      let u' := match rev u with
                | d :: v => if char_eqb d nl then rev v else u
                | [] => u
                end in
      match rev u' with
      | d :: mid => char_eqb d rparen && negb (existsb (char_eqb nl) mid)
      | [] => false
      end
  | [] => false
  end.

(** Group 2 of the signature pattern, [([^.]+)], greedy: the longest dot-free
    non-empty prefix after which [rest_ok] holds. *)
Fixpoint match_method (r : str) : option str :=
  match r with
  | [] => None
  | c :: r' =>
      if char_eqb c dot then None
      else
        match match_method r' with
        | Some g => Some (c :: g)
        | None => if rest_ok r' then Some [c] else None
        end
  end.

(** The spaces [s] starts with, and what follows them. *)
Fixpoint span_spaces (s : str) : str * str :=
  match s with
  | c :: s' =>
      if char_eqb c space
      then let '(x, rest) := span_spaces s' in (c :: x, rest)
      else ([], s)
  | [] => ([], [])
  end.

(** [re.match(r'(. +)\.([^.]+)\(.*\)$', signature)]: groups 1 and 2.  Group 1
    is one character other than a newline followed by one or more spaces. *)
Definition match_signature (signature : str) : option (str * str) :=
  match signature with
  | c0 :: s1 =>
      if char_eqb c0 nl then None
      else
        match span_spaces s1 with
        | ((_ :: _) as sp, d :: r) =>
            if char_eqb d dot then
              match match_method r with
              | Some g2 => Some (c0 :: sp, g2)
              | None => None
              end
            else None
        | _ => None
        end
  | [] => None
  end.

Section Finder.
Context {B : Builtins}.
Variable fs : FileSystem.
(** [self.repo_path], as a string *)
Variable repo : str.

(** [JavaTestFinder(repo_path)]: the finder's [repo_path]. *)
Definition new_finder (repo_path : str) : res str :=
  if fs_exists fs (path_str repo_path) then Ok (path_str repo_path)
  else Raise (Exc FileNotFoundError (lit "Repository not found: " ++ repo_path)).

(** The directories both searches go through. *)
Definition search_paths (test_dirs : option (list str)) : list str :=
  match test_dirs with
  | Some ((_ :: _) as ds) => List.map (path_join repo) ds
  | _ =>
      [path_join (path_join (path_join repo (lit "src")) (lit "test")) (lit "java");
       path_join (path_join (path_join repo (lit "src")) (lit "main")) (lit "java");
       repo]
  end.

(** The loop of [find_test_by_signature] over the search paths. *)
Fixpoint search_signature (full_class_name method_name cls rel : str)
  (paths : list str) : res (option Located) :=
  match paths with
  | [] => Ok None
  | search_path :: rest =>
      let test_file := path_join search_path rel in
      if fs_exists fs test_file then
        Ok (Some {| file_path := test_file;
                    class_name := cls;
                    full_class_name := full_class_name;
                    method_name := method_name;
                    package := Some (join (lit ". ") (init (split [dot] full_class_name)));
                    relative_path := Some rel;
                    failure_info := None |})
      else
        match fs_rglob fs search_path (cls ++ lit ".java") with
        | found :: _ =>
            rel' <- path_relative_to found search_path ;;
            Ok (Some {| file_path := found;
                        class_name := cls;
                        full_class_name := full_class_name;
                        method_name := method_name;
                        package := Some (join [dot] (init (split [dot] full_class_name)));
                        relative_path := Some rel';
                        failure_info := None |})
        | [] => search_signature full_class_name method_name cls rel rest
        end
  end.

(** [find_test_by_signature] *)
Definition find_test_by_signature (signature : str) (test_dirs : option (list str))
  : res (option Located) :=
  match match_signature signature with
  | None => Ok None
  | Some (full_class_name, method_name) =>
      let cls := last_str (split [dot] full_class_name) in
      let rel := replace [dot] os_sep full_class_name ++ lit ".java" in
      search_signature full_class_name method_name cls rel (search_paths test_dirs)
  end.

(** [_search_by_class_name] *)
Definition search_by_class_name (cls : str) (test_dirs : option (list str)) : list str :=
  flat_map (fun search_path =>
              if fs_exists fs search_path
              then fs_rglob fs search_path (cls ++ lit ".java")
              else [])
           (search_paths test_dirs).

(** The body of the loop of [find_tests_for_failures]: what it appends to
    [found_tests] for one failure. *)
Definition locate (test_dirs : option (list str)) (failure : Failure)
  : res (list Located) :=
  let signature := or_else (f_method_signature failure) [] in
  if truthy signature then
    test_info <- find_test_by_signature signature test_dirs ;;
    match test_info with
    | Some t =>
        Ok [ {| file_path := file_path t; class_name := class_name t;
                full_class_name := full_class_name t; method_name := method_name t;
                package := package t; relative_path := relative_path t;
                failure_info := Some failure |} ]
    | None =>
        let cname := f_class_name failure in
        let mname := f_test_name failure in
        if truthy cname && truthy mname then
          let simple_class := last_str (split [dot] cname) in
          match search_by_class_name simple_class test_dirs with
          | found :: _ =>
              Ok [ {| file_path := found; class_name := simple_class;
                      full_class_name := cname; method_name := mname;
                      package := None; relative_path := None;
                      failure_info := Some failure |} ]
          | [] => Ok []
          end
        else Ok []
    end
  else Ok [].

(** The failure has no method signature: the key is missing, or empty. *)
Definition no_signature (failure : Failure) : bool :=
  negb (truthy (or_else (f_method_signature failure) [])).

(** [find_tests_for_failures] *)
Definition find_tests_for_failures (failures : list Failure)
  (test_dirs : option (list str)) : res (list Located) :=
  foldM (fun found failure => more <- locate test_dirs failure ;; Ok (found ++ more))
        failures [].

(** [detect_build_system] *)
Definition detect_build_system : option build_system :=
  if fs_exists fs (path_join repo (lit "pom.xml")) then Some maven
  else if fs_exists fs (path_join repo (lit "build.gradle"))
          || fs_exists fs (path_join repo (lit "build.gradle.kts"))
  then Some gradle
  else None.

End Finder.
End TestFinder.

(* ------------------------------------------------------------------------- *)
(** ** clients/java_executor.py *)

(** What [subprocess.run(command, cwd=..., capture_output=True, text=True,
    timeout=...)] does: it returns a completed process or raises. *)
Inductive proc_outcome :=
| Completed (returncode : Z) (stdout stderr : str)
| ProcRaises (e : exc).

Definition runner := list str -> str -> Z -> proc_outcome.

(** The dictionary [run_specific_tests] returns. *)
Record ExecResult := {
  success : bool;
  output : str;
  errors : list str;
  exit_code : Z;
  command : option str
}.

Module JavaExecutor.

Section Executor.
Context {B : Builtins}.
Variable run : runner.
(** [self.repo_path] as given to the constructor, and [self.build_system] *)
Variable repo_path : str.
Variable bs : build_system.

Definition failed_result (msg : str) (cmd : option str) : ExecResult :=
  {| success := false; output := []; errors := [msg]; exit_code := -1;
     command := cmd |}.

(** The message of the [TimeoutExpired] handlers. *)
Definition timed_out (timeout : Z) : str :=
  lit "Test execution timed out after " ++ str_of_Z timeout ++ lit " seconds".

(** The [try] block shared by [_run_maven_tests] and [_run_gradle_tests];
    [not_found] is the message of the [FileNotFoundError] handler. *)
Definition run_command (cmd : list str) (timeout : Z) (not_found : str) : ExecResult :=
  let shown := Some (join (lit " ") cmd) in
  match run cmd (path_str repo_path) timeout with
  | Completed returncode stdout stderr =>
      {| success := returncode =? 0;
         output := stdout;
         errors := if truthy stderr then [stderr] else [];
         exit_code := returncode;
         command := shown |}
  | ProcRaises e =>
      match exc_cls e with
      | TimeoutExpired => failed_result (timed_out timeout) shown
      | FileNotFoundError => failed_result not_found shown
      | _ => failed_result (lit "Test execution failed: " ++ exc_msg e) shown
      end
  end.

(** [test_info.get('full_class_name') or test_info.get('class_name')] *)
Definition spec_class (t : Located) : str :=
  if truthy (full_class_name t) then full_class_name t else class_name t.

(** The [test_specs] list of [_run_maven_tests]. *)
Definition maven_specs (test_infos : list Located) : list str :=
  flat_map (fun t =>
              let cname := spec_class t in
              if truthy cname && truthy (method_name t)
              then [cname ++ lit "#" ++ method_name t]
              else if truthy cname then [cname] else [])
           test_infos.

Definition maven_command (test_specs : list str) : list str :=
  [lit "mvn"; lit "test"; lit "-Dtest=" ++ join (lit ",") test_specs;
   lit "-DfailIfNoTests=false"].

Definition maven_not_found : str :=
  lit "Maven (mvn) command not found.  Make sure Maven is installed and in PATH.".

(** [_run_maven_tests] *)
Definition run_maven_tests (test_infos : list Located) (timeout : Z) : ExecResult :=
  match maven_specs test_infos with
  | [] => failed_result (lit "Could not build test specification") None
  | test_specs => run_command (maven_command test_specs) timeout maven_not_found
  end.

(** The [command] list of [_run_gradle_tests]. *)
Definition gradle_command (test_infos : list Located) : list str :=
  [lit "gradle"; lit "test"] ++
  flat_map (fun t =>
              let cname := spec_class t in
              if truthy cname && truthy (method_name t)
              then [lit "--tests"; cname ++ lit ". " ++ method_name t]
              else if truthy cname then [lit "--tests"; cname] else [])
           test_infos.

Definition gradle_not_found : str :=
  lit "Gradle command not found. Make sure Gradle is installed and in PATH.".

(** [_run_gradle_tests] *)
Definition run_gradle_tests (test_infos : list Located) (timeout : Z) : ExecResult :=
  let cmd := gradle_command test_infos in
  if len cmd =? 2
  then failed_result (lit "Could not build test specification") None
  else run_command cmd timeout gradle_not_found.

Definition build_system_name : str :=
  match bs with
  | maven => lit "maven"
  | gradle => lit "gradle"
  | other_build name => name
  end.

(** [run_specific_tests] *)
Definition run_specific_tests (test_infos : list Located) (timeout : Z) : ExecResult :=
  match test_infos with
  | [] => failed_result (lit "No tests to run") None
  | _ =>
      match bs with
      | maven => run_maven_tests test_infos timeout
      | gradle => run_gradle_tests test_infos timeout
      | other_build _ =>
          failed_result (lit "Unsupported build system: " ++ build_system_name) None
      end
  end.

(** The command line the selected build tool is started with, and the
    message of its [FileNotFoundError] handler. *)
Definition tool_command (test_infos : list Located) : list str :=
  match bs with
  | maven => maven_command (maven_specs test_infos)
  | gradle => gradle_command test_infos
  | other_build _ => []
  end.

Definition tool_not_found : str :=
  match bs with
  | maven => maven_not_found
  | gradle => gradle_not_found
  | other_build _ => []
  end.

End Executor.

(** A located test names a class. *)
Definition has_class (t : Located) : bool := truthy (spec_class t).

End JavaExecutor.

(* ------------------------------------------------------------------------- *)
(** ** state.py *)

(** The values [workflow_status] takes. *)
Inductive status :=
| initialized
| xml_fetched
| repo_accessed
| executed
| results_collected
| analyzed
| completed
| error.

(** The [test_report], [local_execution] and [comparison] dictionaries the
    collector builds. *)
Record TestReport := {
  tr_xml_paths : list str;
  tr_test_name : option str;
  tr_total_tests : Z;
  tr_passed_tests : Z;
  tr_failed_tests : Z;
  tr_error_tests : Z;
  tr_skipped_tests : Z;
  tr_result : overall
}.

Record LocalExecution := {
  le_exit_code : option Z;
  le_success : option bool;
  le_output_length : Z;
  le_error_count : Z
}.

Record Comparison := {
  xml_failed : bool;
  local_failed : bool;
  consistent_failure : bool;
  reproducible : bool
}.

Record CollectedData := {
  test_report : TestReport;
  local_execution : LocalExecution;
  comparison : Comparison
}.

(** [FailureAnalysisState].  Every key is present from [run_failure_analysis]
    on ([llm_full_response] reads as [None] until the analyzer sets it); a field
    of type [option] is a key whose value may be [None].  The debug logger
    ([debug=False]) and the keys no node reads are left out. *)
Record State := {
  xml_report_paths : list str;
  repo_path : str;
  test_name : option str;
  test_results : option TestResults;
  failure_details : option FailureDetails;
  local_output : option str;
  local_errors : option (list str);
  local_exit_code : option Z;
  execution_success : option bool;
  collected_data : option CollectedData;
  root_cause : option str;
  confidence_level : option float;
  recommendations : option (list str);
  llm_full_response : option str;
  final_report : option str;
  workflow_status : status;
  error_message : option str
}.

(** The updates the nodes return, merged into the state key by key. *)
Definition set_status (st : State) (s : status) : State :=
  {| xml_report_paths := xml_report_paths st; repo_path := repo_path st;
     test_name := test_name st; test_results := test_results st;
     failure_details := failure_details st; local_output := local_output st;
     local_errors := local_errors st; local_exit_code := local_exit_code st;
     execution_success := execution_success st;
     collected_data := collected_data st; root_cause := root_cause st;
     confidence_level := confidence_level st;
     recommendations := recommendations st;
     llm_full_response := llm_full_response st;
     final_report := final_report st;
     workflow_status := s; error_message := error_message st |}.

Definition set_error (st : State) (msg : str) : State :=
  {| xml_report_paths := xml_report_paths st; repo_path := repo_path st;
     test_name := test_name st; test_results := test_results st;
     failure_details := failure_details st; local_output := local_output st;
     local_errors := local_errors st; local_exit_code := local_exit_code st;
     execution_success := execution_success st;
     collected_data := collected_data st; root_cause := root_cause st;
     confidence_level := confidence_level st;
     recommendations := recommendations st;
     llm_full_response := llm_full_response st;
     final_report := final_report st;
     workflow_status := error; error_message := Some msg |}.

Definition set_ingested (st : State) (tr : TestResults) (fd : FailureDetails) : State :=
  {| xml_report_paths := xml_report_paths st; repo_path := repo_path st;
     test_name := test_name st; test_results := Some tr;
     failure_details := Some fd; local_output := local_output st;
     local_errors := local_errors st; local_exit_code := local_exit_code st;
     execution_success := execution_success st;
     collected_data := collected_data st; root_cause := root_cause st;
     confidence_level := confidence_level st;
     recommendations := recommendations st;
     llm_full_response := llm_full_response st;
     final_report := final_report st;
     workflow_status := xml_fetched; error_message := error_message st |}.

Definition set_execution (st : State) (out : str) (errs : list str) (code : Z)
  (ok : bool) : State :=
  {| xml_report_paths := xml_report_paths st; repo_path := repo_path st;
     test_name := test_name st; test_results := test_results st;
     failure_details := failure_details st; local_output := Some out;
     local_errors := Some errs; local_exit_code := Some code;
     execution_success := Some ok;
     collected_data := collected_data st; root_cause := root_cause st;
     confidence_level := confidence_level st;
     recommendations := recommendations st;
     llm_full_response := llm_full_response st;
     final_report := final_report st;
     workflow_status := executed; error_message := error_message st |}.

Definition set_collected (st : State) (cd : CollectedData) : State :=
  {| xml_report_paths := xml_report_paths st; repo_path := repo_path st;
     test_name := test_name st; test_results := test_results st;
     failure_details := failure_details st; local_output := local_output st;
     local_errors := local_errors st; local_exit_code := local_exit_code st;
     execution_success := execution_success st;
     collected_data := Some cd; root_cause := root_cause st;
     confidence_level := confidence_level st;
     recommendations := recommendations st;
     llm_full_response := llm_full_response st;
     final_report := final_report st;
     workflow_status := results_collected; error_message := error_message st |}.

Definition set_analysis (st : State) (rc : str) (conf : float) (recs : list str)
  (full : str) (s : status) (err : option str) : State :=
  {| xml_report_paths := xml_report_paths st; repo_path := repo_path st;
     test_name := test_name st; test_results := test_results st;
     failure_details := failure_details st; local_output := local_output st;
     local_errors := local_errors st; local_exit_code := local_exit_code st;
     execution_success := execution_success st;
     collected_data := collected_data st; root_cause := Some rc;
     confidence_level := Some conf;
     recommendations := Some recs;
     llm_full_response := Some full;
     final_report := final_report st;
     workflow_status := s; error_message := err |}.

Definition set_report (st : State) (report : str) : State :=
  {| xml_report_paths := xml_report_paths st; repo_path := repo_path st;
     test_name := test_name st; test_results := test_results st;
     failure_details := failure_details st; local_output := local_output st;
     local_errors := local_errors st; local_exit_code := local_exit_code st;
     execution_success := execution_success st;
     collected_data := collected_data st; root_cause := root_cause st;
     confidence_level := confidence_level st;
     recommendations := recommendations st;
     llm_full_response := llm_full_response st;
     final_report := Some report;
     workflow_status := completed; error_message := error_message st |}.

(* ------------------------------------------------------------------------- *)
(** ** The collaborators of the workflow *)

(** The variables handed to the prompt template.  [pv_failure_details] is the
    list whose [str()] the template receives; [pv_local_exit_code] is [None]
    where the code passes ['N/A']. *)
Record PromptVars := {
  pv_xml_path : str;
  pv_test_name : str;
  pv_result : option overall;
  pv_total_tests : Z;
  pv_failure_count : Z;
  pv_failure_details : list Failure;
  pv_error_lines : str;
  pv_local_exit_code : option Z;
  pv_local_success : bool;
  pv_local_error_count : Z;
  pv_local_errors : str;
  pv_xml_failed : bool;
  pv_local_failed : bool;
  pv_consistent_failure : bool
}.

Record World := {
  files : FileSystem;
  (** [subprocess.run] *)
  subprocess_run : runner;
  (** [LocalRepoClient(p).list_files(extensions)], for a directory that exists *)
  list_files : str -> res (list str);
  (** building [ChatBedrock], invoking the chain and reading
      [response.content]: the text, or the exception raised on the way *)
  llm_invoke : PromptVars -> res str;
  (** [datetime.now().strftime('%Y-%m-%d %H:%M:%S')] *)
  now : str
}.

(** The client calls a node makes, for the claims that speak of what is and
    is not invoked. *)
Inductive call :=
| CallNewFinder
| CallDetectBuildSystem
| CallFindTests
| CallRunSpecificTests.

(* ------------------------------------------------------------------------- *)
(** ** nodes/*.py *)

Module Nodes.

Section WithWorld.
Context {B : Builtins}.
Variable w : World.

(** *** nodes/xml_fetcher.py *)
Definition xml_report_fetcher (st : State) : State :=
  match xml_report_paths st with
  | [] => set_error st (lit "No XML paths provided")
  | [xml_path] =>
      (* the same three calls as in the loop of [merge_reports] *)
      match XmlReader.read_one (files w) xml_path with
      | Ok (results, failures) => set_ingested st results failures
      | Raise e => set_error st (lit "XML parsing failed: " ++ exc_msg e)
      end
  | xml_paths =>
      let merged := XmlReader.merge_reports (files w) xml_paths in
      set_ingested st (XmlReader.merged_results merged)
                      (XmlReader.merged_failures merged)
  end.

(** *** nodes/local_repo_access.py

    The node imports [LocalRepoClient] from [clients/local_repo.py]; the
    sources hold that class under [local/clients/local_repo.py], which is the
    definition followed here.  The [code_files] key of the update is not a key
    of the state and is dropped when the update is merged. *)
Definition new_repo_client (p : str) : res str :=
  if negb (fs_exists (files w) (path_str p))
  then Raise (Exc FileNotFoundError (lit "Repository path not found: " ++ p))
  else if negb (fs_is_dir (files w) (path_str p))
  then Raise (Exc ValueError (lit "Repository path is not a directory: " ++ p))
  else Ok (path_str p).

Definition local_repo_access (st : State) : State :=
  let accessed :=
    client <- new_repo_client (repo_path st) ;;
    code_files <- list_files w client ;;
    Ok code_files in
  match accessed with
  | Ok _ => set_status st repo_accessed
  | Raise e => set_error st (lit "Local repo access failed: " ++ exc_msg e)
  end.

(** *** nodes/local_executor.py *)

(** The directory the node searches. *)
Definition test_dirs : option (list str) :=
  Some [lit "src/main/java/com/crb/mcsend/testers"].

(** The [try] block of [local_executor], reached with a non-empty repository
    path and a non-zero failure count: the new state, or the exception the
    [except] clause receives, and the client calls made. *)
Definition try_execute (st : State) (fd : FailureDetails) : res State * list call :=
  match TestFinder.new_finder (files w) (repo_path st) with
  | Raise e => (Raise e, [CallNewFinder])
  | Ok repo =>
      match TestFinder.detect_build_system (files w) repo with
      | None =>
          (Ok (set_execution st
                 (lit "Build system not detected (Maven/Gradle required)")
                 [lit "No pom.xml or build.gradle found"] (-1) false),
           [CallNewFinder; CallDetectBuildSystem])
      | Some build =>
          match TestFinder.find_tests_for_failures (files w) repo
                  (test_failures fd) test_dirs with
          | Raise e => (Raise e, [CallNewFinder; CallDetectBuildSystem; CallFindTests])
          | Ok [] =>
              (Ok (set_execution st
                     (lit "Failed tests not found in repository")
                     [lit "Test files could not be located"] (-1) false),
               [CallNewFinder; CallDetectBuildSystem; CallFindTests])
          | Ok found_tests =>
              let r := JavaExecutor.run_specific_tests (subprocess_run w)
                         (repo_path st) build found_tests 300 in
              (Ok (set_execution st (output r) (errors r) (exit_code r) (success r)),
               [CallNewFinder; CallDetectBuildSystem; CallFindTests;
                CallRunSpecificTests])
          end
      end
  end.

Definition local_executor (st : State) : State * list call :=
  if negb (truthy (repo_path st)) then
    (set_execution st [] [lit "No repository path provided"] (-1) false, [])
  else
    match failure_details st with
    | Some fd =>
        if failure_count fd =? 0 then
          (set_execution st (lit "No failures to reproduce") [] 0 true, [])
        else
          match try_execute st fd with
          | (Ok st', calls) => (st', calls)
          | (Raise e, calls) => (set_execution st [] [exc_msg e] (-1) false, calls)
          end
    | None =>
        (* [state.get('failure_details') or {}]: no failure count, hence 0 *)
        (set_execution st (lit "No failures to reproduce") [] 0 true, [])
    end.

(** *** nodes/results_collector.py *)

(** The message of the [AttributeError] raised by [None.get]. *)
Definition none_has_no_get : str :=
  lit "'NoneType' object has no attribute 'get'".

(** [bool(x)] of an optional boolean. *)
Definition is_true (o : option bool) : bool :=
  match o with Some b => b | None => false end.

(** The [try] block of [results_collector]. *)
Definition collect (st : State) : res CollectedData :=
  match test_results st, failure_details st with
  | Some tr, Some fd =>
      let report :=
        {| tr_xml_paths := xml_report_paths st;
           tr_test_name := test_name st;
           tr_total_tests := total_tests tr;
           tr_passed_tests := passed_tests tr;
           tr_failed_tests := failed_tests tr;
           tr_error_tests := error_tests tr;
           tr_skipped_tests := skipped_tests tr;
           tr_result := result fd |} in
      let local :=
        {| le_exit_code := local_exit_code st;
           le_success := execution_success st;
           le_output_length := len (or_else (local_output st) []);
           le_error_count := len (or_else (local_errors st) []) |} in
      let xml_failed := (tr_failed_tests report >? 0) || (tr_error_tests report >? 0) in
      let local_failed := negb (is_true (le_success local)) in
      let consistent_failure := Bool.eqb xml_failed local_failed in
      Ok {| test_report := report;
            local_execution := local;
            comparison :=
              {| xml_failed := xml_failed;
                 local_failed := local_failed;
                 consistent_failure := consistent_failure;
                 reproducible := consistent_failure && xml_failed |} |}
  | _, _ => Raise (Exc AttributeError none_has_no_get)
  end.

Definition results_collector (st : State) : State :=
  match collect st with
  | Ok cd => set_collected st cd
  | Raise e => set_error st (lit "Results collection failed: " ++ exc_msg e)
  end.

(** *** nodes/root_cause_analyzer.py *)

Definition marker_root_cause : str := lit "**Root Cause:**".
Definition marker_confidence : str := lit "**Confidence:**".
Definition marker_recommendations : str := lit "**Recommendations:**".

Definition default_root_cause : str := lit "Unable to determine root cause".
Definition sentinel_recommendations : list str :=
  [lit "See detailed analysis for recommendations"].

(** [parts[0]] and [parts[1]] of a split. *)
Definition part0 (parts : list str) : str := nth 0 parts [].
Definition part1 (parts : list str) : str := nth 1 parts [].

(** The text up to the first occurrence of [marker], when it occurs. *)
Definition before (marker s : str) : option str :=
  if contains marker s then Some (part0 (split marker s)) else None.

(** "Extract root cause" *)
Definition extract_root_cause (analysis_text : str) : str :=
  if contains marker_root_cause analysis_text then
    let parts := split marker_root_cause analysis_text in
    if 1 <? len parts then
      let section :=
        match before marker_confidence (part1 parts) with
        | Some x => x
        | None => or_else (before marker_recommendations (part1 parts)) (part1 parts)
        end in
      strip section
    else default_root_cause
  else default_root_cause.

(** [re.search(r'(\d+(? :\.\d+)?)\s*%', conf_line)].  The pattern has a blank
    between [(?] and [:], which the regular-expression compiler rejects: the
    call raises [re.error] whatever the line is. *)
Definition bad_pattern : str := lit "unknown extension ?  at position 5".

Definition search_percent (conf_line : str) : res (option str) :=
  Raise (Exc ReError bad_pattern).

(** "Extract confidence" *)
Definition extract_confidence (analysis_text : str) : res float :=
  if contains marker_confidence analysis_text then
    let parts := split marker_confidence analysis_text in
    if 1 <? len parts then
      let conf_section :=
        or_else (before marker_recommendations (part1 parts)) (part1 parts) in
      let conf_line := part0 (split_lines (strip conf_section)) in
      m <- search_percent conf_line ;;
      match m with
      | Some g => x <- py_float g ;; Ok (x / 100)%float
      | None => Ok 0%float
      end
    else Ok 0%float
  else Ok 0%float.

(** The three characters of the source's third list marker. *)
Definition bullet : str := [226%N; 8364%N; 162%N].

Definition numbering : str := lit "0123456789.-" ++ bullet ++ lit ") ".

(** The body of the loop over the lines of the recommendations section. *)
Definition recommendation_of (raw : str) : list str :=
  let line := strip raw in
  let marked :=
    match line with
    | c :: _ => isdigit c || starts_with (lit "-") line || starts_with bullet line
    | [] => false
    end in
  if marked then
    let rec := strip (lstrip_chars numbering line) in
    if truthy rec then [rec] else []
  else [].

(** "Extract recommendations" *)
Definition extract_recommendations (analysis_text : str) : list str :=
  if contains marker_recommendations analysis_text then
    let parts := split marker_recommendations analysis_text in
    if 1 <? len parts then
      flat_map recommendation_of (split_lines (strip (part1 parts)))
    else []
  else [].

(** "Parse response": root cause, confidence and recommendations, or the
    exception raised on the way. *)
Definition parse_response (analysis_text : str) : res (str * float * list str) :=
  let root_cause := extract_root_cause analysis_text in
  confidence <- extract_confidence analysis_text ;;
  Ok (root_cause, confidence, extract_recommendations analysis_text).

(** [x or default] for a string. *)
Definition str_or (o : option str) (d : str) : str :=
  match o with
  | Some ((_ :: _) as s) => s
  | _ => d
  end.

(** [prompt_vars] *)
Definition prompt_vars (st : State) : PromptVars :=
  let error_lines_list :=
    match failure_details st with Some fd => error_lines fd | None => [] end in
  let local_errors_list := or_else (local_errors st) [] in
  let cmp := option_map comparison (collected_data st) in
  let flag (f : Comparison -> bool) :=
    match cmp with Some c => f c | None => false end in
  {| pv_xml_path :=
       if truthy_list (xml_report_paths st)
       then join (lit ", ") (xml_report_paths st) else lit "N/A";
     pv_test_name := str_or (test_name st) (lit "N/A");
     pv_result := option_map (fun cd => tr_result (test_report cd)) (collected_data st);
     pv_total_tests :=
       match collected_data st with
       | Some cd => tr_total_tests (test_report cd)
       | None => 0
       end;
     pv_failure_count :=
       match failure_details st with Some fd => failure_count fd | None => 0 end;
     pv_failure_details :=
       match failure_details st with
       | Some fd => take 5 (test_failures fd)
       | None => []
       end;
     pv_error_lines :=
       if truthy_list error_lines_list
       then join newline (take 20 error_lines_list)
       else lit "No error messages captured";
     pv_local_exit_code :=
       match local_exit_code st with
       | Some c => if c =? 0 then None else Some c
       | None => None
       end;
     pv_local_success := is_true (execution_success st);
     pv_local_error_count := len local_errors_list;
     pv_local_errors :=
       if truthy_list local_errors_list
       then join newline (take 10 local_errors_list)
       else lit "No local errors";
     pv_xml_failed := flag xml_failed;
     pv_local_failed := flag local_failed;
     pv_consistent_failure := flag consistent_failure |}.

Definition manual_recommendations : list str :=
  [lit "Manual investigation required"; lit "Check AWS credentials";
   lit "Review error logs"].

Definition root_cause_analyzer (st : State) : State :=
  let analysis :=
    analysis_text <- llm_invoke w (prompt_vars st) ;;
    '(root_cause, confidence, recs) <- parse_response analysis_text ;;
    Ok (analysis_text, root_cause, confidence, recs) in
  match analysis with
  | Ok (analysis_text, root_cause, confidence, recs) =>
      set_analysis st root_cause confidence
        (if truthy_list recs then recs else sentinel_recommendations)
        analysis_text analyzed (error_message st)
  | Raise e =>
      set_analysis st (lit "Analysis failed: " ++ exc_msg e) 0%float
        manual_recommendations (lit "Error: " ++ exc_msg e) error
        (Some (lit "Analysis failed: " ++ exc_msg e))
  end.

(** *** nodes/report_generator.py *)

Definition yes_no (b : bool) : str := if b then lit "Yes" else lit "No".

(** [enumerate(l, 1)] *)
Fixpoint enumerate_from {A} (i : Z) (l : list A) : list (Z * A) :=
  match l with
  | [] => []
  | x :: l' => (i, x) :: enumerate_from (i + 1) l'
  end.

Definition overall_name (r : overall) : str :=
  match r with
  | SUCCESS => lit "SUCCESS"
  | FAILURE => lit "FAILURE"
  | PARTIAL_FAILURE => lit "PARTIAL_FAILURE"
  end.

(** [str(x)] of an optional integer. *)
Definition str_of_opt_Z (o : option Z) : str :=
  match o with Some z => str_of_Z z | None => lit "None" end.

(** [state.get('confidence_level') or 0.0] *)
Definition float_or_zero (o : option float) : float :=
  match o with
  | Some x => if PrimFloat.eqb x 0 then 0%float else x
  | None => 0%float
  end.

(** "XML Report Information" *)
Definition xml_section (xml_paths : list str) : list str :=
  [lit "## XML Test Report"; []] ++
  match xml_paths with
  | [p] => [lit "**File:** `" ++ p ++ lit "`"]
  | _ =>
      (lit "**Files:** " ++ str_of_Z (len xml_paths) ++ lit " XML reports")
      :: List.map (fun '(i, p) => lit "  " ++ str_of_Z i ++ lit ". `" ++ p ++ lit "`")
                  (enumerate_from 1 xml_paths)
  end ++ [[]].

(** "Test Statistics".  The format shown is the upper-cased [format] key, or
    ['Unknown'] upper-cased when the key is missing. *)
Definition statistics_section (tr : option TestResults) (cd : option CollectedData)
  : list str :=
  let count (f : TestResults -> Z) :=
    str_of_Z (match tr with Some t => f t | None => 0 end) in
  [lit "### Test Statistics"; [];
   lit "- **Total Tests:** " ++ count total_tests;
   lit "- **Passed:** " ++ count passed_tests;
   lit "- **Failed:** " ++ count failed_tests;
   lit "- **Errors:** " ++ count error_tests;
   lit "- **Skipped:** " ++ count skipped_tests;
   lit "- **Duration:** "
     ++ fmt_2f (match tr with Some t => duration_seconds t | None => 0%float end)
     ++ lit "s";
   lit "- **Format:** "
     ++ match tr with
        | Some t =>
            match format t with
            | Some junit => lit "JUNIT"
            | Some testng => lit "TESTNG"
            | None => lit "UNKNOWN"
            end
        | None => lit "UNKNOWN"
        end;
   lit "- **Result:** "
     ++ match cd with
        | Some c => overall_name (tr_result (test_report c))
        | None => lit "UNKNOWN"
        end;
   []].

(** One entry of the "Failed Tests" list. *)
Definition failure_entry (e : Z * Failure) : list str :=
  let '(i, failure) := e in
  [str_of_Z i ++ lit ". **" ++ f_class_name failure ++ lit ". "
     ++ f_test_name failure ++ lit "**";
   lit "   - **Type:** `" ++ f_error_type failure ++ lit "`";
   lit "   - **Message:** " ++ f_error_message failure;
   []].

(** "Failure Details" *)
Definition failure_section (fd : option FailureDetails) : list str :=
  match fd with
  | Some d =>
      if failure_count d >? 0 then
        [lit "### Failure Details"; [];
         lit "**Failed Test Count:** " ++ str_of_Z (failure_count d); []] ++
        (if truthy_list (test_failures d) then
           [lit "**Failed Tests:**"; []] ++
           flat_map failure_entry (enumerate_from 1 (take 10 (test_failures d))) ++
           (if len (test_failures d) >? 10 then
              [lit "*... and " ++ str_of_Z (len (test_failures d) - 10)
                 ++ lit " more failures*"; []]
            else [])
         else []) ++
        [lit "**Error Indicators:**"; [];
         lit "- Compilation Error: " ++ yes_no (has_compilation_error d);
         lit "- Timeout: " ++ yes_no (has_timeout d);
         lit "- Assertion Error: " ++ yes_no (has_assertion_error d);
         []]
      else []
  | None => []
  end.

(** "Local Execution Results" *)
Definition local_section (cd : option CollectedData) : list str :=
  let le := option_map local_execution cd in
  [lit "## Local Execution Results"; [];
   lit "- **Exit Code:** "
     ++ match le with Some l => str_of_opt_Z (le_exit_code l) | None => lit "N/A" end;
   lit "- **Success:** "
     ++ yes_no (match le with Some l => is_true (le_success l) | None => false end);
   lit "- **Output Length:** "
     ++ str_of_Z (match le with Some l => le_output_length l | None => 0 end)
     ++ lit " characters";
   lit "- **Error Count:** "
     ++ str_of_Z (match le with Some l => le_error_count l | None => 0 end);
   []].

(** "Comparison Analysis" *)
Definition comparison_section (cd : option CollectedData) : list str :=
  let flag (f : Comparison -> bool) :=
    yes_no (match cd with Some c => f (comparison c) | None => false end) in
  [lit "## Comparison Analysis"; [];
   lit "- **XML Reports Failure:** " ++ flag xml_failed;
   lit "- **Local Execution Failed:** " ++ flag local_failed;
   lit "- **Consistent Failure:** " ++ flag consistent_failure;
   lit "- **Reproducible:** " ++ flag reproducible;
   []].

(** "Root Cause Analysis" and "Recommendations" *)
Definition analysis_section (st : State) : list str :=
  let recs :=
    match recommendations st with
    | Some ((_ :: _) as l) => l
    | _ => [lit "No recommendations available"]
    end in
  [lit "## Root Cause Analysis"; [];
   lit "**Confidence Level:** " ++ fmt_pct0 (float_or_zero (confidence_level st));
   [];
   lit "### Analysis"; [];
   str_or (root_cause st) (lit "Unable to determine root cause");
   [];
   lit "## Recommendations"; []] ++
  List.map (fun '(i, rec) => str_of_Z i ++ lit ". " ++ rec) (enumerate_from 1 recs) ++
  [[]].

(** "Error Messages" *)
Definition error_section (fd : option FailureDetails) : list str :=
  match fd with
  | Some d =>
      if truthy_list (error_lines d) then
        [lit "## Error Messages"; []; lit "```"] ++
        take 50 (error_lines d) ++
        (if len (error_lines d) >? 50
         then [lit "... and " ++ str_of_Z (len (error_lines d) - 50) ++ lit " more lines"]
         else []) ++
        [lit "```"; []]
      else []
  | None => []
  end.

(** [report_lines] *)
Definition report_lines (st : State) : list str :=
  [lit "# Test Failure Analysis Report"; [];
   lit "**Generated:** " ++ now w;
   lit "**Test Name:** " ++ str_or (test_name st) (lit "Test Analysis");
   []] ++
  xml_section (xml_report_paths st) ++
  statistics_section (test_results st) (collected_data st) ++
  failure_section (failure_details st) ++
  local_section (collected_data st) ++
  comparison_section (collected_data st) ++
  analysis_section st ++
  error_section (failure_details st) ++
  [lit "---"; []; lit "*Report generated by Automation Failure Solver POC*"].

(** The headings every report holds. *)
Definition report_headings : list str :=
  [lit "# Test Failure Analysis Report"; lit "## XML Test Report";
   lit "### Test Statistics"; lit "## Local Execution Results";
   lit "## Comparison Analysis"; lit "## Root Cause Analysis";
   lit "## Recommendations"].

(** [report_generator].  Every operation of its [try] block is defined on
    every state of type [State], so the [except] clause, which serves values
    of unexpected Python types, has nothing to catch here. *)
Definition report_generator (st : State) : State :=
  set_report st (join newline (report_lines st)).

End WithWorld.
End Nodes.

(* ------------------------------------------------------------------------- *)
(** ** graph.py *)

Module Graph.

(** The nodes [create_failure_analysis_graph] adds. *)
Inductive node :=
| fetch_xml
| access_repo
| execute_local
| collect_results
| analyze_root_cause
| generate_report.

(** [set_entry_point] *)
Definition entry_point : node := fetch_xml.

(** The [add_edge] calls: the successor of a node, [None] for [END]. *)
Definition edge (n : node) : option node :=
  match n with
  | fetch_xml => Some access_repo
  | access_repo => Some execute_local
  | execute_local => Some collect_results
  | collect_results => Some analyze_root_cause
  | analyze_root_cause => Some generate_report
  | generate_report => None
  end.

(** What a run does, in order: the nodes entered and the client calls made. *)
Inductive event :=
| Enter (n : node)
| Called (c : call).

Section Run.
Context {B : Builtins}.
Variable w : World.

(** The function [add_node] binds to each name. *)
Definition run_node (n : node) (st : State) : State * list call :=
  match n with
  | fetch_xml => (Nodes.xml_report_fetcher w st, [])
  | access_repo => (Nodes.local_repo_access w st, [])
  | execute_local => Nodes.local_executor w st
  | collect_results => (Nodes.results_collector st, [])
  | analyze_root_cause => (Nodes.root_cause_analyzer w st, [])
  | generate_report => (Nodes.report_generator w st, [])
  end.

(** The compiled graph's [invoke]: run the current node, merge its update,
    follow its edge; [None] when [fuel] steps do not reach [END]. *)
Fixpoint drive (fuel : nat) (n : node) (st : State) : option (State * list event) :=
  match fuel with
  | O => None
  | S fuel' =>
      let '(st', calls) := run_node n st in
      let here := Enter n :: List.map Called calls in
      match edge n with
      | None => Some (st', here)
      | Some next =>
          match drive fuel' next st' with
          | Some (final, later) => Some (final, here ++ later)
          | None => None
          end
      end
  end.

Definition invoke (fuel : nat) (st : State) : option (State * list event) :=
  drive fuel entry_point st.

(** [initial_state] of [run_failure_analysis] *)
Definition initial_state (xml_paths : list str) (repo : str) (name : option str)
  : State :=
  {| xml_report_paths := xml_paths; repo_path := repo; test_name := name;
     test_results := None; failure_details := None; local_output := None;
     local_errors := None; local_exit_code := None; execution_success := None;
     collected_data := None; root_cause := None; confidence_level := None;
     recommendations := None; llm_full_response := None; final_report := None;
     workflow_status := initialized; error_message := None |}.

(** [run_failure_analysis] *)
Definition run_failure_analysis (fuel : nat) (xml_paths : list str) (repo : str)
  (name : option str) : option (State * list event) :=
  invoke fuel (initial_state xml_paths repo name).

End Run.

(** The nodes a run entered. *)
Definition entered (evs : list event) : list node :=
  flat_map (fun e => match e with Enter n => [n] | Called _ => [] end) evs.

(** Whether a run called the executor's [run_specific_tests]. *)
Definition ran_tests (evs : list event) : bool :=
  existsb (fun e => match e with Called CallRunSpecificTests => true | _ => false end)
          evs.

Definition all_nodes : list node :=
  [fetch_xml; access_repo; execute_local; collect_results; analyze_root_cause;
   generate_report].

(** The "Local Execution Results" section of a run that found no build
    system. *)
Definition no_build_system_lines : list str :=
  [lit "## Local Execution Results"; [];
   lit "- **Exit Code:** -1";
   lit "- **Success:** No";
   lit "- **Output Length:** 49 characters";
   lit "- **Error Count:** 1";
   []].

Definition all_true : Comparison :=
  {| xml_failed := true; local_failed := true; consistent_failure := true;
     reproducible := true |}.
End Graph.

(* ------------------------------------------------------------------------- *)
(** ** local/langgraph_poc/graph.py

    The older graph of the repository over the same six stages.  Its node
    functions live in other files and are parameters here; what the file
    itself defines is the routing. *)

Module LocalGraph.

Inductive node :=
| xml_fetcher
| local_repo
| local_executor
| results_collector
| root_cause_analyzer
| report_generator.

Section Routing.
(** The state dictionary, and [state.get("workflow_status") == "error"]. *)
Variable St : Type.
Variable is_error : St -> bool.
(** The node functions, their updates merged into the state. *)
Variable run_node : node -> St -> St.

(** The router of the three [add_conditional_edges] calls. *)
Inductive route := route_continue | route_error.

Definition router (st : St) : route :=
  if is_error st then route_error else route_continue.

(** The successor of [n] in state [st] ([None] for [END]): the mappings of
    the conditional edges, then the three [add_edge] calls. *)
Definition next (n : node) (st : St) : option node :=
  match n with
  | xml_fetcher =>
      match router st with
      | route_continue => Some local_repo
      | route_error => None
      end
  | local_repo =>
      match router st with
      | route_continue => Some local_executor
      | route_error => None
      end
  | local_executor =>
      match router st with
      | route_continue => Some results_collector
      | route_error => Some results_collector
      end
  | results_collector => Some root_cause_analyzer
  | root_cause_analyzer => Some report_generator
  | report_generator => None
  end.

(** The compiled graph's [invoke], from node [n]: the final state and the
    nodes run; [None] when [fuel] steps do not reach [END]. *)
Fixpoint drive (fuel : nat) (n : node) (st : St) : option (St * list node) :=
  match fuel with
  | O => None
  | S fuel' =>
      let st' := run_node n st in
      match next n st' with
      | None => Some (st', [n])
      | Some n' =>
          match drive fuel' n' st' with
          | Some (final, later) => Some (final, n :: later)
          | None => None
          end
      end
  end.

Definition invoke (fuel : nat) (st : St) : option (St * list node) :=
  drive fuel xml_fetcher st.

End Routing.
End LocalGraph.

(* ------------------------------------------------------------------------- *)
(** ** config.py *)

Module Config.

(** A loaded YAML value: a mapping, or anything else. *)
Inductive value (V : Type) :=
| Dict (items : list (str * value V))
| Other (v : V).
Arguments Dict {V} items.
Arguments Other {V} v.

(** The key has no ["."], the separator of [Config.get]. *)
Definition dot_free (k : str) : bool := negb (existsb (char_eqb TestFinder.dot) k).

Section Get.
Variable V : Type.

(** [d.get(k, default)] *)
Fixpoint dict_get (k : str) (items : list (str * value V)) (default : value V)
  : value V :=
  match items with
  | [] => default
  | (k', v) :: rest => if str_eqb k' k then v else dict_get k rest default
  end.

(** The loop of [Config.get] over the keys. *)
Fixpoint walk (keys : list str) (v default : value V) : value V :=
  match keys with
  | [] => v
  | k :: keys' =>
      match v with
      | Dict items => walk keys' (dict_get k items default) default
      | Other _ => default
      end
  end.

(** [Config.get] *)
Definition get (config : value V) (key : str) (default : value V) : value V :=
  walk (split (lit ".") key) config default.

(** The value stored under a path of keys, when every step is a mapping that
    has the key. *)
Fixpoint stored (keys : list str) (v : value V) : option (value V) :=
  match keys with
  | [] => Some v
  | k :: keys' =>
      match v with
      | Dict items =>
          match Xml.lookup_in k items with
          | Some v' => stored keys' v'
          | None => None
          end
      | Other _ => None
      end
  end.

End Get.
End Config.

(* ------------------------------------------------------------------------- *)
(** ** A concrete runtime, for evaluating the definitions

    [ascii_builtins] agrees with CPython on the inputs used in this file: ASCII
    text, decimal integer literals, decimal float literals of at most fifteen
    digits, and POSIX paths. *)

Module Sample.

Definition ascii_isspace (c : char) : bool :=
  ((9 <=? c) && (c <=? 13) || (28 <=? c) && (c <=? 32))%N.

Definition ascii_isdigit (c : char) : bool := ((48 <=? c) && (c <=? 57))%N.

Definition ascii_lower (s : str) : str :=
  List.map (fun c => if ((65 <=? c) && (c <=? 90))%N then (c + 32)%N else c) s.

Definition ascii_strip (s : str) : str :=
  drop_while_end ascii_isspace (drop_while ascii_isspace s).

(** The value of a string of ASCII digits. *)
Fixpoint digits_value (s : str) (acc : Z) : option Z :=
  match s with
  | [] => Some acc
  | c :: s' =>
      if ascii_isdigit c
      then digits_value s' (10 * acc + Z.of_N (c - 48))
      else None
  end.

(** A leading sign, and the rest. *)
Definition split_sign (s : str) : bool * str :=
  match s with
  | c :: s' =>
      if char_eqb c 45%N then (true, s')
      else if char_eqb c 43%N then (false, s')
      else (false, s)
  | [] => (false, [])
  end.

Definition ascii_int (s : str) : res Z :=
  let bad := Raise (Exc ValueError
                      (lit "invalid literal for int() with base 10: '" ++ s ++ lit "'")) in
  let '(neg, body) := split_sign (ascii_strip s) in
  match body with
  | [] => bad
  | _ =>
      match digits_value body 0 with
      | Some v => Ok (if neg then - v else v)
      | None => bad
      end
  end.

(** The digits before and after the decimal point. *)
Fixpoint split_point (s : str) : str * str :=
  match s with
  | [] => ([], [])
  | c :: s' =>
      if char_eqb c 46%N then ([], s')
      else let '(a, b) := split_point s' in (c :: a, b)
  end.

Definition float_of_Z (z : Z) : float := PrimFloat.of_uint63 (Uint63.of_Z z).

(** A decimal literal [digits[.digits]]: when the digits make an integer below
    [2^53] and the power of ten is at most [10^22], both are binary64 values
    and their quotient is the correctly rounded result. *)
Definition ascii_float (s : str) : res float :=
  let bad := Raise (Exc ValueError
                      (lit "could not convert string to float: '" ++ s ++ lit "'")) in
  let '(neg, body) := split_sign (ascii_strip s) in
  let '(whole, frac) := split_point body in
  match whole ++ frac with
  | [] => bad
  | ds =>
      match digits_value ds 0 with
      | Some n =>
          if (n <? 2 ^ 53) && (Z.of_nat (length frac) <=? 22) then
            let x := (float_of_Z n / float_of_Z (10 ^ Z.of_nat (length frac)))%float in
            Ok (if neg then (- x)%float else x)
          else bad
      | None => bad
      end
  end.

Definition slash : str := lit "/".

(** [str(Path(s))] of a path already in normal form. *)
Definition posix_str (s : str) : str :=
  match s with [] => lit "." | _ => s end.

Definition posix_join (p s : str) : str :=
  if starts_with slash s then s else p ++ slash ++ s.

Definition posix_relative_to (p q : str) : res str :=
  if starts_with (q ++ slash) p
  then Ok (skipn (length q + 1) p)
  else Raise (Exc ValueError (lit "path is not in the subpath")).

#[local] Instance ascii_builtins : Builtins := {|
  py_int := ascii_int;
  py_float := ascii_float;
  isspace := ascii_isspace;
  isdigit := ascii_isdigit;
  py_lower := ascii_lower;
  path_str := posix_str;
  path_join := posix_join;
  os_sep := slash;
  path_relative_to := posix_relative_to
|}.

(** Text shown as a Rocq string. *)
Definition show (s : str) : String.string :=
  string_of_list_ascii (List.map ascii_of_N s).

(** *** Sample documents and worlds *)

Local Open Scope string_scope.

Definition elem (t : String.string) (attrs : list (String.string * String.string))
  (txt : option String.string) (cs : list Xml.element) : Xml.element :=
  Xml.Element (lit t) (List.map (fun '(k, v) => (lit k, lit v)) attrs)
              (option_map lit txt) cs.

(** One JUnit report: three tests, one failure. *)
Definition junit_one_failure : Xml.element :=
  elem "testsuite"
    [("name", "CalcTest"); ("tests", "3"); ("failures", "1"); ("errors", "0");
     ("skipped", "0"); ("time", "0.05")] None
    [elem "testcase" [("classname", "com.acme.CalcTest"); ("name", "testAdd")] None [];
     elem "testcase" [("classname", "com.acme.CalcTest"); ("name", "testSub")] None [];
     elem "testcase" [("classname", "com.acme.CalcTest"); ("name", "testMul")] None
       [elem "failure" [("message", "expected 5 got 3"); ("type", "AssertionError")]
          (Some "at com.acme.CalcTest.testMul(CalcTest.java:12)") []]].

(** One JUnit report: two tests, both passing. *)
Definition junit_all_passing : Xml.element :=
  elem "testsuite"
    [("name", "CalcTest"); ("tests", "2"); ("failures", "0"); ("errors", "0");
     ("skipped", "0"); ("time", "0.02")] None
    [elem "testcase" [("classname", "com.acme.CalcTest"); ("name", "testAdd")] None [];
     elem "testcase" [("classname", "com.acme.CalcTest"); ("name", "testSub")] None []].

(** One JUnit report: a single test that ended in an error. *)
Definition junit_one_error : Xml.element :=
  elem "testsuite"
    [("name", "SetupTest"); ("tests", "1"); ("failures", "0"); ("errors", "1");
     ("skipped", "0"); ("time", "0.01")] None
    [elem "testcase" [("classname", "com.acme.SetupTest"); ("name", "testInit")] None
       [elem "error" [("message", "connection refused"); ("type", "java.io.IOException")]
          (Some "at com.acme.SetupTest.testInit(SetupTest.java:7)") []]].

(** A JUnit report of one passing test that took [time] seconds. *)
Definition junit_timed (time : String.string) : Xml.element :=
  elem "testsuite" [("tests", "1"); ("failures", "0"); ("time", time)] None
    [elem "testcase" [("classname", "T"); ("name", "t")] None []].

(** A TestNG report whose total also counts one retried test. *)
Definition testng_with_retry : Xml.element :=
  elem "testng-results"
    [("total", "3"); ("passed", "1"); ("failed", "1"); ("skipped", "0");
     ("ignored", "0"); ("retried", "1")] None
    [elem "suite" [("name", "S"); ("duration-ms", "1500")] None
       [elem "test" [("name", "T")] None
          [elem "class" [("name", "com.acme.FooTest")] None
             [elem "test-method"
                [("status", "PASS"); ("name", "testOk");
                 ("signature", "testOk()[pri:0, instance:com.acme.FooTest@1a2b]")]
                None [];
              elem "test-method"
                [("status", "FAIL"); ("name", "testBar");
                 ("signature", "testBar(java.lang.String)[pri:0, instance:com.acme.FooTest@1a2b]")]
                None
                [elem "exception" [("class", "java.lang.AssertionError")] None
                   [elem "message" [] (Some "expected true") []]]]]]].

Definition mem_str (s : str) (l : list str) : bool := existsb (str_eqb s) l.

Fixpoint assoc {A} (k : str) (l : list (str * A)) : option A :=
  match l with
  | [] => None
  | (k', v) :: l' => if str_eqb k' k then Some v else assoc k l'
  end.

(** A file system: the paths that exist, the directories among them, the XML
    documents, and the files a recursive search for a name finds (under any
    directory that exists). *)
Definition fs_of (paths dirs : list String.string)
  (docs : list (String.string * Xml.element))
  (named : list (String.string * list String.string)) : FileSystem :=
  {| fs_exists := fun p => mem_str p (List.map lit paths);
     fs_is_dir := fun p => mem_str p (List.map lit dirs);
     fs_rglob := fun d pattern =>
       if mem_str d (List.map lit dirs)
       then or_else (assoc pattern
                       (List.map (fun '(k, v) => (lit k, List.map lit v)) named)) []
       else [];
     fs_parse := fun p =>
       match assoc p (List.map (fun '(k, v) => (lit k, v)) docs) with
       | Some r => Xml.Parsed r
       | None => Xml.ParseError (lit "syntax error: line 1, column 0")
       end |}.

(** A world over [fs] in which no build tool is installed and the model
    answers [reply]. *)
Definition world_of (fs : FileSystem) (reply : String.string) : World :=
  {| files := fs;
     subprocess_run := fun _ _ _ =>
       ProcRaises (Exc FileNotFoundError (lit "[Errno 2] No such file or directory"));
     list_files := fun _ => Ok [];
     llm_invoke := fun _ => Ok (lit reply);
     now := lit "2024-01-01 12:00:00" |}.

(** A checkout with the failing test's class and no build file. *)
Definition fs_no_build_tool : FileSystem :=
  fs_of ["report.xml"; "repo"; "repo/src/test/java/com/acme/CalcTest.java"]
        ["repo"]
        [("report.xml", junit_one_failure)]
        [("CalcTest.java", ["repo/src/test/java/com/acme/CalcTest.java"])].

Definition plain_reply : String.string :=
  "The multiplication test expects 5 but the method returns 3.".

Definition world_no_build_tool : World := world_of fs_no_build_tool plain_reply.

(** What the reader extracts from [junit_one_failure]. *)
Definition failure_testMul : Failure :=
  {| f_test_name := lit "testMul";
     f_class_name := lit "com.acme.CalcTest";
     f_method_signature := None;
     f_error_type := lit "AssertionError";
     f_error_message := lit "expected 5 got 3";
     f_stack_trace := lit "at com.acme.CalcTest.testMul(CalcTest.java:12)";
     f_duration_ms := None;
     f_params := None |}.

Definition results_one_failure : TestResults :=
  {| total_tests := 3; passed_tests := 2; failed_tests := 1; error_tests := 0;
     skipped_tests := 0; duration_seconds := 0.05%float; format := Some junit |}.

Definition failures_one_failure : FailureDetails :=
  {| failure_count := 1;
     result := PARTIAL_FAILURE;
     test_failures := [failure_testMul];
     error_lines := [lit "com.acme.CalcTest.testMul: expected 5 got 3";
                     lit "at com.acme.CalcTest.testMul(CalcTest.java:12)"];
     has_compilation_error := false;
     has_timeout := false;
     has_assertion_error := true |}.

(** What the reader extracts from [junit_all_passing]. *)
Definition results_all_passing : TestResults :=
  {| total_tests := 2; passed_tests := 2; failed_tests := 0; error_tests := 0;
     skipped_tests := 0; duration_seconds := 0.02%float; format := Some junit |}.

Definition failures_all_passing : FailureDetails :=
  {| failure_count := 0; result := SUCCESS; test_failures := []; error_lines := [];
     has_compilation_error := false; has_timeout := false;
     has_assertion_error := false |}.

(** The failing test of [junit_one_failure], as a locator would return it. *)
Definition located_testMul : Located :=
  {| file_path := lit "repo/src/test/java/com/acme/CalcTest.java";
     class_name := lit "CalcTest";
     full_class_name := lit "com.acme.CalcTest";
     method_name := lit "testMul";
     package := None;
     relative_path := None;
     failure_info := Some failure_testMul |}.

(** A checkout next to a report in which every test passed; the current
    directory exists, as it always does. *)
Definition fs_passing : FileSystem :=
  fs_of ["pass.xml"; "."; "repo"] ["."; "repo"] [("pass.xml", junit_all_passing)] [].

Definition world_passing : World := world_of fs_passing plain_reply.

(** A report file that is not well-formed XML. *)
Definition fs_malformed : FileSystem := fs_of ["bad.xml"; "repo"] ["repo"] [] [].

Definition world_malformed : World := world_of fs_malformed plain_reply.

(** Several report files, for merging. *)
Definition fs_reports : FileSystem :=
  fs_of ["error.xml"; "pass.xml"; "a.xml"; "b.xml"; "c.xml"; "testng.xml"] []
        [("error.xml", junit_one_error); ("pass.xml", junit_all_passing);
         ("a.xml", junit_timed "0.1"); ("b.xml", junit_timed "0.2");
         ("c.xml", junit_timed "0.3"); ("testng.xml", testng_with_retry)] [].

(** The state after ingestion of [report.xml] and of [pass.xml]. *)
Definition ingested_one_failure : State :=
  set_ingested (Graph.initial_state [lit "report.xml"] (lit "repo") None)
               results_one_failure failures_one_failure.

Definition ingested_all_passing : State :=
  set_ingested (Graph.initial_state [lit "pass.xml"] (lit "repo") None)
               results_all_passing failures_all_passing.

(** The runs the counterexamples evaluate. *)
Definition run_no_build_tool : option (State * list Graph.event) :=
  Graph.run_failure_analysis world_no_build_tool 6 [lit "report.xml"] (lit "repo") None.

Definition run_empty_repo_path : option (State * list Graph.event) :=
  Graph.run_failure_analysis world_passing 6 [lit "pass.xml"] [] None.

(** A field of the final state of a run. *)
Definition final {A} (f : State -> A) (r : option (State * list Graph.event))
  : option A :=
  option_map (fun x => f (fst x)) r.

(** The comparison of the final state of a run. *)
Definition final_comparison (r : option (State * list Graph.event))
  : option Comparison :=
  match final collected_data r with
  | Some (Some cd) => Some (comparison cd)
  | _ => None
  end.

(** Whether the final report of a run contains [phrase]. *)
Definition report_contains (phrase : String.string)
  (r : option (State * list Graph.event)) : option bool :=
  match final final_report r with
  | Some (Some report) => Some (contains (lit phrase) report)
  | _ => None
  end.

(** The failed method of [testng_with_retry], and what the reader extracts
    from that report. *)
Definition failed_method_testBar : Xml.element :=
  elem "test-method"
    [("status", "FAIL"); ("name", "testBar");
     ("signature", "testBar(java.lang.String)[pri:0, instance:com.acme.FooTest@1a2b]")]
    None
    [elem "exception" [("class", "java.lang.AssertionError")] None
       [elem "message" [] (Some "expected true") []]].

Definition failure_testBar : Failure :=
  {| f_test_name := lit "testBar";
     f_class_name := lit "com.acme.FooTest";
     f_method_signature :=
       Some (lit "testBar(java.lang.String)[pri:0, instance:com.acme.FooTest@1a2b]");
     f_error_type := [];
     f_error_message := [];
     f_stack_trace := [];
     f_duration_ms := Some (lit "0");
     f_params := Some [] |}.

Definition results_testng : TestResults :=
  {| total_tests := 3; passed_tests := 1; failed_tests := 1; error_tests := 0;
     skipped_tests := 0; duration_seconds := 0%float; format := Some testng |}.

Definition failures_testng : FailureDetails :=
  {| failure_count := 1; result := PARTIAL_FAILURE;
     test_failures := [failure_testBar]; error_lines := [];
     has_compilation_error := false; has_timeout := false;
     has_assertion_error := false |}.

(** The failure of [junit_one_failure] with a signature as TestNG writes it. *)
Definition failure_signed : Failure :=
  {| f_test_name := lit "testMul";
     f_class_name := lit "com.acme.CalcTest";
     f_method_signature :=
       Some (lit "testMul()[pri:0, instance:com.acme.CalcTest@1a2b]");
     f_error_type := [];
     f_error_message := [];
     f_stack_trace := [];
     f_duration_ms := Some (lit "0");
     f_params := Some [] |}.

(** [failure_signed], as the locator returns it. *)
Definition located_signed : Located :=
  {| file_path := lit "repo/src/test/java/com/acme/CalcTest.java";
     class_name := lit "CalcTest";
     full_class_name := lit "com.acme.CalcTest";
     method_name := lit "testMul";
     package := None;
     relative_path := None;
     failure_info := Some failure_signed |}.

(** The checkout of [fs_no_build_tool] with a [pom.xml]. *)
Definition fs_maven : FileSystem :=
  fs_of ["report.xml"; "repo"; "repo/pom.xml";
         "repo/src/test/java/com/acme/CalcTest.java"]
        ["repo"]
        [("report.xml", junit_one_failure)]
        [("CalcTest.java", ["repo/src/test/java/com/acme/CalcTest.java"])].

Definition world_maven : World := world_of fs_maven plain_reply.

(** An answer of the model that states a confidence. *)
Definition confident_reply : String.string :=
  "**Root Cause:** the method multiplies by the wrong factor. **Confidence:** 85%".

Definition world_confident : World := world_of fs_passing confident_reply.

(** A build tool that runs and reports a failed build. *)
Definition runner_failing : runner :=
  fun _ _ _ => Completed 1 (lit "Tests run: 1, Failures: 1") (lit "BUILD FAILURE").

Definition world_reports : World := world_of fs_reports plain_reply.

(** A loaded configuration file. *)
Definition config_example : Config.value str :=
  Config.Dict
    [(lit "llm",
      Config.Dict [(lit "model", Config.Other (lit "claude"));
                   (lit "region", Config.Other (lit "us-east-1"))]);
     (lit "execution", Config.Dict [(lit "timeout", Config.Other (lit "300"))])].

End Sample.

(* ========================================================================= *)
(** * Properties *)

(** ** The result aggregator *)

Section Aggregator.

(** The comparison [collect] builds from a summary and an execution flag. *)
Lemma collect_ok (st : State) (tr : TestResults) (fd : FailureDetails) :
  test_results st = Some tr ->
  failure_details st = Some fd ->
  exists cd,
    Nodes.collect st = Ok cd /\
    xml_failed (comparison cd) = (failed_tests tr >? 0) || (error_tests tr >? 0) /\
    local_failed (comparison cd) = negb (Nodes.is_true (execution_success st)) /\
    consistent_failure (comparison cd)
      = Bool.eqb (xml_failed (comparison cd)) (local_failed (comparison cd)) /\
    reproducible (comparison cd)
      = consistent_failure (comparison cd) && xml_failed (comparison cd).
Proof.
  intros Htr Hfd. unfold Nodes.collect. rewrite Htr, Hfd.
  eexists. split; [reflexivity|]. simpl. repeat split.
Qed.

Lemma collect_fails_without_results (st : State) :
  test_results st = None \/ failure_details st = None ->
  Nodes.collect st = Raise (Exc AttributeError Nodes.none_has_no_get).
Proof.
  intros [H|H]; unfold Nodes.collect; rewrite H; [reflexivity|].
  now destruct (test_results st).
Qed.

Lemma is_true_spec (o : option bool) : Nodes.is_true o = true <-> o = Some true.
Proof.
  destruct o as [[|]|]; simpl; split; intros H; try reflexivity; try discriminate.
Qed.

(** C1.  Whenever the aggregator produces a comparison (the state holds a
    summary and failure details), [xml_failed] is true exactly when the
    summary's failed or errored count is positive, [local_failed] is true
    exactly when the execution was not recorded as successful,
    [consistent_failure] is the equality of the two flags and [reproducible]
    is [consistent_failure] and [xml_failed]. *)
Theorem comparison_result_flags (st : State) (tr : TestResults) (fd : FailureDetails) :
  test_results st = Some tr ->
  failure_details st = Some fd ->
  exists cd,
    collected_data (Nodes.results_collector st) = Some cd /\
    workflow_status (Nodes.results_collector st) = results_collected /\
    (xml_failed (comparison cd) = true <-> failed_tests tr > 0 \/ error_tests tr > 0) /\
    (local_failed (comparison cd) = true <-> execution_success st <> Some true) /\
    consistent_failure (comparison cd)
      = Bool.eqb (xml_failed (comparison cd)) (local_failed (comparison cd)) /\
    reproducible (comparison cd)
      = consistent_failure (comparison cd) && xml_failed (comparison cd).
Proof.
  intros Htr Hfd.
  destruct (collect_ok st Htr Hfd) as (cd & Hc & Hx & Hl & Hcons & Hrep).
  exists cd. unfold Nodes.results_collector. rewrite Hc. simpl.
  repeat split; auto.
  - rewrite Hx. intros H. apply orb_true_iff in H.
    destruct H as [H|H]; apply Z.gtb_lt in H; lia.
  - rewrite Hx. intros [H|H]; apply orb_true_iff; [left|right];
      apply Z.gtb_lt; lia.
  - rewrite Hl. intros H E. apply is_true_spec in E. rewrite E in H. discriminate.
  - rewrite Hl. intros H. destruct (Nodes.is_true (execution_success st)) eqn:E; auto.
    apply is_true_spec in E. contradiction.
Qed.

(** The four combinations of the two flags. *)
Lemma comparison_truth_table (xf lf : bool) :
  let cons := Bool.eqb xf lf in
  (cons, cons && xf) =
  match xf, lf with
  | true, true => (true, true)
  | true, false => (false, false)
  | false, true => (false, false)
  | false, false => (true, false)
  end.
Proof. now destruct xf, lf. Qed.

End Aggregator.

(** ** The compiled graph *)

Section Orchestrator.
Context {B : Builtins}.
Variable w : World.

Import Graph.

(** A run is the six nodes in the order of the edges, whatever they return. *)
Lemma invoke_six (st : State) :
  invoke w 6 st =
  let s1 := Nodes.xml_report_fetcher w st in
  let s2 := Nodes.local_repo_access w s1 in
  let s3 := Nodes.local_executor w s2 in
  let s4 := Nodes.results_collector (fst s3) in
  let s5 := Nodes.root_cause_analyzer w s4 in
  let s6 := Nodes.report_generator w s5 in
  Some (s6,
        [Enter fetch_xml; Enter access_repo; Enter execute_local]
        ++ List.map Called (snd s3)
        ++ [Enter collect_results; Enter analyze_root_cause; Enter generate_report]).
Proof.
  cbv [invoke drive entry_point edge run_node].
  destruct (Nodes.local_executor w _) as [s3 calls].
  cbn [fst snd map app]. reflexivity.
Qed.

Lemma entered_called (calls : list call) : entered (List.map Called calls) = [].
Proof. induction calls; simpl; auto. Qed.

Lemma entered_app (a b : list event) : entered (a ++ b) = entered a ++ entered b.
Proof. apply flat_map_app. Qed.

(** Every run enters all six nodes and ends in [completed]. *)
Lemma invoke_completes (st : State) :
  exists final evs,
    invoke w 6 st = Some (final, evs) /\
    entered evs = all_nodes /\
    workflow_status final = completed.
Proof.
  rewrite invoke_six. cbv zeta. do 2 eexists. split; [reflexivity|]. split.
  - rewrite !entered_app, entered_called. reflexivity.
  - reflexivity.
Qed.

(** The fetcher on a single file whose reading raises, for whatever reason
    (missing file, malformed XML, unknown format, a count that is no number). *)
Lemma fetcher_failure (st : State) (path : str) (e : exc) :
  xml_report_paths st = [path] ->
  XmlReader.read_one (files w) path = Raise e ->
  Nodes.xml_report_fetcher w st = set_error st (lit "XML parsing failed: " ++ exc_msg e).
Proof.
  intros Hp Hr. unfold Nodes.xml_report_fetcher. now rewrite Hp, Hr.
Qed.

Lemma read_one_malformed (path msg : str) :
  fs_exists (files w) (path_str path) = true ->
  fs_parse (files w) (path_str path) = Xml.ParseError msg ->
  XmlReader.read_one (files w) path
  = Raise (Exc ValueError (lit "Invalid XML file: " ++ msg)).
Proof.
  intros He Hx. unfold XmlReader.read_one, XmlReader.new_reader.
  now rewrite He, Hx.
Qed.

Lemma read_one_unknown_format (path : str) (r : Xml.element) (e : exc) :
  fs_exists (files w) (path_str path) = true ->
  fs_parse (files w) (path_str path) = Xml.Parsed r ->
  XmlReader.detect_format r = Raise e ->
  XmlReader.read_one (files w) path = Raise e.
Proof.
  intros He Hx Hd. unfold XmlReader.read_one, XmlReader.new_reader.
  now rewrite He, Hx, Hd.
Qed.

(** C2 (as the code behaves).  When ingestion of the single report fails
    (reading it raises: malformed XML, unknown format, ...) the fetcher
    records the [error] status and the message, and the run nevertheless goes
    on through the five later nodes and ends with status [completed]: the
    edges of the graph are unconditional and the report generator overwrites
    the status. *)
Theorem failed_ingestion_run_completes (path repo : str) (name : option str) (e : exc) :
  XmlReader.read_one (files w) path = Raise e ->
  workflow_status (Nodes.xml_report_fetcher w (initial_state [path] repo name)) = error /\
  error_message (Nodes.xml_report_fetcher w (initial_state [path] repo name))
  = Some (lit "XML parsing failed: " ++ exc_msg e) /\
  exists final evs,
    run_failure_analysis w 6 [path] repo name = Some (final, evs) /\
    entered evs = all_nodes /\
    workflow_status final = completed.
Proof.
  intros Hr.
  rewrite (@fetcher_failure (initial_state [path] repo name) path e eq_refl Hr).
  split; [reflexivity|]. split; [reflexivity|]. apply invoke_completes.
Qed.

End Orchestrator.

(** ** The local executor and the stages after it *)

Section Pipeline.
Context {B : Builtins}.
Variable w : World.

Import Graph.

Lemma local_executor_no_repo (st : State) :
  truthy (repo_path st) = false ->
  Nodes.local_executor w st
  = (set_execution st [] [lit "No repository path provided"] (-1) false, []).
Proof. intros H. unfold Nodes.local_executor. now rewrite H. Qed.

Lemma local_executor_skips (st : State) (fd : FailureDetails) :
  truthy (repo_path st) = true ->
  failure_details st = Some fd ->
  failure_count fd = 0 ->
  Nodes.local_executor w st
  = (set_execution st (lit "No failures to reproduce") [] 0 true, []).
Proof.
  intros Hr Hfd Hc. unfold Nodes.local_executor. now rewrite Hr, Hfd, Hc.
Qed.

Lemma local_executor_no_build_system (st : State) (fd : FailureDetails) :
  truthy (repo_path st) = true ->
  failure_details st = Some fd ->
  failure_count fd <> 0 ->
  fs_exists (files w) (path_str (repo_path st)) = true ->
  TestFinder.detect_build_system (files w) (path_str (repo_path st)) = None ->
  Nodes.local_executor w st
  = (set_execution st (lit "Build system not detected (Maven/Gradle required)")
       [lit "No pom.xml or build.gradle found"] (-1) false,
     [CallNewFinder; CallDetectBuildSystem]).
Proof.
  intros Hr Hfd Hc He Hd. unfold Nodes.local_executor. rewrite Hr, Hfd.
  apply Z.eqb_neq in Hc. rewrite Hc.
  unfold Nodes.try_execute, TestFinder.new_finder. now rewrite He, Hd.
Qed.

(** The repository node changes the status and the error message only. *)
Lemma local_repo_access_shape (st : State) :
  Nodes.local_repo_access w st = set_status st repo_accessed \/
  exists msg, Nodes.local_repo_access w st = set_error st msg.
Proof.
  unfold Nodes.local_repo_access.
  destruct (_ <- Nodes.new_repo_client w (repo_path st) ;; _); eauto.
Qed.

(** The analyzer sets the four analysis keys, the status and the error
    message only. *)
Lemma root_cause_analyzer_shape (st : State) :
  exists rc conf recs full s err,
    Nodes.root_cause_analyzer w st = set_analysis st rc conf recs full s err.
Proof.
  unfold Nodes.root_cause_analyzer.
  destruct (_ <- llm_invoke w _ ;; _) as [[[[t rc] conf] recs]|e]; repeat eexists.
Qed.

(** The rendered lines do not read the keys the generator writes. *)
Lemma report_lines_final (st : State) :
  Nodes.report_lines w (Nodes.report_generator w st) = Nodes.report_lines w st.
Proof. reflexivity. Qed.

(** C10 (amended).  In a state with a non-empty repository path whose failure
    details count no failure, the local executor makes no client call (no
    build-system detection, no test run), records success with exit code 0,
    and the comparison that follows has [local_failed] false; it is
    consistent exactly when the summary counts no failed and no errored
    test. *)
Theorem passing_report_skips_execution (st : State) (tr : TestResults)
  (fd : FailureDetails) :
  truthy (repo_path st) = true ->
  test_results st = Some tr ->
  failure_details st = Some fd ->
  failure_count fd = 0 ->
  snd (Nodes.local_executor w st) = [] /\
  execution_success (fst (Nodes.local_executor w st)) = Some true /\
  local_exit_code (fst (Nodes.local_executor w st)) = Some 0 /\
  exists cd,
    collected_data (Nodes.results_collector (fst (Nodes.local_executor w st))) = Some cd /\
    local_failed (comparison cd) = false /\
    (consistent_failure (comparison cd) = true
     <-> failed_tests tr <= 0 /\ error_tests tr <= 0).
Proof.
  intros Hr Htr Hfd Hc. rewrite (local_executor_skips st Hr Hfd Hc). cbn [fst snd].
  repeat split.
  set (st' := set_execution st _ _ _ _).
  destruct (@collect_ok st' tr fd Htr Hfd) as (cd & Hcd & Hx & Hl & Hcons & _).
  exists cd. unfold Nodes.results_collector. rewrite Hcd. split; [reflexivity|].
  assert (Hlf : local_failed (comparison cd) = false) by (rewrite Hl; reflexivity).
  split; [exact Hlf|]. rewrite Hcons, Hlf, Hx.
  destruct (failed_tests tr >? 0) eqn:Ef; destruct (error_tests tr >? 0) eqn:Ee;
    rewrite Z.gtb_ltb in Ef, Ee;
    rewrite ?Z.ltb_lt, ?Z.ltb_ge in Ef, Ee;
    simpl; split; intros H; try discriminate; try reflexivity; lia.
Qed.

(** The stages after the executor, when it found no build system for a
    report with failures. *)
Lemma after_no_build_system (st : State) (tr : TestResults) (fd : FailureDetails) :
  test_results st = Some tr ->
  failure_details st = Some fd ->
  failed_tests tr > 0 \/ error_tests tr > 0 ->
  let s3 := set_execution st (lit "Build system not detected (Maven/Gradle required)")
              [lit "No pom.xml or build.gradle found"] (-1) false in
  let final := Nodes.report_generator w
                 (Nodes.root_cause_analyzer w (Nodes.results_collector s3)) in
  exists cd,
    workflow_status final = completed /\
    local_output final = Some (lit "Build system not detected (Maven/Gradle required)") /\
    local_exit_code final = Some (-1) /\
    execution_success final = Some false /\
    collected_data final = Some cd /\
    comparison cd = all_true /\
    final_report final = Some (join newline (Nodes.report_lines w final)) /\
    Nodes.local_section (collected_data final) = no_build_system_lines.
Proof.
  intros Htr Hfd Hfailed s3 final.
  assert (Hx : (failed_tests tr >? 0) || (error_tests tr >? 0) = true).
  { apply orb_true_iff. destruct Hfailed; [left|right]; apply Z.gtb_lt; lia. }
  subst final. unfold Nodes.results_collector, Nodes.collect.
  replace (test_results s3) with (Some tr) by (symmetry; exact Htr).
  replace (failure_details s3) with (Some fd) by (symmetry; exact Hfd).
  cbv zeta.
  match goal with
  | |- context [Nodes.root_cause_analyzer w ?s4] =>
      destruct (root_cause_analyzer_shape s4) as (rc & conf & recs & full & s & err & Ha)
  end.
  rewrite Ha. eexists. repeat split; try reflexivity.
  cbn [collected_data set_analysis set_collected comparison Nodes.report_generator
       set_report tr_failed_tests tr_error_tests local_execution le_success
       execution_success set_execution s3].
  unfold all_true. rewrite Hx. reflexivity.
Qed.

(** C3 (amended).  One report with failures (a failure record, and a positive
    failed or errored count), a repository path that exists and no Maven or
    Gradle build file: the run ends in [completed]; the comparison has
    [local_failed], [consistent_failure] and [reproducible] all true; the state
    records the output "Build system not detected (Maven/Gradle required)",
    and the report shows it only through the exit code -1, "Success: No",
    an output length of 49 characters and an error count of 1. *)
Theorem no_build_tool_run (path repo : str) (name : option str)
  (tr : TestResults) (fd : FailureDetails) :
  XmlReader.read_one (files w) path = Ok (tr, fd) ->
  failure_count fd <> 0 ->
  failed_tests tr > 0 \/ error_tests tr > 0 ->
  truthy repo = true ->
  fs_exists (files w) (path_str repo) = true ->
  TestFinder.detect_build_system (files w) (path_str repo) = None ->
  exists final evs cd,
    run_failure_analysis w 6 [path] repo name = Some (final, evs) /\
    ran_tests evs = false /\
    workflow_status final = completed /\
    local_output final = Some (lit "Build system not detected (Maven/Gradle required)") /\
    local_exit_code final = Some (-1) /\
    execution_success final = Some false /\
    collected_data final = Some cd /\
    comparison cd = all_true /\
    final_report final = Some (join newline (Nodes.report_lines w final)) /\
    Nodes.local_section (collected_data final) = no_build_system_lines.
Proof.
  intros Hread Hcount Hfailed Hrepo Hexists Hdetect.
  unfold run_failure_analysis. rewrite invoke_six. cbv zeta.
  set (st0 := initial_state [path] repo name).
  assert (H1 : Nodes.xml_report_fetcher w st0 = set_ingested st0 tr fd).
  { unfold Nodes.xml_report_fetcher. cbn [xml_report_paths st0 initial_state].
    now rewrite Hread. }
  rewrite H1.
  assert (H2 : exists s2, Nodes.local_repo_access w (set_ingested st0 tr fd) = s2 /\
                          repo_path s2 = repo /\ test_results s2 = Some tr /\
                          failure_details s2 = Some fd).
  { destruct (local_repo_access_shape (set_ingested st0 tr fd)) as [E|[msg E]];
      rewrite E; eexists; repeat split. }
  destruct H2 as (s2 & E2 & Hr2 & Htr2 & Hfd2). rewrite E2.
  rewrite (@local_executor_no_build_system s2 fd); try rewrite Hr2; auto.
  cbn [fst snd].
  destruct (@after_no_build_system s2 tr fd Htr2 Hfd2 Hfailed) as (cd & H).
  do 2 eexists. exists cd. split; [reflexivity|]. split; [reflexivity|]. exact H.
Qed.

End Pipeline.

(** ** The report ingestor *)

Section Ingestor.
Context {B : Builtins}.

Import XmlReader.

Lemma bind_ok {A C} (m : res A) (k : A -> res C) (c : C) :
  bind m k = Ok c -> exists a, m = Ok a /\ k a = Ok c.
Proof. destruct m; simpl; intros H; [eauto|discriminate]. Qed.

Lemma foldM_invariant {A S} (P : S -> Prop) (body : S -> A -> res S) :
  (forall acc x acc', P acc -> body acc x = Ok acc' -> P acc') ->
  forall l acc acc', P acc -> foldM body l acc = Ok acc' -> P acc'.
Proof.
  intros Hstep l. induction l as [|x l IH]; simpl; intros acc acc' HP H.
  - now inversion H; subst.
  - apply bind_ok in H. destruct H as (a & Ha & Hk). eauto.
Qed.

Lemma add_suite_balanced (acc : TestResults) (suite : Xml.element) (acc' : TestResults) :
  balanced acc -> add_suite acc suite = Ok acc' -> balanced acc'.
Proof.
  unfold add_suite, balanced. intros Hb H.
  repeat (apply bind_ok in H; destruct H as (? & _ & H)).
  inversion H; subst; simpl. lia.
Qed.

(** A JUnit summary is balanced by construction: [passed] is what is left of
    each suite's [tests]. *)
Lemma parse_junit_balanced (r : Xml.element) (tr : TestResults) :
  parse_junit r = Ok tr -> balanced tr.
Proof.
  unfold parse_junit. apply foldM_invariant with (P := balanced).
  - intros; eapply add_suite_balanced; eauto.
  - reflexivity.
Qed.

(** A TestNG summary repeats the attributes of the root. *)
Lemma parse_testng_attributes (r : Xml.element) (tr : TestResults) :
  parse_testng r = Ok tr ->
  exists total passed failed skipped ignored,
    get_int r "total" = Ok total /\
    get_int r "passed" = Ok passed /\
    get_int r "failed" = Ok failed /\
    get_int r "skipped" = Ok skipped /\
    get_int r "ignored" = Ok ignored /\
    total_tests tr = total /\
    passed_tests tr = passed /\
    failed_tests tr = failed /\
    error_tests tr = 0 /\
    skipped_tests tr = skipped + ignored.
Proof.
  unfold parse_testng. intros H.
  apply bind_ok in H. destruct H as (total & Ht & H).
  apply bind_ok in H. destruct H as (passed & Hp & H).
  apply bind_ok in H. destruct H as (failed & Hf & H).
  apply bind_ok in H. destruct H as (skipped & Hs & H).
  apply bind_ok in H. destruct H as (ignored & Hi & H).
  apply bind_ok in H. destruct H as (duration & _ & H).
  inversion H; subst; simpl.
  exists total, passed, failed, skipped, ignored. repeat split; assumption.
Qed.

(** C4 (amended).  For a report the reader accepts: a JUnit summary always
    satisfies [passed + failed + errored + skipped = total]; a TestNG summary
    copies the root's attributes, and satisfies it exactly when the root's
    [total] equals [passed + failed + skipped + ignored]. *)
Theorem summary_balance (rd : Reader) (tr : TestResults) :
  parse_report rd = Ok tr ->
  match rformat rd with
  | junit => balanced tr
  | testng =>
      exists total passed failed skipped ignored,
        get_int (root rd) "total" = Ok total /\
        get_int (root rd) "passed" = Ok passed /\
        get_int (root rd) "failed" = Ok failed /\
        get_int (root rd) "skipped" = Ok skipped /\
        get_int (root rd) "ignored" = Ok ignored /\
        (balanced tr <-> passed + failed + skipped + ignored = total)
  end.
Proof.
  unfold parse_report. destruct (rformat rd); intros H.
  - now apply parse_junit_balanced in H.
  - apply parse_testng_attributes in H.
    destruct H as (t & p & f & s & i & Ht & Hp & Hf & Hs & Hi & E1 & E2 & E3 & E4 & E5).
    exists t, p, f, s, i. repeat split; auto; unfold balanced;
      rewrite E1, E2, E3, E4, E5; lia.
Qed.

End Ingestor.

(** ** Merging reports *)

Section Merge.
Context {B : Builtins}.
Variable fs : FileSystem.

Import XmlReader.

(** The loop of [merge_reports] only sees the files that can be read. *)
Lemma merge_loop_readable (paths : list str) (m : Merged) :
  fold_left (merge_step fs) paths m = fold_left absorb (readable fs paths) m.
Proof.
  revert m. induction paths as [|p paths IH]; intros m; simpl; auto.
  unfold merge_step at 2. destruct (read_one fs p) as [file|e]; simpl; apply IH.
Qed.

(** The accumulated dictionary after a list of files. *)
Lemma absorb_all (l : list (TestResults * FailureDetails)) (m : Merged) :
  let m' := fold_left absorb l m in
  m_total_tests m' = m_total_tests m + sumZ (fun x => total_tests (fst x)) l /\
  m_passed_tests m' = m_passed_tests m + sumZ (fun x => passed_tests (fst x)) l /\
  m_failed_tests m' = m_failed_tests m + sumZ (fun x => failed_tests (fst x)) l /\
  m_error_tests m' = m_error_tests m + sumZ (fun x => error_tests (fst x)) l /\
  m_skipped_tests m' = m_skipped_tests m + sumZ (fun x => skipped_tests (fst x)) l /\
  m_failure_count m' = m_failure_count m + sumZ (fun x => failure_count (snd x)) l /\
  m_test_failures m' = m_test_failures m ++ flat_map (fun x => test_failures (snd x)) l /\
  m_duration_seconds m'
  = sum_float (fun x => duration_seconds (fst x)) (m_duration_seconds m) l.
Proof.
  revert m. induction l as [|x l IH]; intros m; cbv zeta.
  - simpl. rewrite !Z.add_0_r, app_nil_r. repeat split.
  - change (fold_left absorb (x :: l) m) with (fold_left absorb l (absorb m x)).
    specialize (IH (absorb m x)). cbv zeta in IH.
    destruct IH as (H1 & H2 & H3 & H4 & H5 & H6 & H7 & H8).
    rewrite H1, H2, H3, H4, H5, H6, H7, H8. destruct x as [r f]. simpl.
    rewrite <- app_assoc. repeat split; lia.
Qed.

Lemma sumZ_permutation {A} (f : A -> Z) (l1 l2 : list A) :
  Permutation l1 l2 -> sumZ f l1 = sumZ f l2.
Proof.
  induction 1; simpl; try lia.
Qed.

Lemma readable_permutation (l1 l2 : list str) :
  Permutation l1 l2 -> Permutation (readable fs l1) (readable fs l2).
Proof. apply Permutation_flat_map. Qed.

(** The fields of a finished merge, in terms of the files that could be read. *)
Lemma merge_reports_fields (paths : list str) :
  let m := merge_reports fs paths in
  let files := readable fs paths in
  m_total_tests m = sumZ (fun x => total_tests (fst x)) files /\
  m_passed_tests m = sumZ (fun x => passed_tests (fst x)) files /\
  m_failed_tests m = sumZ (fun x => failed_tests (fst x)) files /\
  m_error_tests m = sumZ (fun x => error_tests (fst x)) files /\
  m_skipped_tests m = sumZ (fun x => skipped_tests (fst x)) files /\
  m_failure_count m = sumZ (fun x => failure_count (snd x)) files /\
  m_test_failures m = flat_map (fun x => test_failures (snd x)) files /\
  m_duration_seconds m = sum_float (fun x => duration_seconds (fst x)) 0%float files.
Proof.
  cbv zeta. unfold merge_reports. rewrite merge_loop_readable.
  destruct (absorb_all (readable fs paths) merged_zero)
    as (H1 & H2 & H3 & H4 & H5 & H6 & H7 & H8).
  cbn [merge_finish m_total_tests m_passed_tests m_failed_tests m_error_tests
       m_skipped_tests m_failure_count m_test_failures m_duration_seconds].
  rewrite H1, H2, H3, H4, H5, H6, H7, H8. simpl. repeat split.
Qed.

(** C5 (amended).  The merged [result] is computed from the merged
    [failure_count], the number of failure records extracted from the files
    that could be read, and not from the summed [failed] counts: it is SUCCESS
    when that count is 0, FAILURE when it is not 0 and equals the summed
    total, and PARTIAL_FAILURE otherwise. *)
Theorem merged_result_from_failure_count (paths : list str) :
  let m := merge_reports fs paths in
  m_failure_count m = sumZ (fun x => failure_count (snd x)) (readable fs paths) /\
  m_total_tests m = sumZ (fun x => total_tests (fst x)) (readable fs paths) /\
  m_result m =
    (if m_failure_count m =? 0 then SUCCESS
     else if m_failure_count m =? m_total_tests m then FAILURE
     else PARTIAL_FAILURE).
Proof.
  cbv zeta. destruct (merge_reports_fields paths) as (H1 & _ & _ & _ & _ & H6 & _).
  repeat split; auto.
Qed.

(** C6 (amended).  Under a permutation of the input files the six integer
    counts of the merge do not change; the failure list of each merge is the
    concatenation of the files' failure lists in its own input order; and the
    duration is the left-to-right binary64 sum of the files' durations in
    input order (which a permutation may change in the last place). *)
Theorem merge_permutation (l1 l2 : list str) :
  Permutation l1 l2 ->
  let m1 := merge_reports fs l1 in
  let m2 := merge_reports fs l2 in
  m_total_tests m1 = m_total_tests m2 /\
  m_passed_tests m1 = m_passed_tests m2 /\
  m_failed_tests m1 = m_failed_tests m2 /\
  m_error_tests m1 = m_error_tests m2 /\
  m_skipped_tests m1 = m_skipped_tests m2 /\
  m_failure_count m1 = m_failure_count m2 /\
  m_test_failures m1 = flat_map (fun x => test_failures (snd x)) (readable fs l1) /\
  m_test_failures m2 = flat_map (fun x => test_failures (snd x)) (readable fs l2) /\
  m_duration_seconds m1
  = sum_float (fun x => duration_seconds (fst x)) 0%float (readable fs l1) /\
  m_duration_seconds m2
  = sum_float (fun x => duration_seconds (fst x)) 0%float (readable fs l2).
Proof.
  intros HP. cbv zeta.
  destruct (merge_reports_fields l1) as (A1 & A2 & A3 & A4 & A5 & A6 & A7 & A8).
  destruct (merge_reports_fields l2) as (B1 & B2 & B3 & B4 & B5 & B6 & B7 & B8).
  apply readable_permutation in HP.
  rewrite A1, A2, A3, A4, A5, A6, B1, B2, B3, B4, B5, B6.
  repeat split; auto using sumZ_permutation.
Qed.

End Merge.

(** ** The test locator *)

Section Locator.
Context {B : Builtins}.
Variable fs : FileSystem.
Variable repo : str.

Import TestFinder.

(** The by-parts search sits in the branch for a present signature: a failure
    without one is passed over. *)
Lemma locate_without_signature (dirs : option (list str)) (failure : Failure) :
  no_signature failure = true ->
  locate fs repo dirs failure = Ok [].
Proof.
  unfold no_signature, locate. intros H.
  now destruct (truthy (or_else (f_method_signature failure) [])).
Qed.

(** The JUnit extractor records no signature. *)
Lemma junit_failure_has_no_signature (testcase : Xml.element) (f : Failure)
  (lines : list str) :
  XmlReader.junit_failure testcase = Some (f, lines) -> no_signature f = true.
Proof.
  unfold XmlReader.junit_failure.
  destruct (Xml.find _ testcase); [|destruct (Xml.find _ testcase)];
    intros H; inversion H; reflexivity.
Qed.

(** C7 (as the code behaves).  Failures without a method signature (the key
    is missing or empty) are never located, whatever class name and test name
    they carry and whatever files exist: [find_tests_for_failures] returns the
    empty list for them. *)
Theorem failures_without_signature_not_located (failures : list Failure)
  (dirs : option (list str)) :
  forallb no_signature failures = true ->
  find_tests_for_failures fs repo failures dirs = Ok [].
Proof.
  unfold find_tests_for_failures. induction failures as [|f l IH]; simpl; auto.
  intros H. apply andb_true_iff in H. destruct H as [Hf Hl].
  rewrite (locate_without_signature dirs f Hf). simpl. auto.
Qed.

(** Group 1 of the signature pattern is never empty. *)
Lemma match_signature_class (signature full mname : str) :
  match_signature signature = Some (full, mname) -> truthy full = true.
Proof.
  unfold match_signature. destruct signature as [|c0 s1]; [discriminate|].
  destruct (char_eqb c0 nl); [discriminate|].
  destruct (span_spaces s1) as [[|x sp] [|d r]]; try discriminate.
  destruct (char_eqb d dot); [|discriminate].
  destruct (match_method r); intros H; inversion H; reflexivity.
Qed.

Lemma search_signature_class (full mname cls rel : str) (paths : list str)
  (t : Located) :
  search_signature fs full mname cls rel paths = Ok (Some t) ->
  full_class_name t = full.
Proof.
  induction paths as [|p paths IH]; simpl; [discriminate|].
  destruct (fs_exists fs _).
  - intros H; inversion H; reflexivity.
  - destruct (fs_rglob fs p _); auto.
    destruct (path_relative_to _ _); simpl; intros H; inversion H; reflexivity.
Qed.

(** Every test the locator returns names a class. *)
Lemma locate_has_class (dirs : option (list str)) (failure : Failure)
  (found : list Located) :
  locate fs repo dirs failure = Ok found ->
  forallb JavaExecutor.has_class found = true.
Proof.
  unfold locate. destruct (truthy (or_else _ _)); [|intros H; now inversion H].
  unfold find_test_by_signature.
  destruct (match_signature _) as [[full mname]|] eqn:Hm; simpl.
  - destruct (search_signature _ _ _ _ _ _) as [[t|]|e] eqn:Hs; simpl;
      try discriminate.
    + intros H; inversion H; subst; simpl.
      unfold JavaExecutor.has_class, JavaExecutor.spec_class; simpl.
      rewrite (search_signature_class _ _ _ _ _ Hs).
      now rewrite (match_signature_class _ Hm), (match_signature_class _ Hm).
    + destruct (truthy (f_class_name failure)) eqn:Hc; simpl;
        [|intros H; now inversion H].
      destruct (truthy (f_test_name failure)); [|intros H; now inversion H].
      destruct (search_by_class_name _ _ _ _); intros H; inversion H; auto.
      simpl. unfold JavaExecutor.has_class, JavaExecutor.spec_class; simpl.
      now rewrite Hc, Hc.
  - destruct (truthy (f_class_name failure)) eqn:Hc; simpl;
      [|intros H; now inversion H].
    destruct (truthy (f_test_name failure)); [|intros H; now inversion H].
    destruct (search_by_class_name _ _ _ _); intros H; inversion H; auto.
    simpl. unfold JavaExecutor.has_class, JavaExecutor.spec_class; simpl.
    now rewrite Hc, Hc.
Qed.

(** Every test of the located-test list names a class. *)
Lemma located_tests_have_class (failures : list Failure) (dirs : option (list str))
  (found : list Located) :
  find_tests_for_failures fs repo failures dirs = Ok found ->
  forallb JavaExecutor.has_class found = true.
Proof.
  unfold find_tests_for_failures.
  apply foldM_invariant with (P := fun l => forallb JavaExecutor.has_class l = true);
    [|reflexivity].
  intros acc x acc' Hacc H. apply bind_ok in H. destruct H as (more & Hm & H).
  inversion H; subst. rewrite forallb_app, Hacc. simpl.
  eapply locate_has_class; eauto.
Qed.

End Locator.

(** ** The local test executor *)

Section ToolFailures.
Context {B : Builtins}.
Variable run : runner.
Variable repo_path : str.

Import JavaExecutor.

Lemma maven_specs_nonempty (tests : list Located) :
  tests <> [] ->
  forallb has_class tests = true ->
  maven_specs tests <> [].
Proof.
  destruct tests as [|t tests]; [congruence|]. intros _ H.
  simpl in H. apply andb_true_iff in H. destruct H as [H _].
  unfold has_class in H. unfold maven_specs. simpl. rewrite H.
  destruct (truthy (method_name t)); simpl; discriminate.
Qed.

Lemma gradle_command_longer (tests : list Located) :
  tests <> [] ->
  forallb has_class tests = true ->
  (len (gradle_command tests) =? 2) = false.
Proof.
  destruct tests as [|t tests]; [congruence|]. intros _ H.
  simpl in H. apply andb_true_iff in H. destruct H as [H _].
  unfold has_class in H. unfold gradle_command, len. simpl flat_map. rewrite H.
  apply Z.eqb_neq.
  destruct (truthy (method_name t)); simpl; rewrite ?length_app; simpl; lia.
Qed.

(** With a non-empty list of tests that name a class, the executor starts
    the build tool with [tool_command]. *)
Lemma run_specific_tests_runs (bs : build_system) (tests : list Located) (timeout : Z) :
  bs = maven \/ bs = gradle ->
  tests <> [] ->
  forallb has_class tests = true ->
  run_specific_tests run repo_path bs tests timeout
  = run_command run repo_path (tool_command bs tests) timeout (tool_not_found bs).
Proof.
  intros Hbs Hne Hc. unfold run_specific_tests.
  destruct tests as [|t tests]; [congruence|].
  destruct Hbs; subst bs; unfold tool_command, tool_not_found.
  - unfold run_maven_tests.
    pose proof (maven_specs_nonempty Hne Hc) as Hs.
    destruct (maven_specs (t :: tests)); [congruence|reflexivity].
  - unfold run_gradle_tests. now rewrite (gradle_command_longer Hne Hc).
Qed.

(** C8.  For a non-empty list of located tests (each naming a class, as every
    test the locator returns does), with Maven as with Gradle: when starting
    the build tool raises, the executor returns a result with [success] false,
    empty output and exit code -1; the single error is the tool-not-found
    message when the executable is missing and the timed-out message when the
    timeout expired.  The exception ends there: the function returns. *)
Theorem tool_failure_is_a_result (bs : build_system) (tests : list Located)
  (timeout : Z) (e : exc) :
  bs = maven \/ bs = gradle ->
  tests <> [] ->
  forallb has_class tests = true ->
  run (tool_command bs tests) (path_str repo_path) timeout = ProcRaises e ->
  let r := run_specific_tests run repo_path bs tests timeout in
  success r = false /\
  output r = [] /\
  exit_code r = -1 /\
  (exc_cls e = FileNotFoundError -> errors r = [tool_not_found bs]) /\
  (exc_cls e = TimeoutExpired -> errors r = [timed_out timeout]).
Proof.
  intros Hbs Hne Hc Hrun. cbv zeta.
  rewrite (run_specific_tests_runs timeout Hbs Hne Hc).
  unfold run_command. rewrite Hrun.
  destruct (exc_cls e); simpl; repeat split; intros; try discriminate; reflexivity.
Qed.

End ToolFailures.

(** ** The root-cause synthesizer *)

Section Synthesizer.
Context {B : Builtins}.
Variable w : World.

Import Nodes.

(** The parse of a response without any of the three markers. *)
Lemma parse_response_no_marker (analysis_text : str) :
  contains marker_root_cause analysis_text = false ->
  contains marker_confidence analysis_text = false ->
  contains marker_recommendations analysis_text = false ->
  parse_response analysis_text = Ok (default_root_cause, 0%float, []).
Proof.
  intros H1 H2 H3.
  unfold parse_response, extract_root_cause, extract_confidence,
    extract_recommendations.
  now rewrite H1, H2, H3.
Qed.

(** C9.  When the model's response contains none of the three section
    markers, parsing does not raise and the analyzer stores the fallback root
    cause "Unable to determine root cause" (a non-empty string), confidence 0.0
    and the one-element sentinel recommendation list, with status
    [analyzed]. *)
Theorem response_without_markers (st : State) (analysis_text : str) :
  llm_invoke w (prompt_vars st) = Ok analysis_text ->
  contains marker_root_cause analysis_text = false ->
  contains marker_confidence analysis_text = false ->
  contains marker_recommendations analysis_text = false ->
  parse_response analysis_text = Ok (default_root_cause, 0%float, []) /\
  root_cause (root_cause_analyzer w st) = Some default_root_cause /\
  truthy default_root_cause = true /\
  confidence_level (root_cause_analyzer w st) = Some 0%float /\
  recommendations (root_cause_analyzer w st) = Some sentinel_recommendations /\
  llm_full_response (root_cause_analyzer w st) = Some analysis_text /\
  workflow_status (root_cause_analyzer w st) = analyzed.
Proof.
  intros Hllm H1 H2 H3.
  pose proof (parse_response_no_marker _ H1 H2 H3) as Hp.
  split; [exact Hp|].
  unfold root_cause_analyzer. rewrite Hllm. simpl bind. rewrite Hp. simpl.
  repeat split.
Qed.

End Synthesizer.

(* ========================================================================= *)
(** * The theorems on concrete inputs *)

Module Evaluation.
Import Sample.
#[local] Existing Instance ascii_builtins.

(** The state the collector receives in the run without a build tool. *)
Lemma comparison_result_flags_witness :
  let st := fst (Nodes.local_executor world_no_build_tool ingested_one_failure) in
  test_results st = Some results_one_failure /\
  failure_details st = Some failures_one_failure /\
  exists cd,
    collected_data (Nodes.results_collector st) = Some cd /\
    xml_failed (comparison cd) = true /\
    local_failed (comparison cd) = true /\
    consistent_failure (comparison cd) = true /\
    reproducible (comparison cd) = true.
Proof.
  cbv zeta.
  set (st := fst (Nodes.local_executor world_no_build_tool ingested_one_failure)).
  assert (Htr : test_results st = Some results_one_failure) by reflexivity.
  assert (Hfd : failure_details st = Some failures_one_failure) by reflexivity.
  split; [exact Htr|]. split; [exact Hfd|].
  destruct (comparison_result_flags st Htr Hfd)
    as (cd & Hcd & _ & Hx & Hl & Hcons & Hrep).
  exists cd. split; [exact Hcd|].
  assert (X : xml_failed (comparison cd) = true).
  { apply Hx. left. vm_compute. reflexivity. }
  assert (L : local_failed (comparison cd) = true).
  { apply Hl. vm_compute. discriminate. }
  rewrite Hrep, Hcons, X, L. repeat split.
Defined.

(** A file that exists and does not parse: the fetcher reports the error and
    the run still ends in [completed]. *)
Lemma failed_ingestion_run_completes_witness :
  XmlReader.read_one (files world_malformed) (lit "bad.xml")
  = Raise (Exc ValueError (lit "Invalid XML file: syntax error: line 1, column 0")) /\
  workflow_status (Nodes.xml_report_fetcher world_malformed
                     (Graph.initial_state [lit "bad.xml"] (lit "repo") None)) = error /\
  exists final evs,
    Graph.run_failure_analysis world_malformed 6 [lit "bad.xml"] (lit "repo") None
    = Some (final, evs) /\
    Graph.entered evs = Graph.all_nodes /\
    workflow_status final = completed.
Proof.
  assert (H : XmlReader.read_one (files world_malformed) (lit "bad.xml")
              = Raise (Exc ValueError
                         (lit "Invalid XML file: syntax error: line 1, column 0")))
    by (vm_compute; reflexivity).
  split; [exact H|].
  destruct (@failed_ingestion_run_completes ascii_builtins world_malformed
              (lit "bad.xml") (lit "repo") None _ H) as (R1 & _ & R3).
  split; [exact R1|exact R3].
Defined.

(** C3, counterexample.  One JUnit report with three tests and one failure
    ([AssertionError], "expected 5 got 3"), a checkout that holds the class
    and no build file: the run ends in [completed], but the comparison has
    [local_failed] and [consistent_failure] true, and the report does not
    contain "uild system not detected" (in either capitalisation of the first
    letter). *)
Lemma no_build_tool_counterexample :
  final workflow_status run_no_build_tool = Some completed /\
  final_comparison run_no_build_tool = Some Graph.all_true /\
  report_contains "uild system not detected" run_no_build_tool = Some false.
Proof. vm_compute. repeat split. Qed.

Lemma no_build_tool_run_witness :
  XmlReader.read_one (files world_no_build_tool) (lit "report.xml")
  = Ok (results_one_failure, failures_one_failure) /\
  failure_count failures_one_failure <> 0 /\
  (failed_tests results_one_failure > 0 \/ error_tests results_one_failure > 0) /\
  truthy (lit "repo") = true /\
  fs_exists (files world_no_build_tool) (path_str (lit "repo")) = true /\
  TestFinder.detect_build_system (files world_no_build_tool) (path_str (lit "repo"))
  = None /\
  exists final evs cd,
    run_no_build_tool = Some (final, evs) /\
    Graph.ran_tests evs = false /\
    workflow_status final = completed /\
    local_output final
    = Some (lit "Build system not detected (Maven/Gradle required)") /\
    local_exit_code final = Some (-1) /\
    execution_success final = Some false /\
    collected_data final = Some cd /\
    comparison cd = Graph.all_true /\
    final_report final = Some (join newline (Nodes.report_lines world_no_build_tool final)) /\
    Nodes.local_section (collected_data final) = Graph.no_build_system_lines.
Proof.
  assert (H1 : XmlReader.read_one (files world_no_build_tool) (lit "report.xml")
               = Ok (results_one_failure, failures_one_failure))
    by (vm_compute; reflexivity).
  assert (H2 : failure_count failures_one_failure <> 0) by (simpl; lia).
  assert (H3 : failed_tests results_one_failure > 0
               \/ error_tests results_one_failure > 0) by (left; simpl; lia).
  assert (H4 : truthy (lit "repo") = true) by reflexivity.
  assert (H5 : fs_exists (files world_no_build_tool) (path_str (lit "repo")) = true)
    by reflexivity.
  assert (H6 : TestFinder.detect_build_system (files world_no_build_tool)
                 (path_str (lit "repo")) = None) by reflexivity.
  repeat (split; [assumption|]).
  exact (@no_build_tool_run ascii_builtins world_no_build_tool (lit "report.xml")
           (lit "repo") None _ _ H1 H2 H3 H4 H5 H6).
Defined.

(** C4, counterexample.  A TestNG report whose root says [total="3"
    passed="1" failed="1" skipped="0" ignored="0"] (the third test was
    retried) is accepted, and its summary has total 3 while the four counts
    add up to 2. *)
Lemma testng_summary_unbalanced :
  let rd := {| XmlReader.root := testng_with_retry; XmlReader.rformat := testng |} in
  let tr := {| total_tests := 3; passed_tests := 1; failed_tests := 1;
               error_tests := 0; skipped_tests := 0; duration_seconds := 0%float;
               format := Some testng |} in
  XmlReader.new_reader fs_reports (lit "testng.xml") = Ok rd /\
  XmlReader.parse_report rd = Ok tr /\
  total_tests tr = 3 /\
  passed_tests tr + failed_tests tr + error_tests tr + skipped_tests tr = 2.
Proof. vm_compute. repeat split. Qed.

Lemma summary_balance_witness :
  let rd := {| XmlReader.root := junit_one_failure; XmlReader.rformat := junit |} in
  XmlReader.parse_report rd = Ok results_one_failure /\
  XmlReader.balanced results_one_failure.
Proof.
  cbv zeta.
  assert (H : XmlReader.parse_report
                {| XmlReader.root := junit_one_failure; XmlReader.rformat := junit |}
              = Ok results_one_failure) by (vm_compute; reflexivity).
  split; [exact H|]. exact (summary_balance _ H).
Defined.

(** C5, counterexample.  Merging a report whose only test ended in an error
    with a report of two passing tests: the summed [failed] count is 0 and the
    result is PARTIAL_FAILURE, not SUCCESS. *)
Lemma merged_result_not_from_failed_count :
  let m := XmlReader.merge_reports fs_reports [lit "error.xml"; lit "pass.xml"] in
  m_failed_tests m = 0 /\
  m_total_tests m = 3 /\
  m_failure_count m = 1 /\
  m_result m = PARTIAL_FAILURE.
Proof. vm_compute. repeat split. Qed.

(** C6, counterexample.  Three reports lasting 0.1, 0.2 and 0.3 seconds,
    merged in this order and in the reverse order: the two durations are
    different binary64 numbers. *)
Lemma merged_duration_depends_on_order :
  let one := [lit "a.xml"; lit "b.xml"; lit "c.xml"] in
  let other := [lit "c.xml"; lit "b.xml"; lit "a.xml"] in
  Permutation one other /\
  m_duration_seconds (XmlReader.merge_reports fs_reports one)
  = 0.6000000000000001%float /\
  m_duration_seconds (XmlReader.merge_reports fs_reports other) = 0.6%float /\
  PrimFloat.eqb (m_duration_seconds (XmlReader.merge_reports fs_reports one))
                (m_duration_seconds (XmlReader.merge_reports fs_reports other))
  = false.
Proof.
  cbv zeta. split; [apply (Permutation_rev [lit "a.xml"; lit "b.xml"; lit "c.xml"])|].
  vm_compute. repeat split.
Qed.

Lemma merge_permutation_witness :
  let one := [lit "error.xml"; lit "pass.xml"; lit "a.xml"] in
  let other := [lit "a.xml"; lit "pass.xml"; lit "error.xml"] in
  Permutation one other /\
  m_total_tests (XmlReader.merge_reports fs_reports one)
  = m_total_tests (XmlReader.merge_reports fs_reports other) /\
  m_failure_count (XmlReader.merge_reports fs_reports one)
  = m_failure_count (XmlReader.merge_reports fs_reports other).
Proof.
  cbv zeta.
  assert (HP : Permutation [lit "error.xml"; lit "pass.xml"; lit "a.xml"]
                           [lit "a.xml"; lit "pass.xml"; lit "error.xml"])
    by apply (Permutation_rev [lit "error.xml"; lit "pass.xml"; lit "a.xml"]).
  split; [exact HP|].
  destruct (@merge_permutation ascii_builtins fs_reports _ _ HP)
    as (H1 & _ & _ & _ & _ & H6 & _).
  split; [exact H1|exact H6].
Defined.

(** The failing input of C7: the failure of [junit_one_failure] has a class
    name and a test name, a search by its simple class name finds the source
    file, and the locator returns nothing. *)
Lemma failures_without_signature_not_located_witness :
  forallb TestFinder.no_signature [failure_testMul] = true /\
  TestFinder.search_by_class_name fs_no_build_tool (lit "repo") (lit "CalcTest") None
  = [lit "repo/src/test/java/com/acme/CalcTest.java"] /\
  TestFinder.find_tests_for_failures fs_no_build_tool (lit "repo") [failure_testMul] None
  = Ok [].
Proof.
  assert (H : forallb TestFinder.no_signature [failure_testMul] = true)
    by reflexivity.
  split; [exact H|]. split; [vm_compute; reflexivity|].
  exact (@failures_without_signature_not_located ascii_builtins fs_no_build_tool
           (lit "repo") _ None H).
Defined.

(** Maven is not installed: the executor's result for one located test. *)
Lemma tool_failure_is_a_result_witness :
  let run := subprocess_run world_no_build_tool in
  let e := Exc FileNotFoundError (lit "[Errno 2] No such file or directory") in
  (maven = maven \/ maven = gradle) /\
  [located_testMul] <> [] /\
  forallb JavaExecutor.has_class [located_testMul] = true /\
  run (JavaExecutor.tool_command maven [located_testMul]) (path_str (lit "repo")) 300
  = ProcRaises e /\
  let r := JavaExecutor.run_specific_tests run (lit "repo") maven [located_testMul] 300 in
  success r = false /\
  exit_code r = -1 /\
  errors r = [JavaExecutor.maven_not_found].
Proof.
  cbv zeta.
  assert (H1 : maven = maven \/ maven = gradle) by (left; reflexivity).
  assert (H2 : [located_testMul] <> []) by discriminate.
  assert (H3 : forallb JavaExecutor.has_class [located_testMul] = true) by reflexivity.
  assert (H4 : subprocess_run world_no_build_tool
                 (JavaExecutor.tool_command maven [located_testMul])
                 (path_str (lit "repo")) 300
               = ProcRaises (Exc FileNotFoundError
                               (lit "[Errno 2] No such file or directory")))
    by reflexivity.
  repeat (split; [assumption|]).
  destruct (@tool_failure_is_a_result ascii_builtins (subprocess_run world_no_build_tool)
              (lit "repo") maven [located_testMul] 300 _ H1 H2 H3 H4)
    as (R1 & _ & R3 & R4 & _).
  split; [exact R1|]. split; [exact R3|]. exact (R4 eq_refl).
Defined.

(** A reply without markers. *)
Lemma response_without_markers_witness :
  llm_invoke world_no_build_tool (Nodes.prompt_vars ingested_one_failure)
  = Ok (lit plain_reply) /\
  contains Nodes.marker_root_cause (lit plain_reply) = false /\
  contains Nodes.marker_confidence (lit plain_reply) = false /\
  contains Nodes.marker_recommendations (lit plain_reply) = false /\
  root_cause (Nodes.root_cause_analyzer world_no_build_tool ingested_one_failure)
  = Some Nodes.default_root_cause /\
  confidence_level (Nodes.root_cause_analyzer world_no_build_tool ingested_one_failure)
  = Some 0%float /\
  recommendations (Nodes.root_cause_analyzer world_no_build_tool ingested_one_failure)
  = Some Nodes.sentinel_recommendations.
Proof.
  assert (H0 : llm_invoke world_no_build_tool (Nodes.prompt_vars ingested_one_failure)
               = Ok (lit plain_reply)) by reflexivity.
  assert (H1 : contains Nodes.marker_root_cause (lit plain_reply) = false)
    by (vm_compute; reflexivity).
  assert (H2 : contains Nodes.marker_confidence (lit plain_reply) = false)
    by (vm_compute; reflexivity).
  assert (H3 : contains Nodes.marker_recommendations (lit plain_reply) = false)
    by (vm_compute; reflexivity).
  repeat (split; [assumption|]).
  destruct (@response_without_markers ascii_builtins world_no_build_tool
              ingested_one_failure _ H0 H1 H2 H3)
    as (_ & R1 & _ & R2 & R3 & _).
  split; [exact R1|]. split; [exact R2|exact R3].
Defined.

(** C10, counterexample.  A report in which both tests pass, analysed with an
    empty repository path (which [Path("").exists()] accepts): the executor
    records failure with exit code -1, so [local_failed] is true and the
    comparison is not consistent. *)
Lemma passing_report_empty_repo_path :
  final failure_details run_empty_repo_path = Some (Some failures_all_passing) /\
  final execution_success run_empty_repo_path = Some (Some false) /\
  final local_exit_code run_empty_repo_path = Some (Some (-1)) /\
  final_comparison run_empty_repo_path
  = Some {| xml_failed := false; local_failed := true;
            consistent_failure := false; reproducible := false |}.
Proof. vm_compute. repeat split. Qed.

Lemma passing_report_skips_execution_witness :
  truthy (repo_path ingested_all_passing) = true /\
  test_results ingested_all_passing = Some results_all_passing /\
  failure_details ingested_all_passing = Some failures_all_passing /\
  failure_count failures_all_passing = 0 /\
  snd (Nodes.local_executor world_passing ingested_all_passing) = [] /\
  execution_success (fst (Nodes.local_executor world_passing ingested_all_passing))
  = Some true /\
  local_exit_code (fst (Nodes.local_executor world_passing ingested_all_passing))
  = Some 0.
Proof.
  assert (H1 : truthy (repo_path ingested_all_passing) = true) by reflexivity.
  assert (H2 : test_results ingested_all_passing = Some results_all_passing)
    by reflexivity.
  assert (H3 : failure_details ingested_all_passing = Some failures_all_passing)
    by reflexivity.
  assert (H4 : failure_count failures_all_passing = 0) by reflexivity.
  repeat (split; [assumption|]).
  destruct (@passing_report_skips_execution ascii_builtins world_passing
              ingested_all_passing _ _ H1 H2 H3 H4) as (R1 & R2 & R3 & _).
  split; [exact R1|]. split; [exact R2|exact R3].
Defined.

End Evaluation.

(* ========================================================================= *)
(** * Further properties of the code *)

(** ** Text *)

Lemma str_eqb_same (s : str) : str_eqb s s = true.
Proof.
  induction s as [|c s IH]; simpl; auto.
  unfold char_eqb. now rewrite N.eqb_refl.
Qed.

Lemma str_eqb_eq (a b : str) : str_eqb a b = true -> a = b.
Proof.
  revert b. induction a as [|x a IH]; intros [|y b]; simpl; try discriminate; auto.
  intros H. apply andb_true_iff in H. destruct H as [Hc Hs].
  apply N.eqb_eq in Hc. subst y. f_equal. now apply IH.
Qed.

(** ** ElementTree paths *)

Section Paths.
Import Xml.

(** Induction over a tree, with the hypothesis for every child. *)
Fixpoint element_rect' (P : element -> Prop)
  (step : forall t a x cs, Forall P cs -> P (Element t a x cs)) (e : element) : P e :=
  match e with
  | Element t a x cs =>
      step t a x cs
        ((fix all (l : list element) : Forall P l :=
            match l with
            | [] => Forall_nil P
            | c :: l' => Forall_cons c (element_rect' step c) (all l')
            end) cs)
  end.

Lemma iter_self (e : element) : In e (iter e).
Proof. destruct e; simpl; auto. Qed.

Lemma iter_cons (e : element) : iter e = e :: descendants e.
Proof. destruct e; reflexivity. Qed.

(** The children of an element of the tree are elements of the tree. *)
Lemma iter_children (e x c : element) :
  In x (iter e) -> In c (children x) -> In c (iter e).
Proof.
  revert x c. induction e as [t a txt cs IH] using element_rect'.
  intros x c Hx Hc. simpl in Hx. destruct Hx as [Hx|Hx].
  - subst x. simpl in Hc. simpl. right. apply in_flat_map.
    exists c. split; [assumption|apply iter_self].
  - simpl. right. apply in_flat_map in Hx. destruct Hx as (c0 & Hc0 & Hx).
    apply in_flat_map. exists c0. split; [assumption|].
    rewrite Forall_forall in IH. eapply IH; eauto.
Qed.

Lemma well_tagged_children (r x : element) :
  well_tagged r = true -> In x (iter r) -> forallb tagged (children x) = true.
Proof.
  unfold well_tagged. intros Hw Hx. apply forallb_forall. intros c Hc.
  rewrite forallb_forall in Hw. apply Hw. eapply iter_children; eauto.
Qed.

Lemma well_tagged_root (r : element) :
  well_tagged r = true -> forallb tagged (children r) = true.
Proof. intros H. apply (well_tagged_children r r H (iter_self r)). Qed.

Lemma tagged_not_blank (c : element) : tagged c = true -> has_tag [] c = false.
Proof. unfold tagged, has_tag. destruct (tag c); [discriminate|reflexivity]. Qed.

Lemma no_blank_child (cs : list element) :
  forallb tagged cs = true -> filter (has_tag []) cs = [].
Proof.
  induction cs as [|c cs IH]; simpl; auto. intros H.
  apply andb_true_iff in H. destruct H as [Hc Hcs].
  now rewrite (tagged_not_blank c Hc), IH.
Qed.

(** A path written with a blank after the dot selects nothing below an
    element whose children all have a tag. *)
Lemma blank_path_finds_nothing (t : str) (e : element) :
  forallb tagged (children e) = true ->
  findall [SSelf; SChild []; SDesc t] e = [].
Proof.
  intros H. unfold findall. simpl. now rewrite (no_blank_child _ H).
Qed.

Lemma findall_descendant (t : str) (e x : element) :
  In x (findall [SSelf; SDesc t] e) -> In x (iter e).
Proof.
  unfold findall. simpl. rewrite app_nil_r. intros H.
  apply filter_In in H. rewrite iter_cons. right. tauto.
Qed.

End Paths.

(** ** More on the report ingestor *)

Section MoreIngestor.
Context {B : Builtins}.

Import Xml XmlReader.

(** X1.  Format detection below the root never recognises TestNG: for a root
    whose children all have a tag, the format is decided by the root tag, then
    by the presence of a [testcase] descendant (JUnit), and a document with
    neither is rejected with a [ValueError], even when it holds [test-method]
    elements. *)
Theorem detect_format_never_testng_by_descendant (r : element) :
  forallb tagged (children r) = true ->
  detect_format r =
    if str_eqb (tag r) (lit "testng-results") then Ok testng
    else if str_eqb (tag r) (lit "testsuites") || str_eqb (tag r) (lit "testsuite")
    then Ok junit
    else if truthy_list (findall p_any_testcase r) then Ok junit
    else Raise (Exc ValueError (lit "Unknown XML format.  Root tag: " ++ tag r)).
Proof.
  intros H. unfold detect_format, find, p_any_test_method.
  rewrite (blank_path_finds_nothing _ _ H). simpl hd_error.
  destruct (str_eqb (tag r) (lit "testng-results")); [reflexivity|].
  destruct (str_eqb (tag r) (lit "testsuites") || str_eqb (tag r) (lit "testsuite"));
    [reflexivity|].
  now destruct (findall p_any_testcase r).
Qed.

(** X2.  The duration of a TestNG summary is always 0.0, whatever
    [duration-ms] the suites carry (the suites are looked up with a blank
    path), and its errored count is 0. *)
Theorem testng_duration_is_zero (r : element) (tr : TestResults) :
  forallb tagged (children r) = true ->
  parse_testng r = Ok tr ->
  duration_seconds tr = 0%float /\ error_tests tr = 0 /\ format tr = Some testng.
Proof.
  intros H. unfold parse_testng, p_suites.
  rewrite (blank_path_finds_nothing _ _ H). intros E.
  do 5 (apply bind_ok in E; destruct E as (? & _ & E)).
  simpl in E. inversion E; subst; simpl. repeat split.
Qed.

Lemma overall_success (n total : Z) : overall_of n total = SUCCESS <-> n = 0.
Proof.
  unfold overall_of. destruct (n =? 0) eqn:E.
  - apply Z.eqb_eq in E. tauto.
  - apply Z.eqb_neq in E. destruct (n =? total); split; intros; try discriminate; lia.
Qed.

Lemma len_zero {A} (l : list A) : len l = 0 <-> l = [].
Proof.
  unfold len. destruct l; simpl; split; intros H; try reflexivity; try discriminate;
    lia.
Qed.

(** What both extractors guarantee about the count and the result. *)
Lemma extract_count (rd : Reader) (fd : FailureDetails) :
  extract_failure_details rd = Ok fd ->
  failure_count fd = len (test_failures fd) /\
  exists total, result fd = overall_of (failure_count fd) total.
Proof.
  unfold extract_failure_details, extract_testng_failures, extract_junit_failures.
  destruct (rformat rd); intros E; apply bind_ok in E; destruct E as (x & _ & E);
    inversion E; subst; simpl; split; eauto.
Qed.

(** X3.  For every report the extractor accepts, [failure_count] is the
    number of failure records, and [result] is SUCCESS exactly when there is
    no failure record. *)
Theorem extracted_count_and_result (rd : Reader) (fd : FailureDetails) :
  extract_failure_details rd = Ok fd ->
  failure_count fd = len (test_failures fd) /\
  0 <= failure_count fd /\
  (result fd = SUCCESS <-> test_failures fd = []).
Proof.
  intros E. destruct (extract_count rd E) as (Hc & total & Hr).
  split; [exact Hc|]. split; [rewrite Hc; unfold len; lia|].
  rewrite Hr, overall_success, Hc. apply len_zero.
Qed.

End MoreIngestor.

(** ** TestNG failure records *)

Section TestngFailures.
Context {B : Builtins}.

Import Xml XmlReader.

(** A failed method whose children all have a tag: the exception element is
    looked up with a blank path and never found. *)
Lemma testng_failure_without_exception (tm : element) :
  forallb tagged (children tm) = true ->
  f_error_type (fst (testng_failure tm)) = [] /\
  f_error_message (fst (testng_failure tm)) = [] /\
  f_stack_trace (fst (testng_failure tm)) = [] /\
  snd (testng_failure tm) = [].
Proof.
  intros H. unfold testng_failure, find, p_exception.
  rewrite (blank_path_finds_nothing _ _ H). simpl. repeat split.
Qed.

Lemma failed_methods_in_tree (r tm : element) :
  In tm (findall p_failed_methods r) -> In tm (iter r).
Proof.
  unfold findall, p_failed_methods. simpl. rewrite app_nil_r. intros H.
  apply filter_In in H. destruct H as [H _]. apply filter_In in H.
  rewrite iter_cons. right. tauto.
Qed.

Lemma existsb_false {A} (p : A -> bool) (l : list A) :
  (forall x, In x l -> p x = false) -> existsb p l = false.
Proof.
  induction l as [|x l IH]; simpl; auto. intros H.
  rewrite (H x (or_introl eq_refl)). simpl. auto.
Qed.

Lemma flat_map_nil {A C} (f : A -> list C) (l : list A) :
  (forall x, In x l -> f x = []) -> flat_map f l = [].
Proof.
  induction l as [|x l IH]; simpl; auto. intros H.
  rewrite (H x (or_introl eq_refl)). simpl. auto.
Qed.

(** X4.  For a TestNG report whose elements all have a tag, no failure record
    carries exception details: error type, message and stack trace are empty,
    no error line is produced, and the compilation-error and assertion-error
    flags are false. *)
Theorem testng_failures_carry_no_details (r : element) (fd : FailureDetails) :
  well_tagged r = true ->
  extract_testng_failures r = Ok fd ->
  error_lines fd = [] /\
  has_compilation_error fd = false /\
  has_assertion_error fd = false /\
  forallb (fun f => negb (truthy (f_error_type f)) && negb (truthy (f_error_message f))
                    && negb (truthy (f_stack_trace f))) (test_failures fd) = true.
Proof.
  intros Hw E. unfold extract_testng_failures in E.
  apply bind_ok in E. destruct E as (total & _ & E). inversion E; subst; clear E.
  cbn [error_lines has_compilation_error has_assertion_error test_failures].
  assert (Hd : forall tm, In tm (findall p_failed_methods r) ->
               f_error_type (fst (testng_failure tm)) = [] /\
               f_error_message (fst (testng_failure tm)) = [] /\
               f_stack_trace (fst (testng_failure tm)) = [] /\
               snd (testng_failure tm) = []).
  { intros tm Htm. apply testng_failure_without_exception.
    apply (well_tagged_children r tm Hw). now apply failed_methods_in_tree. }
  repeat split.
  - apply flat_map_nil. intros x Hx. apply in_map_iff in Hx.
    destruct Hx as (tm & <- & Htm). now apply Hd.
  - apply existsb_false. intros f Hf. rewrite map_map in Hf.
    apply in_map_iff in Hf. destruct Hf as (tm & <- & Htm).
    destruct (Hd tm Htm) as (-> & _). reflexivity.
  - apply existsb_false. intros f Hf. rewrite map_map in Hf.
    apply in_map_iff in Hf. destruct Hf as (tm & <- & Htm).
    destruct (Hd tm Htm) as (-> & _). reflexivity.
  - apply forallb_forall. intros f Hf. rewrite map_map in Hf.
    apply in_map_iff in Hf. destruct Hf as (tm & <- & Htm).
    destruct (Hd tm Htm) as (-> & -> & -> & _). reflexivity.
Qed.

(** Text lemmas for the class-name pattern. *)
Lemma starts_with_split (p s : str) :
  starts_with p s = true -> s = p ++ skipn (length p) s.
Proof.
  revert s. induction p as [|x p IH]; intros s; simpl; auto.
  destruct s as [|y s]; [discriminate|]. intros H.
  apply andb_true_iff in H. destruct H as [Hc Hs].
  apply N.eqb_eq in Hc. subst y. f_equal. now apply IH.
Qed.

Lemma starts_with_app (p t : str) : starts_with p (p ++ t) = true.
Proof.
  induction p as [|x p IH]; simpl; auto.
  unfold char_eqb. now rewrite N.eqb_refl.
Qed.

Lemma contains_prefix (p t : str) : contains p (p ++ t) = true.
Proof.
  destruct (p ++ t) eqn:E; simpl; rewrite <- E, starts_with_app; reflexivity.
Qed.

Lemma contains_cons (sub : str) (c : char) (s : str) :
  contains sub s = true -> contains sub (c :: s) = true.
Proof. intros H. simpl. rewrite H. apply orb_true_r. Qed.

Lemma span_not_at_spec (s x rest : str) :
  span_not_at s = (x, rest) ->
  s = x ++ rest /\ existsb (char_eqb at_sign) x = false /\
  (rest = [] \/ exists rest', rest = at_sign :: rest').
Proof.
  revert x rest. induction s as [|c s IH]; simpl; intros x rest H.
  - inversion H; subst. auto.
  - destruct (char_eqb c at_sign) eqn:Ec.
    + inversion H; subst. apply N.eqb_eq in Ec. subst c.
      repeat split; eauto.
    + destruct (span_not_at s) as [x' rest'] eqn:Es. inversion H; subst.
      destruct (IH x' rest eq_refl) as (E1 & E2 & E3).
      assert (Ec' : char_eqb at_sign c = false)
        by (unfold char_eqb in *; now rewrite N.eqb_sym).
      split; [now rewrite E1|]. split; [|exact E3].
      change (existsb (char_eqb at_sign) (c :: x'))
        with (char_eqb at_sign c || existsb (char_eqb at_sign) x').
      now rewrite Ec', E2.
Qed.

Lemma match_instance_here_sound (s x : str) :
  match_instance_here s = Some x ->
  truthy x = true /\ existsb (char_eqb at_sign) x = false /\
  starts_with (lit "instance:" ++ x ++ [at_sign]) s = true.
Proof.
  unfold match_instance_here.
  destruct (starts_with (lit "instance:") s) eqn:Hp; [|discriminate].
  destruct (span_not_at (skipn 9 s)) as [[|c x'] [|d rest]] eqn:Es; try discriminate.
  intros H; inversion H; subst; clear H.
  destruct (span_not_at_spec _ Es) as (E1 & E2 & E3).
  destruct E3 as [E3|(rest' & E3)]; [discriminate|]. inversion E3; subst.
  split; [reflexivity|]. split; [exact E2|].
  pose proof (starts_with_split _ _ Hp) as Hs.
  change (length (lit "instance:")) with 9%nat in Hs. rewrite E1 in Hs.
  rewrite Hs.
  replace (lit "instance:" ++ (c :: x') ++ at_sign :: rest')
    with ((lit "instance:" ++ (c :: x') ++ [at_sign]) ++ rest')
    by (rewrite <- !app_assoc; reflexivity).
  apply starts_with_app.
Qed.

Lemma contains_start (sub s : str) :
  starts_with sub s = true -> contains sub s = true.
Proof. intros H. destruct s; simpl; now rewrite H. Qed.

Lemma search_instance_sound (s x : str) :
  search_instance s = Some x ->
  truthy x = true /\ existsb (char_eqb at_sign) x = false /\
  contains (lit "instance:" ++ x ++ [at_sign]) s = true.
Proof.
  induction s as [|c s IH].
  - intros H. vm_compute in H. discriminate.
  - change (search_instance (c :: s))
      with (match match_instance_here (c :: s) with
            | Some y => Some y
            | None => search_instance s
            end).
    destruct (match_instance_here (c :: s)) eqn:E.
    + intros H; inversion H; subst.
      destruct (match_instance_here_sound _ E) as (H1 & H2 & H3).
      repeat split; auto. now apply contains_start.
    + intros H. destruct (IH H) as (H1 & H2 & H3). repeat split; auto.
      now apply contains_cons.
Qed.

(** X5.  The class name of a TestNG failure record is empty, or it is the
    non-empty text without [@] that stands between ["instance:"] and an [@]
    in the method's signature. *)
Theorem testng_class_name_from_signature (tm : element) :
  let f := fst (testng_failure tm) in
  truthy (f_class_name f) = true ->
  existsb (char_eqb at_sign) (f_class_name f) = false /\
  contains (lit "instance:" ++ f_class_name f ++ [at_sign])
           (or_else (get tm (lit "signature")) []) = true.
Proof.
  cbv zeta. unfold testng_failure. cbn [fst f_class_name].
  destruct (contains (lit "instance:") _); [|discriminate].
  destruct (search_instance _) as [x|] eqn:E; [|discriminate].
  intros _. destruct (search_instance_sound _ E) as (_ & H2 & H3). simpl or_else.
  split; assumption.
Qed.

End TestngFailures.

(** ** More on merging *)

Section MoreMerge.
Context {B : Builtins}.
Variable fs : FileSystem.

Import XmlReader.

Lemma readable_app (l1 l2 : list str) :
  readable fs (l1 ++ l2) = readable fs l1 ++ readable fs l2.
Proof. apply flat_map_app. Qed.

Lemma sumZ_app {A} (f : A -> Z) (a b : list A) :
  sumZ f (a ++ b) = sumZ f a + sumZ f b.
Proof. induction a as [|x a IH]; simpl; lia. Qed.

Lemma len_app {A} (a b : list A) : len (a ++ b) = len a + len b.
Proof. unfold len. rewrite length_app. lia. Qed.

Lemma sumZ_len {A C} (g : A -> list C) (l : list A) :
  sumZ (fun x => len (g x)) l = len (flat_map g l).
Proof.
  induction l as [|x l IH]; simpl; [reflexivity|]. now rewrite len_app, IH.
Qed.

Lemma sumZ_ext {A} (f g : A -> Z) (l : list A) :
  (forall x, In x l -> f x = g x) -> sumZ f l = sumZ g l.
Proof.
  induction l as [|x l IH]; simpl; auto. intros H.
  rewrite (H x (or_introl eq_refl)), IH; auto.
Qed.

(** A file of a merge was read from one of the paths. *)
Lemma readable_in (paths : list str) (file : TestResults * FailureDetails) :
  In file (readable fs paths) -> exists p, In p paths /\ read_one fs p = Ok file.
Proof.
  unfold readable. intros H. apply in_flat_map in H. destruct H as (p & Hp & H).
  exists p. split; [assumption|].
  destruct (read_one fs p) as [f|e]; simpl in H; [|contradiction].
  destruct H as [H|[]]. now subst.
Qed.

Lemma read_one_parts (p : str) (tr : TestResults) (fd : FailureDetails) :
  read_one fs p = Ok (tr, fd) ->
  exists rd, parse_report rd = Ok tr /\ extract_failure_details rd = Ok fd.
Proof.
  unfold read_one. intros H.
  apply bind_ok in H. destruct H as (rd & _ & H).
  apply bind_ok in H. destruct H as (tr' & Htr & H).
  apply bind_ok in H. destruct H as (fd' & Hfd & H).
  inversion H; subst. eauto.
Qed.

(** X6.  Merging is additive over concatenation of the input lists: each of
    the six integer counts of the merge of [l1 ++ l2] is the sum of the counts
    of the merges of [l1] and of [l2], and its failure list is the failure list
    of [l1] followed by that of [l2].  In particular, merging a list with
    itself doubles every count. *)
Theorem merge_concatenation (l1 l2 : list str) :
  let m := merge_reports fs (l1 ++ l2) in
  let m1 := merge_reports fs l1 in
  let m2 := merge_reports fs l2 in
  m_total_tests m = m_total_tests m1 + m_total_tests m2 /\
  m_passed_tests m = m_passed_tests m1 + m_passed_tests m2 /\
  m_failed_tests m = m_failed_tests m1 + m_failed_tests m2 /\
  m_error_tests m = m_error_tests m1 + m_error_tests m2 /\
  m_skipped_tests m = m_skipped_tests m1 + m_skipped_tests m2 /\
  m_failure_count m = m_failure_count m1 + m_failure_count m2 /\
  m_test_failures m = m_test_failures m1 ++ m_test_failures m2.
Proof.
  cbv zeta.
  destruct (merge_reports_fields fs (l1 ++ l2)) as (A1 & A2 & A3 & A4 & A5 & A6 & A7 & _).
  destruct (merge_reports_fields fs l1) as (B1 & B2 & B3 & B4 & B5 & B6 & B7 & _).
  destruct (merge_reports_fields fs l2) as (C1 & C2 & C3 & C4 & C5 & C6 & C7 & _).
  rewrite A1, A2, A3, A4, A5, A6, A7, B1, B2, B3, B4, B5, B6, B7,
    C1, C2, C3, C4, C5, C6, C7.
  rewrite readable_app, !sumZ_app, flat_map_app. repeat split.
Qed.

(** X7.  The merged [failure_count] is the length of the merged failure
    list, and the merged [result] is SUCCESS exactly when that list is
    empty. *)
Theorem merged_count_is_list_length (paths : list str) :
  let m := merge_reports fs paths in
  m_failure_count m = len (m_test_failures m) /\
  (m_result m = SUCCESS <-> m_test_failures m = []).
Proof.
  cbv zeta.
  destruct (merge_reports_fields fs paths) as (_ & _ & _ & _ & _ & A6 & A7 & _).
  assert (H : m_failure_count (merge_reports fs paths)
              = len (m_test_failures (merge_reports fs paths))).
  { rewrite A6, A7, <- sumZ_len. apply sumZ_ext. intros [tr fd] Hin.
    destruct (readable_in _ _ Hin) as (p & _ & Hp).
    destruct (read_one_parts _ Hp) as (rd & _ & Hfd).
    now destruct (extract_count rd Hfd). }
  split; [exact H|].
  change (m_result (merge_reports fs paths))
    with (overall_of (m_failure_count (merge_reports fs paths))
                     (m_total_tests (merge_reports fs paths))).
  rewrite overall_success, H. apply len_zero.
Qed.

Lemma parse_testng_format (r : Xml.element) (tr : TestResults) :
  parse_testng r = Ok tr -> format tr = Some testng.
Proof.
  unfold parse_testng. intros H.
  do 6 (apply bind_ok in H; destruct H as (? & _ & H)).
  now inversion H.
Qed.

Lemma read_one_junit_balanced (p : str) (tr : TestResults) (fd : FailureDetails) :
  read_one fs p = Ok (tr, fd) -> is_junit (tr, fd) = true -> balanced tr.
Proof.
  intros H Hj. destruct (read_one_parts _ H) as (rd & Htr & _).
  unfold parse_report in Htr. destruct (rformat rd).
  - now apply parse_junit_balanced in Htr.
  - apply parse_testng_format in Htr. unfold is_junit in Hj. simpl in Hj.
    rewrite Htr in Hj. discriminate.
Qed.

Lemma sum_balanced (l : list (TestResults * FailureDetails)) :
  (forall file, In file l -> balanced (fst file)) ->
  sumZ (fun x => passed_tests (fst x)) l + sumZ (fun x => failed_tests (fst x)) l
  + sumZ (fun x => error_tests (fst x)) l + sumZ (fun x => skipped_tests (fst x)) l
  = sumZ (fun x => total_tests (fst x)) l.
Proof.
  induction l as [|x l IH]; simpl; [reflexivity|]. intros H.
  pose proof (H x (or_introl eq_refl)) as Hx. unfold balanced in Hx.
  assert (Hl : forall file, In file l -> balanced (fst file)) by auto.
  specialize (IH Hl). lia.
Qed.

(** X8.  A merge in which every readable file is a JUnit report is balanced:
    merged passed + failed + errored + skipped equals the merged total. *)
Theorem junit_merge_is_balanced (paths : list str) :
  forallb is_junit (readable fs paths) = true ->
  let m := merge_reports fs paths in
  m_passed_tests m + m_failed_tests m + m_error_tests m + m_skipped_tests m
  = m_total_tests m.
Proof.
  intros H. cbv zeta.
  destruct (merge_reports_fields fs paths) as (A1 & A2 & A3 & A4 & A5 & _).
  rewrite A1, A2, A3, A4, A5. apply sum_balanced. intros [tr fd] Hin.
  rewrite forallb_forall in H.
  destruct (readable_in _ _ Hin) as (p & _ & Hp).
  exact (read_one_junit_balanced _ Hp (H _ Hin)).
Qed.

Lemma extract_flags (rd : Reader) (fd : FailureDetails) :
  extract_failure_details rd = Ok fd ->
  has_compilation_error fd = flag_compilation (test_failures fd) /\
  has_timeout fd = flag_timeout (test_failures fd) /\
  (has_assertion_error fd = true -> flag_assertion true (test_failures fd) = true).
Proof.
  unfold extract_failure_details, extract_testng_failures, extract_junit_failures.
  destruct (rformat rd); intros E; apply bind_ok in E; destruct E as (x & _ & E);
    inversion E; subst; simpl; repeat split; auto.
  unfold flag_assertion. intros H. apply existsb_exists in H.
  destruct H as (f & Hf & Hc). apply existsb_exists. exists f. split; [assumption|].
  rewrite andb_false_l, orb_false_r in Hc. now rewrite Hc.
Qed.

Lemma existsb_flat_map {A C} (p : C -> bool) (g : A -> list C) (l : list A) (x : A) :
  In x l -> existsb p (g x) = true -> existsb p (flat_map g l) = true.
Proof.
  intros Hx Hp. apply existsb_exists in Hp. destruct Hp as (c & Hc & Hpc).
  apply existsb_exists. exists c. split; [|assumption].
  apply in_flat_map. eauto.
Qed.

(** X9.  A derived flag of any file that could be read carries over to the
    merge: when a file has a compilation error, a timeout or an assertion
    error, so has the merged result. *)
Theorem merged_flags_cover_files (paths : list str) (tr : TestResults)
  (fd : FailureDetails) :
  In (tr, fd) (readable fs paths) ->
  let m := merge_reports fs paths in
  (has_compilation_error fd = true -> m_has_compilation_error m = true) /\
  (has_timeout fd = true -> m_has_timeout m = true) /\
  (has_assertion_error fd = true -> m_has_assertion_error m = true).
Proof.
  intros Hin. cbv zeta.
  destruct (merge_reports_fields fs paths) as (_ & _ & _ & _ & _ & _ & A7 & _).
  destruct (readable_in _ _ Hin) as (p & _ & Hp).
  destruct (read_one_parts _ Hp) as (rd & _ & Hfd).
  destruct (extract_flags rd Hfd) as (F1 & F2 & F3).
  change (m_has_compilation_error (merge_reports fs paths))
    with (flag_compilation (m_test_failures (merge_reports fs paths))).
  change (m_has_timeout (merge_reports fs paths))
    with (flag_timeout (m_test_failures (merge_reports fs paths))).
  change (m_has_assertion_error (merge_reports fs paths))
    with (flag_assertion true (m_test_failures (merge_reports fs paths))).
  rewrite A7. repeat split; intros H.
  - rewrite F1 in H.
    exact (existsb_flat_map _ (fun x => test_failures (snd x)) _ (tr, fd) Hin H).
  - rewrite F2 in H.
    exact (existsb_flat_map _ (fun x => test_failures (snd x)) _ (tr, fd) Hin H).
  - exact (existsb_flat_map _ (fun x => test_failures (snd x)) _ (tr, fd) Hin (F3 H)).
Qed.

Lemma format_eqb_eq (a b : report_format) : format_eqb a b = true <-> a = b.
Proof. destruct a, b; simpl; split; intros; try reflexivity; discriminate. Qed.

Lemma track_format_nodup (formats : list report_format) (fmt : option report_format) :
  NoDup formats -> NoDup (track_format formats fmt).
Proof.
  intros H. unfold track_format. destruct fmt as [f|]; [|assumption].
  destruct (existsb (format_eqb f) formats) eqn:E; [assumption|].
  apply NoDup_app; auto.
  - repeat constructor. simpl. tauto.
  - intros x Hx [Hf|[]]. subst x.
    assert (existsb (format_eqb f) formats = true).
    { apply existsb_exists. exists f. split; [assumption|]. now apply format_eqb_eq. }
    congruence.
Qed.

Lemma absorb_nodup (l : list (TestResults * FailureDetails)) (m : Merged) :
  NoDup (m_formats m) -> NoDup (m_formats (fold_left absorb l m)).
Proof.
  revert m. induction l as [|[tr fd] l IH]; simpl; intros m H; [assumption|].
  apply IH. simpl. now apply track_format_nodup.
Qed.

(** X10.  The [formats] list of a merge names no format twice. *)
Theorem merged_formats_are_distinct (paths : list str) :
  NoDup (m_formats (merge_reports fs paths)).
Proof.
  unfold merge_reports. rewrite merge_loop_readable.
  change (m_formats (merge_finish ?m)) with (m_formats m).
  apply absorb_nodup. constructor.
Qed.

End MoreMerge.

(** ** More on the test locator *)

Section MoreLocator.
Context {B : Builtins}.
Variable fs : FileSystem.
Variable repo : str.

Import TestFinder.

Lemma span_spaces_no_blank (s : str) :
  existsb (char_eqb space) s = false -> span_spaces s = ([], s).
Proof.
  destruct s as [|c s]; [reflexivity|]. intros H.
  change (existsb (char_eqb space) (c :: s))
    with (char_eqb space c || existsb (char_eqb space) s) in H.
  apply orb_false_iff in H. destruct H as [H _].
  assert (Hc : char_eqb c space = false)
    by (unfold char_eqb in *; now rewrite N.eqb_sym).
  change (span_spaces (c :: s))
    with (if char_eqb c space
          then let '(x, rest) := span_spaces s in (c :: x, rest)
          else ([], c :: s)).
  now rewrite Hc.
Qed.

(** X11.  A signature without a blank is never matched by the signature
    pattern (which asks for blanks before the last dot), so the search by
    signature finds nothing for it. *)
Theorem signature_without_blank_not_matched (signature : str)
  (dirs : option (list str)) :
  existsb (char_eqb space) signature = false ->
  match_signature signature = None /\
  find_test_by_signature fs repo signature dirs = Ok None.
Proof.
  intros H.
  assert (Hm : match_signature signature = None).
  { unfold match_signature. destruct signature as [|c0 s1]; [reflexivity|].
    change (existsb (char_eqb space) (c0 :: s1))
      with (char_eqb space c0 || existsb (char_eqb space) s1) in H.
    apply orb_false_iff in H. destruct H as [_ H].
    rewrite (span_spaces_no_blank _ H). now destruct (char_eqb c0 nl). }
  split; [exact Hm|]. unfold find_test_by_signature. now rewrite Hm.
Qed.

(** What [locate] returns for one failure: at most one test, tied to that
    failure. *)
Lemma locate_at_most_one (dirs : option (list str)) (failure : Failure)
  (found : list Located) :
  locate fs repo dirs failure = Ok found ->
  (length found <= 1)%nat /\
  forall t, In t found -> failure_info t = Some failure.
Proof.
  unfold locate. destruct (truthy (or_else _ _));
    [|intros H; inversion H; simpl; split; [lia|contradiction]].
  destruct (find_test_by_signature _ _ _ _) as [[t|]|e]; simpl; try discriminate.
  - intros H; inversion H; subst; simpl. split; [lia|].
    intros t' [<-|[]]. reflexivity.
  - destruct (truthy (f_class_name failure) && truthy (f_test_name failure));
      [|intros H; inversion H; simpl; split; [lia|contradiction]].
    destruct (search_by_class_name _ _ _ _); intros H; inversion H; subst; simpl;
      (split; [lia|]); [contradiction|].
    intros t' [<-|[]]. reflexivity.
Qed.

Lemma find_tests_accumulates (dirs : option (list str)) (failures : list Failure)
  (acc found : list Located) :
  foldM (fun found failure => more <- locate fs repo dirs failure ;; Ok (found ++ more))
        failures acc = Ok found ->
  exists extra,
    found = acc ++ extra /\
    (length extra <= length failures)%nat /\
    forall t, In t extra -> exists f, In f failures /\ failure_info t = Some f.
Proof.
  revert acc. induction failures as [|f l IH]; simpl; intros acc H.
  - inversion H; subst. exists []. rewrite app_nil_r. repeat split; auto.
    intros t [].
  - apply bind_ok in H. destruct H as (acc' & Hacc & H).
    apply bind_ok in Hacc. destruct Hacc as (more & Hm & Hacc).
    inversion Hacc; subst; clear Hacc.
    destruct (locate_at_most_one _ _ Hm) as (Hlen & Hinfo).
    destruct (IH _ H) as (extra & -> & Hl & Hi).
    exists (more ++ extra). rewrite app_assoc. split; [reflexivity|].
    split; [rewrite length_app; lia|].
    intros t Ht. apply in_app_or in Ht. destruct Ht as [Ht|Ht].
    + exists f. split; [now left|auto].
    + destruct (Hi t Ht) as (f' & Hf' & E). exists f'. split; [now right|assumption].
Qed.

(** X12.  The located-test list is never longer than the failure list, and
    every located test carries the failure record it was found for
    (unmatched failures are dropped). *)
Theorem located_tests_bounded (failures : list Failure) (dirs : option (list str))
  (found : list Located) :
  find_tests_for_failures fs repo failures dirs = Ok found ->
  (length found <= length failures)%nat /\
  forall t, In t found -> exists f, In f failures /\ failure_info t = Some f.
Proof.
  unfold find_tests_for_failures. intros H.
  destruct (find_tests_accumulates _ _ _ H) as (extra & -> & Hl & Hi).
  simpl. split; assumption.
Qed.

(** A list of failures without signatures is passed over as a whole. *)
Lemma no_signatures_nothing_found (failures : list Failure) (dirs : option (list str)) :
  forallb no_signature failures = true ->
  find_tests_for_failures fs repo failures dirs = Ok [].
Proof.
  unfold find_tests_for_failures. induction failures as [|f l IH]; simpl; auto.
  intros H. apply andb_true_iff in H. destruct H as [Hf Hl].
  rewrite (locate_without_signature fs repo dirs f Hf). simpl. auto.
Qed.

Lemma junit_failures_without_signature (r : Xml.element) (fd : FailureDetails) :
  XmlReader.extract_junit_failures r = Ok fd ->
  forallb no_signature (test_failures fd) = true.
Proof.
  unfold XmlReader.extract_junit_failures. intros E.
  apply bind_ok in E. destruct E as (tr & _ & E). inversion E; subst; clear E.
  cbn [test_failures]. apply forallb_forall. intros f Hf.
  apply in_map_iff in Hf. destruct Hf as ([f' lines] & <- & Hin).
  apply in_flat_map in Hin. destruct Hin as (tc & _ & Hin).
  destruct (XmlReader.junit_failure tc) as [[f0 l0]|] eqn:E; simpl in Hin;
    [|contradiction].
  destruct Hin as [Hin|[]]. inversion Hin; subst.
  exact (junit_failure_has_no_signature tc E).
Qed.

End MoreLocator.

(** ** More on the local test executor *)

Section MoreExecutor.
Context {B : Builtins}.
Variable run : runner.
Variable repo_path : str.

Import JavaExecutor.

Lemma run_command_success (cmd : list str) (timeout : Z) (msg : str) :
  success (run_command run repo_path cmd timeout msg) = true
  <-> exit_code (run_command run repo_path cmd timeout msg) = 0.
Proof.
  unfold run_command. destruct (run cmd (path_str repo_path) timeout) as [rc out err|e].
  - simpl. apply Z.eqb_eq.
  - destruct (exc_cls e); simpl; split; intros H; discriminate.
Qed.

Lemma run_specific_tests_success (bs : build_system) (tests : list Located)
  (timeout : Z) :
  success (run_specific_tests run repo_path bs tests timeout) = true
  <-> exit_code (run_specific_tests run repo_path bs tests timeout) = 0.
Proof.
  unfold run_specific_tests. destruct tests as [|t tests].
  - simpl. split; intros H; discriminate.
  - destruct bs.
    + unfold run_maven_tests. destruct (maven_specs (t :: tests)).
      * simpl. split; intros H; discriminate.
      * apply run_command_success.
    + unfold run_gradle_tests. destruct (len (gradle_command (t :: tests)) =? 2).
      * simpl. split; intros H; discriminate.
      * apply run_command_success.
    + simpl. split; intros H; discriminate.
Qed.

(** X13.  Whatever the build system, the tests and the behaviour of the
    build tool, the executor's result has [success] true exactly when its
    exit code is 0; every failure produced by the executor itself carries exit
    code -1. *)
Theorem executor_success_iff_exit_zero (bs : build_system) (tests : list Located)
  (timeout : Z) :
  let r := run_specific_tests run repo_path bs tests timeout in
  (success r = true <-> exit_code r = 0) /\
  (command r = None -> success r = false /\ exit_code r = -1 /\ output r = []).
Proof.
  cbv zeta. split; [apply run_specific_tests_success|].
  unfold run_specific_tests. destruct tests as [|t tests]; [simpl; auto|].
  destruct bs; [| |simpl; auto].
  - unfold run_maven_tests. destruct (maven_specs (t :: tests)); [simpl; auto|].
    unfold run_command. destruct (run _ _ _); [simpl; discriminate|].
    destruct (exc_cls e); simpl; discriminate.
  - unfold run_gradle_tests. destruct (len (gradle_command (t :: tests)) =? 2);
      [simpl; auto|].
    unfold run_command. destruct (run _ _ _); [simpl; discriminate|].
    destruct (exc_cls e); simpl; discriminate.
Qed.

(** X14.  When the build tool runs to completion, the result mirrors the
    process, for Maven as for Gradle: [success] is whether the return code is
    0, the exit code is the return code, the output is the standard output,
    the errors are the standard error when it is not empty, and the command
    line is recorded. *)
Theorem completed_process_is_mirrored (bs : build_system) (tests : list Located)
  (timeout rc : Z) (out err : str) :
  bs = maven \/ bs = gradle ->
  tests <> [] ->
  forallb has_class tests = true ->
  run (tool_command bs tests) (path_str repo_path) timeout = Completed rc out err ->
  let r := run_specific_tests run repo_path bs tests timeout in
  success r = (rc =? 0) /\
  exit_code r = rc /\
  output r = out /\
  errors r = (if truthy err then [err] else []) /\
  command r = Some (join (lit " ") (tool_command bs tests)).
Proof.
  intros Hbs Hne Hc Hrun. cbv zeta.
  rewrite (run_specific_tests_runs run repo_path timeout Hbs Hne Hc).
  unfold run_command. rewrite Hrun. simpl. repeat split.
Qed.

Lemma gradle_command_length (tests : list Located) :
  forallb has_class tests = true ->
  length (gradle_command tests) = (2 + 2 * length tests)%nat.
Proof.
  unfold gradle_command. rewrite length_app.
  match goal with |- context [flat_map ?g _] => set (f := g) end.
  intros H.
  assert (Hl : length (flat_map f tests) = (2 * length tests)%nat).
  { induction tests as [|t tests IH]; [reflexivity|].
    change (forallb has_class (t :: tests))
      with (has_class t && forallb has_class tests) in H.
    apply andb_true_iff in H. destruct H as [Ht Hts].
    change (flat_map f (t :: tests)) with (f t ++ flat_map f tests).
    rewrite length_app, (IH Hts).
    assert (Hf : length (f t) = 2%nat).
    { unfold f, has_class in *. cbv zeta. rewrite Ht.
      now destruct (truthy (method_name t)). }
    rewrite Hf. simpl length. lia. }
  rewrite Hl. reflexivity.
Qed.

(** X15.  For located tests that name a class, the Gradle command line is
    [gradle test] followed by one [--tests] flag and one selector per test,
    and the Maven command line always has exactly four words, the third being
    the single comma-joined selector. *)
Theorem command_line_shape (tests : list Located) :
  forallb has_class tests = true ->
  length (gradle_command tests) = (2 + 2 * length tests)%nat /\
  firstn 2 (gradle_command tests) = [lit "gradle"; lit "test"] /\
  length (maven_command (maven_specs tests)) = 4%nat /\
  nth 2 (maven_command (maven_specs tests)) []
  = lit "-Dtest=" ++ join (lit ",") (maven_specs tests).
Proof.
  intros H. rewrite (gradle_command_length _ H). repeat split.
Qed.

End MoreExecutor.

(** ** More on the nodes *)

Section MoreNodes.
Context {B : Builtins}.
Variable w : World.

Import Nodes.

(** X16.  The failures of a JUnit report are never re-run: with a repository
    that exists and a detected build system, the executor searches, locates
    nothing (JUnit failure records have no signature), and records "Failed
    tests not found in repository" with exit code -1 without calling
    [run_specific_tests]. *)
Theorem junit_failures_never_executed (st : State) (r : Xml.element)
  (fd : FailureDetails) (bs : build_system) :
  failure_details st = Some fd ->
  XmlReader.extract_junit_failures r = Ok fd ->
  failure_count fd <> 0 ->
  truthy (repo_path st) = true ->
  fs_exists (files w) (path_str (repo_path st)) = true ->
  TestFinder.detect_build_system (files w) (path_str (repo_path st)) = Some bs ->
  local_executor w st
  = (set_execution st (lit "Failed tests not found in repository")
       [lit "Test files could not be located"] (-1) false,
     [CallNewFinder; CallDetectBuildSystem; CallFindTests]).
Proof.
  intros Hfd Hex Hc Hr He Hd. unfold local_executor. rewrite Hr, Hfd.
  apply Z.eqb_neq in Hc. rewrite Hc.
  unfold try_execute, TestFinder.new_finder. rewrite He, Hd.
  rewrite (no_signatures_nothing_found (files w) (path_str (repo_path st))
             (test_failures fd) test_dirs (junit_failures_without_signature r Hex)).
  reflexivity.
Qed.

(** The executor node only writes the four execution keys and the status,
    and records success exactly with exit code 0. *)
Lemma local_executor_shape (st : State) :
  exists out errs code ok,
    fst (local_executor w st) = set_execution st out errs code ok /\
    (ok = true <-> code = 0).
Proof.
  unfold local_executor.
  destruct (truthy (repo_path st));
    [|simpl; do 4 eexists; split; [reflexivity|split; intros; discriminate]].
  destruct (failure_details st) as [fd|];
    [|simpl; do 4 eexists; split; [reflexivity|split; reflexivity]].
  destruct (failure_count fd =? 0);
    [simpl; do 4 eexists; split; [reflexivity|split; reflexivity]|].
  unfold try_execute.
  destruct (TestFinder.new_finder _ _) as [repo|e];
    [|simpl; do 4 eexists; split; [reflexivity|split; intros; discriminate]].
  destruct (TestFinder.detect_build_system _ _) as [build|];
    [|simpl; do 4 eexists; split; [reflexivity|split; intros; discriminate]].
  destruct (TestFinder.find_tests_for_failures _ _ _ _) as [[|t found]|e];
    try (simpl; do 4 eexists; split; [reflexivity|split; intros; discriminate]).
  cbn [fst]. do 4 eexists. split; [reflexivity|].
  apply run_specific_tests_success.
Qed.

(** X17.  Whatever the state and the world, the executor node ends with
    status [executed] (an earlier [error] status is overwritten, its message
    is kept), sets output, errors, exit code and success flag, records
    success exactly when the exit code is 0, and leaves the ingested data
    untouched. *)
Theorem local_executor_always_executed (st : State) :
  let st' := fst (local_executor w st) in
  workflow_status st' = executed /\
  error_message st' = error_message st /\
  test_results st' = test_results st /\
  failure_details st' = failure_details st /\
  (exists out errs code ok,
     local_output st' = Some out /\ local_errors st' = Some errs /\
     local_exit_code st' = Some code /\ execution_success st' = Some ok /\
     (ok = true <-> code = 0)).
Proof.
  cbv zeta. destruct (local_executor_shape st) as (out & errs & code & ok & E & H).
  rewrite E. repeat split. exists out, errs, code, ok. repeat split; apply H.
Qed.

Lemma extract_confidence_zero (analysis_text : str) (c : float) :
  extract_confidence analysis_text = Ok c -> c = 0%float.
Proof.
  unfold extract_confidence.
  destruct (contains marker_confidence analysis_text);
    [|intros H; now inversion H].
  destruct (1 <? len _); [|intros H; now inversion H].
  simpl. discriminate.
Qed.

(** X18.  Whatever the model answers, the analyzer stores confidence 0.0 (no
    percentage is ever read from the response), a non-empty list of
    recommendations and a root cause, and ends with status [analyzed] or
    [error]. *)
Theorem analyzer_confidence_is_zero (st : State) :
  let st' := root_cause_analyzer w st in
  confidence_level st' = Some 0%float /\
  (exists recs, recommendations st' = Some recs /\ truthy_list recs = true) /\
  (exists rc, root_cause st' = Some rc) /\
  (workflow_status st' = analyzed \/ workflow_status st' = error).
Proof.
  cbv zeta. unfold root_cause_analyzer.
  destruct (llm_invoke w (prompt_vars st)) as [text|e]; simpl.
  - unfold parse_response.
    destruct (extract_confidence text) as [c|e] eqn:Ec; simpl.
    + rewrite (extract_confidence_zero _ Ec).
      destruct (extract_recommendations text) as [|x recs]; simpl;
        repeat split; eauto.
    + repeat split; eauto.
  - repeat split; eauto.
Qed.

Lemma split_go_nonempty (sep s : str) (skip : nat) (cur : str) :
  (1 <= length (split_go sep s skip cur))%nat.
Proof.
  revert skip cur. induction s as [|c s IH]; intros skip cur; simpl; [lia|].
  destruct skip; [|apply IH].
  destruct (starts_with sep (c :: s)); [simpl; lia|apply IH].
Qed.

Lemma split_at_least_two (sep s cur : str) :
  truthy sep = true ->
  contains sep s = true ->
  (2 <= length (split_go sep s 0 cur))%nat.
Proof.
  intros Hsep. revert cur. induction s as [|c s IH]; intros cur H.
  - destruct sep; discriminate.
  - change (contains sep (c :: s))
      with (starts_with sep (c :: s) || contains sep s) in H.
    change (split_go sep (c :: s) 0 cur)
      with (if starts_with sep (c :: s)
            then rev cur :: split_go sep s (length sep - 1) []
            else split_go sep s 0 (c :: cur)).
    destruct (starts_with sep (c :: s)).
    + pose proof (split_go_nonempty sep s (length sep - 1) []). simpl. lia.
    + simpl in H. now apply IH.
Qed.

Lemma extract_confidence_raises (analysis_text : str) :
  contains marker_confidence analysis_text = true ->
  extract_confidence analysis_text = Raise (Exc ReError bad_pattern).
Proof.
  intros H. unfold extract_confidence. rewrite H.
  assert (Hl : (1 <? len (split marker_confidence analysis_text)) = true).
  { apply Z.ltb_lt. unfold len, split.
    pose proof (split_at_least_two marker_confidence analysis_text [] eq_refl H).
    lia. }
  rewrite Hl. reflexivity.
Qed.

(** X19.  A response that contains the confidence marker is never parsed:
    reading the percentage raises, and the analyzer stores the fallback
    analysis (root cause "Analysis failed: ...", confidence 0.0, the three
    manual recommendations) with status [error]. *)
Theorem response_with_confidence_marker (st : State) (analysis_text : str) :
  llm_invoke w (prompt_vars st) = Ok analysis_text ->
  contains marker_confidence analysis_text = true ->
  root_cause_analyzer w st
  = set_analysis st (lit "Analysis failed: " ++ bad_pattern) 0%float
      manual_recommendations (lit "Error: " ++ bad_pattern) error
      (Some (lit "Analysis failed: " ++ bad_pattern)).
Proof.
  intros Hllm Hc. unfold root_cause_analyzer. rewrite Hllm. simpl bind.
  unfold parse_response. rewrite (extract_confidence_raises _ Hc). reflexivity.
Qed.

End MoreNodes.

(** ** The rendered report *)

Section Report.
Context {B : Builtins}.
Variable w : World.

Import Nodes.

Lemma enumerate_length {A} (i : Z) (l : list A) :
  length (enumerate_from i l) = length l.
Proof. revert i. induction l as [|x l IH]; intros i; simpl; auto. Qed.

Lemma failure_entries_length (l : list (Z * Failure)) :
  length (flat_map failure_entry l) = (4 * length l)%nat.
Proof.
  induction l as [|[i f] l IH]; [reflexivity|].
  change (flat_map failure_entry ((i, f) :: l))
    with (failure_entry (i, f) ++ flat_map failure_entry l).
  rewrite length_app, IH. cbn [failure_entry length]. lia.
Qed.

Lemma take_length {A} (n : nat) (l : list A) : (length (take n l) <= n)%nat.
Proof. apply firstn_le_length. Qed.

(** X20.  The detailed part of the report does not grow with the number of
    failures: the "Failure Details" section has at most 54 lines (ten
    detailed entries at most) and the "Error Messages" section at most 56
    lines (fifty error lines at most), however many failures and error lines
    the state holds. *)
Theorem report_sections_are_capped (fd : option FailureDetails) :
  (length (failure_section fd) <= 54)%nat /\
  (length (error_section fd) <= 56)%nat.
Proof.
  split.
  - unfold failure_section. destruct fd as [d|]; [|simpl; lia].
    destruct (failure_count d >? 0); [|simpl; lia].
    rewrite !length_app.
    assert (H : (length (flat_map failure_entry
                           (enumerate_from 1 (take 10 (test_failures d)))) <= 40)%nat).
    { rewrite failure_entries_length, enumerate_length.
      pose proof (take_length 10 (test_failures d)). lia. }
    destruct (truthy_list (test_failures d));
      destruct (len (test_failures d) >? 10);
      rewrite ?length_app; cbn [length]; lia.
  - unfold error_section. destruct fd as [d|]; [|simpl; lia].
    destruct (truthy_list (error_lines d)); [|simpl; lia].
    rewrite !length_app. pose proof (take_length 50 (error_lines d)).
    destruct (len (error_lines d) >? 50); cbn [length]; lia.
Qed.

Lemma subseq_nil_l (b : list str) : subseq [] b = true.
Proof. now destruct b. Qed.

Lemma subseq_nil_r (a : list str) : subseq a [] = true -> a = [].
Proof. destruct a; simpl; [reflexivity|discriminate]. Qed.

Lemma subseq_tail (x : str) (a b : list str) :
  subseq (x :: a) b = true -> subseq a b = true.
Proof.
  revert a x. induction b as [|y b IH]; intros a x; [simpl; discriminate|].
  cbn [subseq]. destruct (str_eqb x y).
  - intros H. destruct a as [|x' a]; [reflexivity|].
    cbn [subseq]. destruct (str_eqb x' y); [now apply IH with (x := x')|assumption].
  - intros H. apply IH in H. destruct a as [|x' a]; [reflexivity|].
    cbn [subseq]. destruct (str_eqb x' y); [now apply IH with (x := x')|assumption].
Qed.

Lemma subseq_cons_r (y : str) (a b : list str) :
  subseq a b = true -> subseq a (y :: b) = true.
Proof.
  destruct a as [|x a]; [reflexivity|]. cbn [subseq].
  destruct (str_eqb x y); [apply subseq_tail|auto].
Qed.

Lemma subseq_app (a1 a2 b1 b2 : list str) :
  subseq a1 b1 = true -> subseq a2 b2 = true -> subseq (a1 ++ a2) (b1 ++ b2) = true.
Proof.
  revert a1. induction b1 as [|y b1 IH]; intros a1 H1 H2.
  - apply subseq_nil_r in H1. now subst.
  - destruct a1 as [|x a1].
    + simpl app. apply subseq_cons_r. apply (IH []); [now destruct b1|assumption].
    + cbn [subseq] in H1. change ((x :: a1) ++ a2) with (x :: (a1 ++ a2)).
      change ((y :: b1) ++ b2) with (y :: (b1 ++ b2)). cbn [subseq].
      destruct (str_eqb x y); [now apply IH|].
      change (x :: a1 ++ a2) with ((x :: a1) ++ a2). now apply IH.
Qed.

Lemma subseq_skip (a b1 b2 : list str) :
  subseq a b2 = true -> subseq a (b1 ++ b2) = true.
Proof. intros H. apply (subseq_app [] a b1 b2); [now destruct b1|assumption]. Qed.

Lemma subseq_head (x : str) (b : list str) : subseq [x] (x :: b) = true.
Proof. cbn [subseq]. rewrite str_eqb_same. now destruct b. Qed.

Lemma subseq_cons_same (x : str) (a b : list str) :
  subseq a b = true -> subseq (x :: a) (x :: b) = true.
Proof. intros H. cbn [subseq]. now rewrite str_eqb_same. Qed.

(** The headings of the report, in the order of the document. *)
Lemma headings_in_order (st : State) :
  subseq report_headings (report_lines w st) = true.
Proof.
  unfold report_lines, report_headings.
  apply (subseq_app [lit "# Test Failure Analysis Report"]
           [lit "## XML Test Report"; lit "### Test Statistics";
            lit "## Local Execution Results"; lit "## Comparison Analysis";
            lit "## Root Cause Analysis"; lit "## Recommendations"]);
    [apply subseq_head|].
  apply (subseq_app [lit "## XML Test Report"]
           [lit "### Test Statistics"; lit "## Local Execution Results";
            lit "## Comparison Analysis"; lit "## Root Cause Analysis";
            lit "## Recommendations"]);
    [unfold xml_section; apply subseq_head|].
  apply (subseq_app [lit "### Test Statistics"]
           [lit "## Local Execution Results"; lit "## Comparison Analysis";
            lit "## Root Cause Analysis"; lit "## Recommendations"]);
    [unfold statistics_section; apply subseq_head|].
  apply subseq_skip.
  apply (subseq_app [lit "## Local Execution Results"]
           [lit "## Comparison Analysis"; lit "## Root Cause Analysis";
            lit "## Recommendations"]);
    [unfold local_section; apply subseq_head|].
  apply (subseq_app [lit "## Comparison Analysis"]
           [lit "## Root Cause Analysis"; lit "## Recommendations"]);
    [unfold comparison_section; apply subseq_head|].
  apply (subseq_app [lit "## Root Cause Analysis"; lit "## Recommendations"] []);
    [|apply subseq_nil_l].
  unfold analysis_section.
  apply (subseq_app [lit "## Root Cause Analysis"; lit "## Recommendations"] []);
    [|apply subseq_nil_l].
  apply subseq_cons_same. do 7 apply subseq_cons_r. apply subseq_head.
Qed.

(** X21.  From every state, however partial, the generator renders a
    document that holds the seven fixed headings in their fixed order (title,
    XML report, statistics, local execution, comparison, root cause,
    recommendations), ends with status [completed] and stores that document
    as [final_report]. *)
Theorem report_has_fixed_sections (st : State) :
  subseq report_headings (report_lines w st) = true /\
  final_report (report_generator w st) = Some (join newline (report_lines w st)) /\
  workflow_status (report_generator w st) = completed.
Proof. split; [apply headings_in_order|split; reflexivity]. Qed.

End Report.

(** ** The fetcher on several files *)

Section MoreFetcher.
Context {B : Builtins}.
Variable w : World.

Import XmlReader.

Lemma fetcher_many (st : State) :
  (2 <= length (xml_report_paths st))%nat ->
  Nodes.xml_report_fetcher w st
  = set_ingested st
      (merged_results (merge_reports (files w) (xml_report_paths st)))
      (merged_failures (merge_reports (files w) (xml_report_paths st))).
Proof.
  intros H. unfold Nodes.xml_report_fetcher.
  destruct (xml_report_paths st) as [|p1 [|p2 rest]]; simpl in H; try lia.
  reflexivity.
Qed.

(** X22.  With two or more report paths the fetcher never reports an error:
    whatever the files hold, the status is [xml_fetched], the error message is
    left as it was, and the stored summary (which names no format) and failure
    details are the sums over the files that could be read. *)
Theorem multi_file_fetch_never_fails (st : State) :
  (2 <= length (xml_report_paths st))%nat ->
  let st' := Nodes.xml_report_fetcher w st in
  let read := readable (files w) (xml_report_paths st) in
  workflow_status st' = xml_fetched /\
  error_message st' = error_message st /\
  exists tr fd,
    test_results st' = Some tr /\ failure_details st' = Some fd /\
    format tr = None /\
    total_tests tr = sumZ (fun x => total_tests (fst x)) read /\
    failure_count fd = sumZ (fun x => failure_count (snd x)) read /\
    test_failures fd = flat_map (fun x => test_failures (snd x)) read.
Proof.
  intros H. cbv zeta. rewrite (fetcher_many st H).
  split; [reflexivity|]. split; [reflexivity|].
  destruct (merge_reports_fields (files w) (xml_report_paths st))
    as (H1 & _ & _ & _ & _ & H6 & H7 & _).
  do 2 eexists. split; [reflexivity|]. split; [reflexivity|].
  split; [reflexivity|]. repeat split; assumption.
Qed.

Lemma readable_none (paths : list str) :
  (forall p, In p paths -> exists e, read_one (files w) p = Raise e) ->
  readable (files w) paths = [].
Proof.
  induction paths as [|p paths IH]; intros H; [reflexivity|].
  unfold readable. cbn [flat_map].
  destruct (H p) as [e He]; [now left|]. rewrite He.
  apply IH. intros q Hq. apply H. now right.
Qed.

(** X23.  When none of several report files can be read (missing, malformed,
    of unknown format), ingestion still succeeds, with the summary and the
    failure details of a run in which nothing failed: all counts 0, result
    SUCCESS, no failure record; with a repository path, the executor that
    follows then records a successful run without calling any client. *)
Theorem unreadable_reports_look_passing (st : State) :
  (2 <= length (xml_report_paths st))%nat ->
  (forall p, In p (xml_report_paths st) ->
             exists e, read_one (files w) p = Raise e) ->
  let st' := Nodes.xml_report_fetcher w st in
  workflow_status st' = xml_fetched /\
  test_results st'
  = Some {| total_tests := 0; passed_tests := 0; failed_tests := 0;
            error_tests := 0; skipped_tests := 0; duration_seconds := 0%float;
            format := None |} /\
  failure_details st'
  = Some {| failure_count := 0; result := SUCCESS; test_failures := [];
            error_lines := []; has_compilation_error := false;
            has_timeout := false; has_assertion_error := false |} /\
  (truthy (repo_path st) = true ->
   Nodes.local_executor w st'
   = (set_execution st' (lit "No failures to reproduce") [] 0 true, [])).
Proof.
  intros H Hall. cbv zeta. rewrite (fetcher_many st H).
  assert (Hm : merge_reports (files w) (xml_report_paths st)
               = merge_finish merged_zero).
  { unfold merge_reports. rewrite merge_loop_readable, (readable_none _ Hall).
    reflexivity. }
  rewrite Hm. split; [reflexivity|]. split; [reflexivity|]. split; [reflexivity|].
  intros Hr. unfold Nodes.local_executor.
  cbn [repo_path set_ingested failure_details]. rewrite Hr. reflexivity.
Qed.

End MoreFetcher.

(** ** Whole runs *)

Section MoreRuns.
Context {B : Builtins}.
Variable w : World.

Import Graph.

Lemma local_repo_access_keeps (st : State) :
  let st' := Nodes.local_repo_access w st in
  xml_report_paths st' = xml_report_paths st /\
  repo_path st' = repo_path st /\
  test_results st' = test_results st /\
  failure_details st' = failure_details st.
Proof.
  cbv zeta. destruct (local_repo_access_shape w st) as [E|[msg E]];
    rewrite E; repeat split.
Qed.

Lemma fetcher_keeps (st : State) :
  xml_report_paths (Nodes.xml_report_fetcher w st) = xml_report_paths st /\
  repo_path (Nodes.xml_report_fetcher w st) = repo_path st.
Proof.
  unfold Nodes.xml_report_fetcher.
  destruct (xml_report_paths st) as [|p1 [|p2 rest]] eqn:E.
  - now rewrite <- E.
  - destruct (XmlReader.read_one (files w) p1) as [[r f]|e]; now rewrite <- E.
  - now rewrite <- E.
Qed.

Lemma local_executor_keeps (st : State) :
  let st' := fst (Nodes.local_executor w st) in
  xml_report_paths st' = xml_report_paths st /\
  repo_path st' = repo_path st /\
  (exists code, local_exit_code st' = Some code) /\
  (exists ok, execution_success st' = Some ok).
Proof.
  cbv zeta. unfold Nodes.local_executor.
  destruct (negb (truthy (repo_path st))); [cbn; eauto 6|].
  destruct (failure_details st) as [fd|]; [|cbn; eauto 6].
  destruct (failure_count fd =? 0); [cbn; eauto 6|].
  unfold Nodes.try_execute.
  destruct (TestFinder.new_finder (files w) (repo_path st)) as [repo|e];
    [|cbn; eauto 6].
  destruct (TestFinder.detect_build_system (files w) repo) as [bs|];
    [|cbn; eauto 6].
  destruct (TestFinder.find_tests_for_failures _ _ _ _) as [[|t ts]|e];
    cbn; eauto 6.
Qed.

Lemma results_collector_keeps (st : State) :
  let st' := Nodes.results_collector st in
  xml_report_paths st' = xml_report_paths st /\
  repo_path st' = repo_path st /\
  local_exit_code st' = local_exit_code st /\
  execution_success st' = execution_success st.
Proof.
  cbv zeta. unfold Nodes.results_collector.
  destruct (Nodes.collect st); repeat split.
Qed.

(** X24.  Every run, whatever the paths, the repository and the world, goes
    through the six nodes in order and ends with status [completed]; the final
    state still names the report paths and the repository it was started
    with, holds an exit code and a success flag for the local execution, and
    its [final_report] is the rendering of that final state. *)
Theorem every_run_completes (paths : list str) (repo : str) (name : option str) :
  exists final evs,
    run_failure_analysis w 6 paths repo name = Some (final, evs) /\
    entered evs = all_nodes /\
    workflow_status final = completed /\
    xml_report_paths final = paths /\
    repo_path final = repo /\
    (exists code, local_exit_code final = Some code) /\
    (exists ok, execution_success final = Some ok) /\
    final_report final = Some (join newline (Nodes.report_lines w final)).
Proof.
  unfold run_failure_analysis. rewrite invoke_six. cbv zeta.
  set (s0 := initial_state paths repo name).
  set (s1 := Nodes.xml_report_fetcher w s0).
  set (s2 := Nodes.local_repo_access w s1).
  set (s3 := Nodes.local_executor w s2).
  set (s4 := Nodes.results_collector (fst s3)).
  destruct (root_cause_analyzer_shape w s4)
    as (rc & conf & recs & full & s & err & E5).
  rewrite E5.
  destruct (fetcher_keeps s0) as (P1 & R1).
  destruct (local_repo_access_keeps s1) as (P2 & R2 & _ & _).
  destruct (local_executor_keeps s2) as (P3 & R3 & C3 & O3).
  destruct (results_collector_keeps (fst s3)) as (P4 & R4 & C4 & O4).
  do 2 eexists. split; [reflexivity|]. split.
  { rewrite !entered_app, entered_called. reflexivity. }
  split; [reflexivity|].
  cbn [Nodes.report_generator set_report set_analysis xml_report_paths repo_path
       local_exit_code execution_success final_report].
  split; [exact (eq_trans P4 (eq_trans P3 (eq_trans P2 P1)))|].
  split; [exact (eq_trans R4 (eq_trans R3 (eq_trans R2 R1)))|].
  destruct C3 as [code C3]. destruct O3 as [ok O3].
  split; [exists code; exact (eq_trans C4 C3)|].
  split; [exists ok; exact (eq_trans O4 O3)|]. reflexivity.
Qed.

Lemma str_eqb_neq (a b : str) : str_eqb a b = false -> a <> b.
Proof. intros H E. subst. now rewrite str_eqb_same in H. Qed.

(** X25.  After a failed ingestion of the single report the run goes on
    without a summary: no test is run, the executor records exit code 0
    and success (exit code -1 and no success for an empty repository path),
    nothing is collected, and the message of the ingestion error does not
    reach the final state: the collector replaces it by its own, and the
    analyzer keeps that one or replaces it again. *)
Theorem ingestion_error_is_overwritten (path repo : str) (name : option str)
  (e : exc) :
  XmlReader.read_one (files w) path = Raise e ->
  exists final evs,
    run_failure_analysis w 6 [path] repo name = Some (final, evs) /\
    ran_tests evs = false /\
    test_results final = None /\
    collected_data final = None /\
    execution_success final = Some (truthy repo) /\
    local_exit_code final = Some (if truthy repo then 0 else -1) /\
    (error_message final
     = Some (lit "Results collection failed: " ++ Nodes.none_has_no_get) \/
     exists e', error_message final = Some (lit "Analysis failed: " ++ exc_msg e')) /\
    ~ error_message final = Some (lit "XML parsing failed: " ++ exc_msg e).
Proof.
  intros Hr. unfold run_failure_analysis. rewrite invoke_six. cbv zeta.
  rewrite (@fetcher_failure _ w (initial_state [path] repo name) path e eq_refl Hr).
  set (s1 := set_error _ _).
  assert (E3 : Nodes.local_executor w (Nodes.local_repo_access w s1)
               = (set_execution (Nodes.local_repo_access w s1)
                    (if truthy repo then lit "No failures to reproduce" else [])
                    (if truthy repo then [] else [lit "No repository path provided"])
                    (if truthy repo then 0 else -1) (truthy repo), [])).
  { destruct (local_repo_access_keeps s1) as (_ & R2 & _ & F2).
    unfold Nodes.local_executor. rewrite R2, F2. cbn [s1 set_error repo_path
      failure_details initial_state]. now destruct (truthy repo). }
  rewrite E3. cbn [fst snd map app].
  set (s3 := set_execution _ _ _ _ _).
  assert (E4 : Nodes.results_collector s3
               = set_error s3 (lit "Results collection failed: "
                                 ++ Nodes.none_has_no_get)).
  { destruct (local_repo_access_keeps s1) as (_ & _ & T2 & _).
    unfold Nodes.results_collector, Nodes.collect.
    cbn [s3 set_execution test_results]. rewrite T2. reflexivity. }
  rewrite E4. set (s4 := set_error s3 _).
  assert (T4 : test_results s4 = None).
  { destruct (local_repo_access_keeps s1) as (_ & _ & T2 & _).
    cbn [s4 s3 set_error set_execution test_results]. now rewrite T2. }
  assert (C4 : collected_data s4 = None).
  { cbn [s4 s3 set_error set_execution collected_data].
    destruct (local_repo_access_shape w s1) as [E|[msg E]]; now rewrite E. }
  do 2 eexists. split; [reflexivity|]. split; [reflexivity|].
  unfold Nodes.root_cause_analyzer.
  destruct (_ <- llm_invoke w _ ;; _) as [[[[t rc] conf] recs]|e'];
    cbn [Nodes.report_generator set_report set_analysis test_results
         collected_data execution_success local_exit_code error_message];
    (split; [exact T4|]); (split; [exact C4|]);
    (split; [reflexivity|]); (split; [reflexivity|]).
  - split; [left; reflexivity|]. intros H. inversion H.
  - split; [right; now exists e'|]. intros H. inversion H.
Qed.

End MoreRuns.

(** ** The conditional routing of the older graph *)

Section LocalRouting.
Variable St : Type.
Variable is_error : St -> bool.
Variable run_node : LocalGraph.node -> St -> St.

Import LocalGraph.

(** X26.  The graph with conditional edges stops after the fetcher, or after
    the repository node, when that node leaves the error status, and runs
    neither the analyzer nor the report generator then; an error status left
    by the executor, or by any later node, stops nothing: the remaining nodes
    all run. *)
Theorem local_graph_routing (n : nat) (st : St) :
  let s1 := run_node xml_fetcher st in
  let s2 := run_node local_repo s1 in
  let s6 := run_node report_generator
              (run_node root_cause_analyzer
                 (run_node results_collector (run_node local_executor s2))) in
  invoke is_error run_node (6 + n) st
  = if is_error s1 then Some (s1, [xml_fetcher])
    else if is_error s2 then Some (s2, [xml_fetcher; local_repo])
    else Some (s6, [xml_fetcher; local_repo; local_executor; results_collector;
                    root_cause_analyzer; report_generator]).
Proof.
  cbv zeta. unfold invoke. cbn [Nat.add drive]. unfold next, router.
  destruct (is_error (run_node xml_fetcher st)); [reflexivity|].
  destruct (is_error (run_node local_repo (run_node xml_fetcher st)));
    [reflexivity|].
  destruct (is_error (run_node local_executor _)); reflexivity.
Qed.

End LocalRouting.

(** ** Configuration lookup *)

Section ConfigGet.
Variable V : Type.

Import Config.

Lemma dict_get_lookup (k : str) (items : list (str * value V)) (default : value V) :
  dict_get k items default
  = match Xml.lookup_in k items with Some v => v | None => default end.
Proof.
  induction items as [|[k' v] items IH]; [reflexivity|].
  cbn [dict_get Xml.lookup_in]. now destruct (str_eqb k' k).
Qed.

Lemma walk_plain (keys : list str) (d : V) : walk keys (Other d) (Other d) = Other d.
Proof. now destruct keys. Qed.

Lemma walk_stored (keys : list str) (v : value V) (d : V) :
  walk keys v (Other d)
  = match stored keys v with Some v' => v' | None => Other d end.
Proof.
  revert v. induction keys as [|k keys IH]; intros v; [reflexivity|].
  cbn [walk stored]. destruct v as [items|x]; [|reflexivity].
  rewrite dict_get_lookup. destruct (Xml.lookup_in k items) as [v'|]; [apply IH|].
  apply walk_plain.
Qed.

(** Splitting at a one-character separator: a piece without the separator is
    read into the current piece. *)
Lemma split_go_piece (c : char) (k rest cur : str) :
  existsb (char_eqb c) k = false ->
  split_go [c] (k ++ c :: rest) 0 cur
  = (rev cur ++ k) :: split_go [c] rest 0 [].
Proof.
  revert cur. induction k as [|x k IH]; intros cur H.
  - cbn [app split_go starts_with]. unfold char_eqb at 1. rewrite N.eqb_refl.
    cbn [andb length Nat.sub]. now rewrite app_nil_r.
  - change (existsb (char_eqb c) (x :: k))
      with (char_eqb c x || existsb (char_eqb c) k) in H.
    apply orb_false_iff in H. destruct H as [Hx Hk].
    cbn [app split_go starts_with]. rewrite Hx. cbn [andb].
    rewrite (IH (x :: cur) Hk). cbn [rev]. now rewrite <- app_assoc.
Qed.

Lemma split_go_last (c : char) (k cur : str) :
  existsb (char_eqb c) k = false ->
  split_go [c] k 0 cur = [rev cur ++ k].
Proof.
  revert cur. induction k as [|x k IH]; intros cur H.
  - cbn [split_go]. now rewrite app_nil_r.
  - change (existsb (char_eqb c) (x :: k))
      with (char_eqb c x || existsb (char_eqb c) k) in H.
    apply orb_false_iff in H. destruct H as [Hx Hk].
    cbn [split_go starts_with]. rewrite Hx. cbn [andb].
    rewrite (IH (x :: cur) Hk). cbn [rev]. now rewrite <- app_assoc.
Qed.

(** [".".join(keys).split(".")] gives the keys back. *)
Lemma split_join (k : str) (keys : list str) :
  forallb dot_free (k :: keys) = true ->
  split (lit ".") (join (lit ".") (k :: keys)) = k :: keys.
Proof.
  revert k. induction keys as [|k2 keys IH]; intros k H.
  - cbn [forallb] in H. apply andb_true_iff in H. destruct H as [H _].
    apply negb_true_iff in H. unfold split. cbn [join].
    change (lit ".") with [TestFinder.dot].
    now rewrite (split_go_last TestFinder.dot k [] H).
  - change (forallb dot_free (k :: k2 :: keys))
      with (dot_free k && forallb dot_free (k2 :: keys)) in H.
    apply andb_true_iff in H. destruct H as [H1 H2].
    apply negb_true_iff in H1. unfold split.
    change (join (lit ".") (k :: k2 :: keys))
      with (k ++ TestFinder.dot :: join (lit ".") (k2 :: keys)).
    change (split_go (lit ".")) with (split_go [TestFinder.dot]).
    rewrite (split_go_piece TestFinder.dot k _ [] H1). cbn [rev app].
    f_equal. apply (IH k2 H2).
Qed.

(** X27.  With a default that is no mapping, [Config.get] of a dotted key is
    the value stored under that path of keys, and the default as soon as a key
    of the path is missing or a value on the way is no mapping. *)
Theorem get_follows_the_path (config : value V) (k : str) (keys : list str) (d : V) :
  forallb dot_free (k :: keys) = true ->
  get config (join (lit ".") (k :: keys)) (Other d)
  = match stored (k :: keys) config with
    | Some v => v
    | None => Other d
    end.
Proof.
  intros H. unfold get. rewrite (split_join k keys H). apply walk_stored.
Qed.

(** X28.  With a default that is itself a mapping, a key missing at the top
    does not end the lookup: the rest of the dotted key is looked up inside
    the default. *)
Theorem get_descends_into_default (items ditems : list (str * value V))
  (k1 k2 : str) :
  dot_free k1 = true -> dot_free k2 = true ->
  Xml.lookup_in k1 items = None ->
  get (Dict items) (k1 ++ lit "." ++ k2) (Dict ditems)
  = match Xml.lookup_in k2 ditems with
    | Some v => v
    | None => Dict ditems
    end.
Proof.
  intros H1 H2 Hm. unfold get.
  change (k1 ++ lit "." ++ k2) with (join (lit ".") [k1; k2]).
  rewrite (split_join k1 [k2]); [|cbn [forallb]; now rewrite H1, H2].
  cbn [walk]. rewrite (dict_get_lookup k1), Hm. apply dict_get_lookup.
Qed.

End ConfigGet.

(* ========================================================================= *)
(** * The further properties on concrete inputs *)

Module MoreEvaluation.
Import Sample.
#[local] Existing Instance ascii_builtins.

(** A [testsuite] root is recognised by its tag. *)
Lemma detect_format_never_testng_by_descendant_witness :
  forallb Xml.tagged (Xml.children junit_one_failure) = true /\
  XmlReader.detect_format junit_one_failure = Ok junit.
Proof.
  assert (H : forallb Xml.tagged (Xml.children junit_one_failure) = true)
    by (vm_compute; reflexivity).
  split; [exact H|].
  rewrite (detect_format_never_testng_by_descendant junit_one_failure H).
  vm_compute. reflexivity.
Defined.

(** The suite of [testng_with_retry] took 1500 ms; the summary says 0.0. *)
Lemma testng_duration_is_zero_witness :
  forallb Xml.tagged (Xml.children testng_with_retry) = true /\
  XmlReader.parse_testng testng_with_retry = Ok results_testng /\
  duration_seconds results_testng = 0%float /\
  error_tests results_testng = 0 /\
  format results_testng = Some testng.
Proof.
  assert (H1 : forallb Xml.tagged (Xml.children testng_with_retry) = true)
    by (vm_compute; reflexivity).
  assert (H2 : XmlReader.parse_testng testng_with_retry = Ok results_testng)
    by (vm_compute; reflexivity).
  split; [exact H1|]. split; [exact H2|].
  exact (testng_duration_is_zero testng_with_retry H1 H2).
Defined.

Lemma extracted_count_and_result_witness :
  let rd := {| XmlReader.root := junit_one_failure; XmlReader.rformat := junit |} in
  XmlReader.extract_failure_details rd = Ok failures_one_failure /\
  failure_count failures_one_failure = len (test_failures failures_one_failure) /\
  0 <= failure_count failures_one_failure /\
  (result failures_one_failure = SUCCESS <-> test_failures failures_one_failure = []).
Proof.
  cbv zeta.
  assert (H : XmlReader.extract_failure_details
                {| XmlReader.root := junit_one_failure; XmlReader.rformat := junit |}
              = Ok failures_one_failure) by (vm_compute; reflexivity).
  split; [exact H|]. exact (extracted_count_and_result _ H).
Defined.

(** The failed method of [testng_with_retry] has an exception of class
    [java.lang.AssertionError] with a message; the record has neither. *)
Lemma testng_failures_carry_no_details_witness :
  Xml.well_tagged testng_with_retry = true /\
  XmlReader.extract_testng_failures testng_with_retry = Ok failures_testng /\
  error_lines failures_testng = [] /\
  has_assertion_error failures_testng = false.
Proof.
  assert (H1 : Xml.well_tagged testng_with_retry = true)
    by (vm_compute; reflexivity).
  assert (H2 : XmlReader.extract_testng_failures testng_with_retry
               = Ok failures_testng) by (vm_compute; reflexivity).
  split; [exact H1|]. split; [exact H2|].
  destruct (testng_failures_carry_no_details testng_with_retry H1 H2)
    as (R1 & _ & R3 & _).
  split; [exact R1|exact R3].
Defined.

Lemma testng_class_name_from_signature_witness :
  f_class_name (fst (XmlReader.testng_failure failed_method_testBar))
  = lit "com.acme.FooTest" /\
  contains (lit "instance:com.acme.FooTest@")
           (or_else (Xml.get failed_method_testBar (lit "signature")) []) = true.
Proof.
  assert (E : f_class_name (fst (XmlReader.testng_failure failed_method_testBar))
              = lit "com.acme.FooTest") by (vm_compute; reflexivity).
  split; [exact E|].
  pose proof (testng_class_name_from_signature failed_method_testBar) as P.
  cbv zeta in P. rewrite E in P. destruct (P eq_refl) as [_ R]. exact R.
Defined.

Lemma junit_merge_is_balanced_witness :
  let paths := [lit "error.xml"; lit "pass.xml"] in
  forallb XmlReader.is_junit (XmlReader.readable fs_reports paths) = true /\
  let m := XmlReader.merge_reports fs_reports paths in
  m_passed_tests m + m_failed_tests m + m_error_tests m + m_skipped_tests m
  = m_total_tests m.
Proof.
  cbv zeta.
  assert (H : forallb XmlReader.is_junit
                (XmlReader.readable fs_reports [lit "error.xml"; lit "pass.xml"])
              = true) by (vm_compute; reflexivity).
  split; [exact H|]. exact (junit_merge_is_balanced fs_reports _ H).
Defined.

(** A report with an assertion failure, merged with a file that is missing. *)
Lemma merged_flags_cover_files_witness :
  let paths := [lit "report.xml"; lit "missing.xml"] in
  In (results_one_failure, failures_one_failure)
     (XmlReader.readable fs_no_build_tool paths) /\
  m_has_assertion_error (XmlReader.merge_reports fs_no_build_tool paths) = true.
Proof.
  cbv zeta.
  assert (H : In (results_one_failure, failures_one_failure)
                 (XmlReader.readable fs_no_build_tool
                    [lit "report.xml"; lit "missing.xml"]))
    by (left; vm_compute; reflexivity).
  split; [exact H|].
  pose proof (merged_flags_cover_files fs_no_build_tool _ _ _ H) as P.
  cbv zeta in P. destruct P as (_ & _ & R). apply R. reflexivity.
Defined.

Lemma signature_without_blank_not_matched_witness :
  let signature := lit "com.acme.CalcTest.testMul()" in
  existsb (char_eqb TestFinder.space) signature = false /\
  TestFinder.match_signature signature = None /\
  TestFinder.find_test_by_signature fs_maven (lit "repo") signature None = Ok None.
Proof.
  cbv zeta.
  assert (H : existsb (char_eqb TestFinder.space) (lit "com.acme.CalcTest.testMul()")
              = false) by (vm_compute; reflexivity).
  split; [exact H|].
  exact (signature_without_blank_not_matched fs_maven (lit "repo") _ None H).
Defined.

Lemma located_tests_bounded_witness :
  TestFinder.find_tests_for_failures fs_maven (lit "repo") [failure_signed] None
  = Ok [located_signed] /\
  (length [located_signed] <= length [failure_signed])%nat /\
  exists f, In f [failure_signed] /\ failure_info located_signed = Some f.
Proof.
  assert (H : TestFinder.find_tests_for_failures fs_maven (lit "repo")
                [failure_signed] None = Ok [located_signed])
    by (vm_compute; reflexivity).
  split; [exact H|].
  destruct (located_tests_bounded fs_maven (lit "repo") [failure_signed] None H)
    as [R1 R2].
  split; [exact R1|]. apply R2. now left.
Defined.

Lemma completed_process_is_mirrored_witness :
  let r := JavaExecutor.run_specific_tests runner_failing (lit "repo") maven
             [located_testMul] 300 in
  success r = false /\
  exit_code r = 1 /\
  output r = lit "Tests run: 1, Failures: 1" /\
  errors r = [lit "BUILD FAILURE"].
Proof.
  cbv zeta.
  assert (H1 : maven = maven \/ maven = gradle) by (left; reflexivity).
  assert (H2 : [located_testMul] <> []) by discriminate.
  assert (H3 : forallb JavaExecutor.has_class [located_testMul] = true)
    by (vm_compute; reflexivity).
  pose proof (@completed_process_is_mirrored ascii_builtins runner_failing
                (lit "repo") maven [located_testMul] 300 1
                (lit "Tests run: 1, Failures: 1") (lit "BUILD FAILURE")
                H1 H2 H3 eq_refl) as P.
  cbv zeta in P. destruct P as (R1 & R2 & R3 & R4 & _).
  repeat split; assumption.
Defined.

Lemma command_line_shape_witness :
  forallb JavaExecutor.has_class [located_testMul] = true /\
  length (JavaExecutor.gradle_command [located_testMul]) = 4%nat /\
  length (JavaExecutor.maven_command (JavaExecutor.maven_specs [located_testMul]))
  = 4%nat.
Proof.
  assert (H : forallb JavaExecutor.has_class [located_testMul] = true)
    by (vm_compute; reflexivity).
  split; [exact H|].
  destruct (command_line_shape [located_testMul] H) as (R1 & _ & R3 & _).
  split; [exact R1|exact R3].
Defined.

(** A Maven checkout that holds the failing class: the executor still finds
    nothing to run for the failure of a JUnit report. *)
Lemma junit_failures_never_executed_witness :
  XmlReader.extract_junit_failures junit_one_failure = Ok failures_one_failure /\
  TestFinder.detect_build_system (files world_maven) (path_str (lit "repo"))
  = Some maven /\
  Nodes.local_executor world_maven ingested_one_failure
  = (set_execution ingested_one_failure
       (lit "Failed tests not found in repository")
       [lit "Test files could not be located"] (-1) false,
     [CallNewFinder; CallDetectBuildSystem; CallFindTests]).
Proof.
  assert (H2 : XmlReader.extract_junit_failures junit_one_failure
               = Ok failures_one_failure) by (vm_compute; reflexivity).
  assert (H3 : failure_count failures_one_failure <> 0) by (simpl; lia).
  assert (H6 : TestFinder.detect_build_system (files world_maven)
                 (path_str (repo_path ingested_one_failure)) = Some maven)
    by (vm_compute; reflexivity).
  split; [exact H2|]. split; [exact H6|].
  exact (@junit_failures_never_executed ascii_builtins world_maven
           ingested_one_failure junit_one_failure failures_one_failure maven
           eq_refl H2 H3 eq_refl eq_refl H6).
Defined.

Lemma response_with_confidence_marker_witness :
  llm_invoke world_confident (Nodes.prompt_vars ingested_one_failure)
  = Ok (lit confident_reply) /\
  contains Nodes.marker_confidence (lit confident_reply) = true /\
  workflow_status (Nodes.root_cause_analyzer world_confident ingested_one_failure)
  = error.
Proof.
  assert (H2 : contains Nodes.marker_confidence (lit confident_reply) = true)
    by (vm_compute; reflexivity).
  split; [reflexivity|]. split; [exact H2|].
  rewrite (@response_with_confidence_marker ascii_builtins world_confident
             ingested_one_failure (lit confident_reply) eq_refl H2).
  reflexivity.
Defined.

Lemma multi_file_fetch_never_fails_witness :
  let st := Graph.initial_state [lit "error.xml"; lit "missing.xml"] (lit "repo")
              None in
  (2 <= length (xml_report_paths st))%nat /\
  workflow_status (Nodes.xml_report_fetcher world_reports st) = xml_fetched /\
  error_message (Nodes.xml_report_fetcher world_reports st) = None.
Proof.
  cbv zeta.
  assert (H : (2 <= length (xml_report_paths
                              (Graph.initial_state
                                 [lit "error.xml"; lit "missing.xml"] (lit "repo")
                                 None)))%nat) by (simpl; lia).
  split; [exact H|].
  pose proof (multi_file_fetch_never_fails world_reports _ H) as P.
  cbv zeta in P. destruct P as (R1 & R2 & _). split; [exact R1|exact R2].
Defined.

(** A malformed file and a missing one. *)
Lemma unreadable_reports_look_passing_witness :
  let st := Graph.initial_state [lit "bad.xml"; lit "missing.xml"] (lit "repo")
              None in
  XmlReader.read_one (files world_malformed) (lit "bad.xml")
  = Raise (Exc ValueError (lit "Invalid XML file: syntax error: line 1, column 0")) /\
  XmlReader.read_one (files world_malformed) (lit "missing.xml")
  = Raise (Exc FileNotFoundError (lit "XML file not found: missing.xml")) /\
  workflow_status (Nodes.xml_report_fetcher world_malformed st) = xml_fetched /\
  option_map result (failure_details (Nodes.xml_report_fetcher world_malformed st))
  = Some SUCCESS.
Proof.
  cbv zeta.
  assert (H1 : XmlReader.read_one (files world_malformed) (lit "bad.xml")
               = Raise (Exc ValueError
                          (lit "Invalid XML file: syntax error: line 1, column 0")))
    by (vm_compute; reflexivity).
  assert (H2 : XmlReader.read_one (files world_malformed) (lit "missing.xml")
               = Raise (Exc FileNotFoundError (lit "XML file not found: missing.xml")))
    by (vm_compute; reflexivity).
  split; [exact H1|]. split; [exact H2|].
  assert (Hl : (2 <= length (xml_report_paths
                               (Graph.initial_state
                                  [lit "bad.xml"; lit "missing.xml"] (lit "repo")
                                  None)))%nat) by (simpl; lia).
  assert (Hall : forall p,
             In p (xml_report_paths
                     (Graph.initial_state [lit "bad.xml"; lit "missing.xml"]
                        (lit "repo") None)) ->
             exists e, XmlReader.read_one (files world_malformed) p = Raise e).
  { intros p [E|[E|[]]]; rewrite <- E; eexists; [exact H1|exact H2]. }
  pose proof (unreadable_reports_look_passing world_malformed _ Hl Hall) as P.
  cbv zeta in P. destruct P as (R1 & _ & R3 & _).
  split; [exact R1|]. rewrite R3. reflexivity.
Defined.

Lemma ingestion_error_is_overwritten_witness :
  XmlReader.read_one (files world_malformed) (lit "bad.xml")
  = Raise (Exc ValueError (lit "Invalid XML file: syntax error: line 1, column 0")) /\
  exists final evs,
    Graph.run_failure_analysis world_malformed 6 [lit "bad.xml"] (lit "repo") None
    = Some (final, evs) /\
    execution_success final = Some true /\
    collected_data final = None.
Proof.
  assert (H : XmlReader.read_one (files world_malformed) (lit "bad.xml")
              = Raise (Exc ValueError
                         (lit "Invalid XML file: syntax error: line 1, column 0")))
    by (vm_compute; reflexivity).
  split; [exact H|].
  destruct (@ingestion_error_is_overwritten ascii_builtins world_malformed
              (lit "bad.xml") (lit "repo") None _ H)
    as (final & evs & R1 & _ & _ & R4 & R5 & _).
  exists final, evs. split; [exact R1|]. split; [exact R5|exact R4].
Defined.

Lemma get_follows_the_path_witness :
  forallb Config.dot_free [lit "llm"; lit "model"] = true /\
  Config.get config_example (lit "llm.model") (Config.Other (lit "none"))
  = Config.Other (lit "claude") /\
  forallb Config.dot_free [lit "llm"; lit "model"; lit "name"] = true /\
  Config.get config_example (lit "llm.model.name") (Config.Other (lit "none"))
  = Config.Other (lit "none").
Proof.
  assert (H1 : forallb Config.dot_free [lit "llm"; lit "model"] = true)
    by (vm_compute; reflexivity).
  assert (H2 : forallb Config.dot_free [lit "llm"; lit "model"; lit "name"] = true)
    by (vm_compute; reflexivity).
  split; [exact H1|]. split.
  - exact (get_follows_the_path config_example (lit "llm") [lit "model"]
             (lit "none") H1).
  - split; [exact H2|].
    exact (get_follows_the_path config_example (lit "llm")
             [lit "model"; lit "name"] (lit "none") H2).
Defined.

(** A key that is not in the file, looked up with the [llm] mapping as the
    default. *)
Lemma get_descends_into_default_witness :
  let items := [(lit "execution",
                 Config.Dict [(lit "timeout", Config.Other (lit "300"))])] in
  let ditems := [(lit "model", Config.Other (lit "claude"))] in
  Xml.lookup_in (lit "llm") items = None /\
  Config.get (Config.Dict items) (lit "llm.model") (Config.Dict ditems)
  = Config.Other (lit "claude").
Proof.
  cbv zeta. split; [reflexivity|].
  exact (@get_descends_into_default str
           [(lit "execution", Config.Dict [(lit "timeout", Config.Other (lit "300"))])]
           [(lit "model", Config.Other (lit "claude"))]
           (lit "llm") (lit "model") eq_refl eq_refl eq_refl).
Defined.

End MoreEvaluation.
